(** * MILQT training orchestration: a shallow embedding of [train.py] and
      [trainer.py], and the properties of its specification.

    Conventions of the embedding.
    - Python integers are [Z]; [%] is [Z.modulo] (the sign follows the
      divisor, as in Python) and raises [ZeroDivisionError] on a zero divisor.
    - Python floats that the driver itself computes with (the learning rate)
      are binary64 primitive floats.
    - Tensors are the lists of their elements in row-major order; a matrix is
      the list of its rows.  The score function is embedded over exact
      rationals; the gradient pipeline is generic in the scalar type.
    - Exceptions are values of [exn]; a computation that may raise returns a
      [res].  Code that mutates the trainer runs in a state monad whose state
      survives a raised exception, as a Python object does.
    - The network, the loss, the optimizer and [utils.clip_grad_norm_] are
      collaborators outside the two source files; they are parameters
      ([Backend]) or outcomes carried by the sample. *)

From Stdlib Require Import ZArith String Ascii Bool Lia QArith Floats Reals Lra List.
Import ListNotations.

Set Implicit Arguments.
Set Warnings "-inexact-float".

Local Open Scope string_scope.
Local Open Scope list_scope.
Local Open Scope Z_scope.

(* ================================================================== *)
(** ** Exceptions and results *)

Inductive exn : Type :=
| RuntimeError (msg : string)
| OverflowError (msg : string)
| UnboundLocalError (var : string)
| TypeError
| AttributeError
| IndexError
| ZeroDivisionError.

Inductive res (X : Type) : Type :=
| Ok (x : X)
| Raise (e : exn).

Arguments Ok {X} x.
Arguments Raise {X} e.

Definition res_bind {X Y : Type} (r : res X) (k : X -> res Y) : res Y :=
  match r with
  | Ok x => k x
  | Raise e => Raise e
  end.

Notation "'let?' x ':=' r 'in' k" := (res_bind r (fun x => k))
  (at level 10, x pattern, r at level 100, k at level 200).

(** [str(e)] of the exceptions that carry a message. *)
Definition str (e : exn) : string :=
  match e with
  | RuntimeError msg => msg
  | OverflowError msg => msg
  | UnboundLocalError var =>
      ("local variable '" ++ var ++ "' referenced before assignment")%string
  | TypeError => "TypeError"
  | AttributeError => "AttributeError"
  | IndexError => "IndexError"
  | ZeroDivisionError => "division by zero"
  end.

(* ================================================================== *)
(** ** Python primitives the two files use *)

(** [needle in hay] on strings. *)
Fixpoint contains (needle hay : string) : bool :=
  if String.prefix needle hay then true
  else match hay with
       | EmptyString => false
       | String _ rest => contains needle rest
       end.

(** [a % b] on integers. *)
Definition py_mod (a b : Z) : res Z :=
  if b =? 0 then Raise ZeroDivisionError else Ok (a mod b).

(** [int(a / b)] for integers [a], [b]: true division, then truncation
    toward zero.  (Exact as long as the quotient is below 2^52, where the
    binary64 division cannot round up to the next integer.) *)
Definition py_int_truediv (a b : Z) : res Z :=
  if b =? 0 then Raise ZeroDivisionError else Ok (Z.quot a b).

(** [int(a / b + 1)], same remark. *)
Definition py_int_truediv_plus1 (a b : Z) : res Z :=
  if b =? 0 then Raise ZeroDivisionError else Ok (Z.quot (a + b) b).

(** [x in range(start, stop, step)] for a positive [step]. *)
Definition in_range (start stop step x : Z) : bool :=
  (start <=? x) && (x <? stop) && ((x - start) mod step =? 0).

(** [range(start, stop)] as the list it iterates over. *)
Definition py_range (start stop : Z) : list Z :=
  map (fun k => start + Z.of_nat k) (seq 0 (Z.to_nat (stop - start))).

(** [l[i]] with Python's negative indices. *)
Definition py_getitem {X : Type} (l : list X) (i : Z) : res X :=
  let n := Z.of_nat (length l) in
  let j := if i <? 0 then i + n else i in
  if (0 <=? j) && (j <? n) then
    match nth_error l (Z.to_nat j) with
    | Some x => Ok x
    | None => Raise IndexError
    end
  else Raise IndexError.

(** [enumerate(l)]. *)
Fixpoint enumerate_from {X : Type} (i : Z) (l : list X) : list (Z * X) :=
  match l with
  | [] => []
  | x :: l' => (i, x) :: enumerate_from (i + 1) l'
  end.

Definition enumerate {X : Type} (l : list X) : list (Z * X) := enumerate_from 0 l.

(* ================================================================== *)
(** ** [compute_score_with_logits] (train.py 20-25, trainer.py 259-264) *)

Module Score.

Definition row := list Q.
Definition matrix := list row.

(** [torch.max(row)[1]]: the index of the first maximal entry. *)
Fixpoint argmax_from (best_i : nat) (best : Q) (i : nat) (xs : row) : nat :=
  match xs with
  | [] => best_i
  | x :: xs' =>
      if Qle_bool x best then argmax_from best_i best (S i) xs'
      else argmax_from i x (S i) xs'
  end.

Definition argmax (r : row) : res nat :=
  match r with
  | [] => Raise IndexError   (* max over an empty dimension *)
  | x :: xs => Ok (argmax_from 0 x 1 xs)
  end.

(** [torch.max(logits, 1)[1]]. *)
Fixpoint argmax_rows (logits : matrix) : res (list nat) :=
  match logits with
  | [] => Ok []
  | r :: rest =>
      let? j := argmax r in
      let? js := argmax_rows rest in
      Ok (j :: js)
  end.

(** A zero tensor of the shape of [labels] ([torch.zeros]). *)
Definition zeros_like (labels : matrix) : matrix :=
  map (map (fun _ => 0%Q)) labels.

Fixpoint set_nth (j : nat) (v : Q) (r : row) : row :=
  match r, j with
  | [], _ => []
  | _ :: r', O => v :: r'
  | x :: r', S j' => x :: set_nth j' v r'
  end.

(** [one_hots.scatter_(1, index.view(-1, 1), 1)]: row [i] of the index writes
    a 1 at column [index[i]]; the index may not have more rows than
    [one_hots], nor point past a row's end. *)
Fixpoint scatter_ (one_hots : matrix) (index : list nat) : res matrix :=
  match index with
  | [] => Ok one_hots
  | j :: index' =>
      match one_hots with
      | [] => Raise (RuntimeError "scatter_: index out of bounds")
      | r :: rest =>
          if (j <? length r)%nat then
            let? rest' := scatter_ rest index' in
            Ok (set_nth j 1%Q r :: rest')
          else Raise (RuntimeError "scatter_: index out of bounds")
      end
  end.

(** Elementwise product of two matrices of the same shape. *)
Fixpoint mul_row (a b : row) : row :=
  match a, b with
  | x :: a', y :: b' => (x * y)%Q :: mul_row a' b'
  | _, _ => []
  end.

Fixpoint mul (a b : matrix) : matrix :=
  match a, b with
  | r :: a', s :: b' => mul_row r s :: mul a' b'
  | _, _ => []
  end.

Definition compute_score_with_logits (logits labels : matrix) : res matrix :=
  let? logits := argmax_rows logits in
  let? one_hots := scatter_ (zeros_like labels) logits in
  Ok (mul one_hots labels).

(** [t.sum()] of a vector and of a matrix, and the per-example score
    [scores.sum(1)]. *)
Definition sum_row (r : row) : Q := fold_left Qplus r 0%Q.
Definition sum_rows (m : matrix) : list Q := map sum_row m.
Definition sum (m : matrix) : Q := sum_row (sum_rows m).

(** [t.max(1)[0]]: the largest entry of each row. *)
Definition max_row (r : row) : res Q :=
  match r with
  | [] => Raise IndexError
  | x :: xs => Ok (fold_left (fun m y => if Qle_bool y m then m else y) xs x)
  end.

Fixpoint max_rows (m : matrix) : res (list Q) :=
  match m with
  | [] => Ok []
  | r :: rest =>
      let? x := max_row r in
      let? xs := max_rows rest in
      Ok (x :: xs)
  end.

(** Two matrices have the same shape. *)
Definition same_shape (a b : matrix) : Prop :=
  Forall2 (fun r s => length r = length s) a b.

End Score.

(* ================================================================== *)
(** ** The learning-rate policy of [train] (train.py 30-35 and 72-79) *)

Module LR.

Definition lr_decay_step : Z := 2.
Definition lr_decay_rate : float := 0.25%float.

(** [epoch in lr_decay_epochs], with [lr_decay_epochs = range(10, 20, 2)]. *)
Definition lr_decay_epochs (epoch : Z) : bool := in_range 10 20 lr_decay_step epoch.

Definition gradual_warmup_steps (lr_default : float) : list float :=
  [ 0.5 * lr_default; 1.0 * lr_default; 1.5 * lr_default; 2.0 * lr_default ]%float.

(** The [if]/[elif]/[else] at the head of an epoch: the new value of
    [optimizer.param_groups[0]['lr']], given its current value [lr]. *)
Definition set_epoch_lr (lr_default : float) (epoch : Z) (lr : float) : res float :=
  if epoch <? Z.of_nat (length (gradual_warmup_steps lr_default)) then
    py_getitem (gradual_warmup_steps lr_default) epoch
  else if lr_decay_epochs epoch then Ok (lr * lr_decay_rate)%float
  else Ok lr.

(** The learning rate after the heads of the given epochs, in order. *)
Fixpoint run_epochs (lr_default : float) (epochs : list Z) (lr : float) : res float :=
  match epochs with
  | [] => Ok lr
  | epoch :: rest =>
      let? lr' := set_epoch_lr lr_default epoch lr in
      run_epochs lr_default rest lr'
  end.

(** The learning rate in effect during [epoch] of a run
    [for epoch in range(s_epoch, num_epochs)] whose optimizer starts at
    [lr_init] ([lr_default] when [train] builds the optimizer itself). *)
Definition lr_during (lr_default : float) (s_epoch epoch : Z) (lr_init : float) : res float :=
  run_epochs lr_default (py_range s_epoch (epoch + 1)) lr_init.

End LR.

(* ================================================================== *)
(** ** A state monad with exceptions *)

Definition M (S X : Type) : Type := S -> res X * S.

Definition ret {S X : Type} (x : X) : M S X := fun s => (Ok x, s).

Definition raise {S X : Type} (e : exn) : M S X := fun s => (Raise e, s).

Definition bind {S X Y : Type} (c : M S X) (k : X -> M S Y) : M S Y :=
  fun s =>
    match c s with
    | (Ok x, s') => k x s'
    | (Raise e, s') => (Raise e, s')
    end.

(** [try: c  except: handler]; a handler re-raises what it does not catch. *)
Definition try_except {S X : Type} (c : M S X) (handler : exn -> M S X) : M S X :=
  fun s =>
    match c s with
    | (Ok x, s') => (Ok x, s')
    | (Raise e, s') => handler e s'
    end.

Definition get {S : Type} : M S S := fun s => (Ok s, s).
Definition modify {S : Type} (f : S -> S) : M S unit := fun s => (Ok tt, f s).
Definition lift_res {S X : Type} (r : res X) : M S X := fun s => (r, s).

Notation "x <- c ;; k" := (bind c (fun x => k))
  (at level 61, c at next level, right associativity).
Notation "c ;; k" := (bind c (fun _ => k))
  (at level 61, right associativity).
Notation "' p <- c ;; k" := (bind c (fun x => let 'p := x in k))
  (at level 61, p pattern, c at next level, right associativity).

(* ================================================================== *)
(** ** The collaborators *)

(** The scalar arithmetic of the tensor library, the optimizer, and
    [utils.clip_grad_norm_], which [trainer.py] calls and does not define. *)
Class Backend (A O : Type) : Type := {
  zero : A;                       (* 0, and an element of [zero_()] *)
  one : A;
  add : A -> A -> A;              (* [+]; also autograd's accumulation *)
  div_int : A -> Z -> A;          (* an element of [tensor.div_(n)]; [x / n] *)
  gtb : A -> A -> bool;           (* [x > y] *)
  (* [utils.clip_grad_norm_(tensor, max_norm)]: what it returns or raises,
     and the tensor it leaves (it works in place) *)
  clip_grad_norm_ : list A -> A -> res A * list A;
  (* [optimizer.step()] on the gradients of the optimizer's parameters *)
  optimizer_step : list (option (list A)) -> O -> O;
  (* [optimizer.zero_grad()] resets a gradient to [None] rather than to zeros *)
  set_to_none : bool
}.

(** A model parameter: its name, [requires_grad] and [grad] (a tensor or
    [None]). *)
Record param (A : Type) : Type := {
  name : string;
  requires_grad : bool;
  grad : option (list A)
}.

(** What [loss.backward()] does: the gradient contribution of every
    parameter, in the order of [named_parameters()], or an exception. *)
Inductive backward_outcome (A : Type) : Type :=
| BackwardOk (contribution : list (option (list A)))
| BackwardRaise (e : exn).

Record loss_t (A : Type) : Type := {
  item : A;
  backward : backward_outcome A
}.

(** What the network and the criterion do on a sample inside the [try] of
    [_forward]: the loss and the two scores, or an exception raised before
    any of them is assigned. *)
Inductive forward_outcome (A : Type) : Type :=
| ForwardOk (loss : loss_t A) (batch_score batch_question_type_score : A)
| ForwardRaise (e : exn).

(** A sample [v, b, q, a, qt], as far as the trainer looks at it. *)
Record sample_t (A : Type) : Type := {
  forward : forward_outcome A;
  len0 : Z                        (* [len(sample[0])] *)
}.

Arguments BackwardRaise {A} e.
Arguments ForwardRaise {A} e.

(* ================================================================== *)
(** ** [class Trainer] (trainer.py) *)

Module Trainer.

Section Defs.

Context {A O : Type} {B : Backend A O}.

Record args_t : Type := {
  model : string;                 (* [args.model] *)
  clip_norm : A                   (* [args.clip_norm] *)
}.

(** The three meters the commit path updates, as the values passed to their
    [update], oldest first. *)
Record meters_t : Type := {
  gnorm : list A;
  clip : list A;
  oom : list Z
}.

(** [self._buffered_stats]: a defaultdict of lists, used under three keys. *)
Record buffered_stats : Type := {
  sample_sizes : list Z;
  ooms_fwd : list Z;
  ooms_bwd : list Z
}.

(** The calls made on the optimizer, oldest first. *)
Inductive call : Type := StepCall | ZeroGradCall.

Record trainer : Type := {
  args : args_t;
  training : bool;                     (* [self.model.training] *)
  named_parameters : list (param A);   (* [self.model.named_parameters()] *)
  meters : meters_t;
  _buffered_stats : buffered_stats;
  _flat_grads : option (list A);
  _num_updates : Z;
  _optimizer : option O;
  stdout : list string;                (* the lines printed *)
  optimizer_calls : list call
}.

Definition with_training (v : bool) (t : trainer) : trainer :=
  {| args := args t; training := v; named_parameters := named_parameters t;
     meters := meters t; _buffered_stats := _buffered_stats t;
     _flat_grads := _flat_grads t; _num_updates := _num_updates t;
     _optimizer := _optimizer t; stdout := stdout t;
     optimizer_calls := optimizer_calls t |}.

Definition with_named_parameters (v : list (param A)) (t : trainer) : trainer :=
  {| args := args t; training := training t; named_parameters := v;
     meters := meters t; _buffered_stats := _buffered_stats t;
     _flat_grads := _flat_grads t; _num_updates := _num_updates t;
     _optimizer := _optimizer t; stdout := stdout t;
     optimizer_calls := optimizer_calls t |}.

Definition with_meters (v : meters_t) (t : trainer) : trainer :=
  {| args := args t; training := training t; named_parameters := named_parameters t;
     meters := v; _buffered_stats := _buffered_stats t;
     _flat_grads := _flat_grads t; _num_updates := _num_updates t;
     _optimizer := _optimizer t; stdout := stdout t;
     optimizer_calls := optimizer_calls t |}.

Definition with_buffered_stats (v : buffered_stats) (t : trainer) : trainer :=
  {| args := args t; training := training t; named_parameters := named_parameters t;
     meters := meters t; _buffered_stats := v;
     _flat_grads := _flat_grads t; _num_updates := _num_updates t;
     _optimizer := _optimizer t; stdout := stdout t;
     optimizer_calls := optimizer_calls t |}.

Definition with_flat_grads (v : option (list A)) (t : trainer) : trainer :=
  {| args := args t; training := training t; named_parameters := named_parameters t;
     meters := meters t; _buffered_stats := _buffered_stats t;
     _flat_grads := v; _num_updates := _num_updates t;
     _optimizer := _optimizer t; stdout := stdout t;
     optimizer_calls := optimizer_calls t |}.

Definition with_num_updates (v : Z) (t : trainer) : trainer :=
  {| args := args t; training := training t; named_parameters := named_parameters t;
     meters := meters t; _buffered_stats := _buffered_stats t;
     _flat_grads := _flat_grads t; _num_updates := v;
     _optimizer := _optimizer t; stdout := stdout t;
     optimizer_calls := optimizer_calls t |}.

Definition with_optimizer (v : option O) (t : trainer) : trainer :=
  {| args := args t; training := training t; named_parameters := named_parameters t;
     meters := meters t; _buffered_stats := _buffered_stats t;
     _flat_grads := _flat_grads t; _num_updates := _num_updates t;
     _optimizer := v; stdout := stdout t;
     optimizer_calls := optimizer_calls t |}.

Definition with_stdout (v : list string) (t : trainer) : trainer :=
  {| args := args t; training := training t; named_parameters := named_parameters t;
     meters := meters t; _buffered_stats := _buffered_stats t;
     _flat_grads := _flat_grads t; _num_updates := _num_updates t;
     _optimizer := _optimizer t; stdout := v;
     optimizer_calls := optimizer_calls t |}.

Definition with_optimizer_calls (v : list call) (t : trainer) : trainer :=
  {| args := args t; training := training t; named_parameters := named_parameters t;
     meters := meters t; _buffered_stats := _buffered_stats t;
     _flat_grads := _flat_grads t; _num_updates := _num_updates t;
     _optimizer := _optimizer t; stdout := stdout t;
     optimizer_calls := v |}.

Definition with_grad (v : option (list A)) (p : param A) : param A :=
  {| name := name p; requires_grad := requires_grad p; grad := v |}.

Definition print (line : string) : M trainer unit :=
  modify (fun t => with_stdout (stdout t ++ [line]) t).

(** The gradients of the parameters the optimizer was built over
    ([filter(lambda p: p.requires_grad, model.parameters())]). *)
Definition optimizer_grads (ps : list (param A)) : list (option (list A)) :=
  map (@grad A) (filter (@requires_grad A) ps).

(** [optimizer.zero_grad()] on one parameter. *)
Definition zero_param (p : param A) : param A :=
  if requires_grad p then
    with_grad (if set_to_none then None
              else option_map (map (fun _ => zero)) (grad p)) p
  else p.

(** [loss.backward()] on one parameter: autograd adds the contribution to
    the gradient already there. *)
Fixpoint add_tensor (g c : list A) : list A :=
  match g, c with
  | x :: g', y :: c' => add x y :: add_tensor g' c'
  | _, _ => g
  end.

Definition accumulate_param (p : param A) (c : option (list A)) : param A :=
  if requires_grad p then
    match c, grad p with
    | None, _ => p
    | Some c, None => with_grad (Some c) p
    | Some c, Some g => with_grad (Some (add_tensor g c)) p
    end
  else p.

Fixpoint accumulate (ps : list (param A)) (cs : list (option (list A)))
  : list (param A) :=
  match ps, cs with
  | p :: ps', c :: cs' => accumulate_param p c :: accumulate ps' cs'
  | _, _ => ps
  end.

(** The [optimizer] property: [_build_optimizer] is [pass], so a trainer
    built without an optimizer hands out [None]. *)
Definition optimizer : M trainer (option O) :=
  t <- get ;; ret (_optimizer t).

Definition zero_grad : M trainer unit :=
  o <- optimizer ;;
  match o with
  | None => raise AttributeError
  | Some _ =>
      modify (fun t =>
        with_optimizer_calls (optimizer_calls t ++ [ZeroGradCall])
          (with_named_parameters (map zero_param (named_parameters t)) t))
  end.

Definition clear_buffered_stats : M trainer unit :=
  modify (with_buffered_stats
            {| sample_sizes := []; ooms_fwd := []; ooms_bwd := [] |}).


Definition _opt : M trainer unit :=
  o <- optimizer ;;
  match o with
  | None => raise AttributeError
  | Some o =>
      modify (fun t =>
        with_optimizer_calls (optimizer_calls t ++ [StepCall])
          (with_optimizer
             (Some (optimizer_step (optimizer_grads (named_parameters t)) o)) t))
  end ;;
  zero_grad ;;
  modify (fun t => with_num_updates (_num_updates t + 1) t).

Definition missing_gradient (name : string) : exn :=
  RuntimeError
    ("Model parameter did not receive gradient: " ++ name ++ ". "
     ++ "Use the param in the forward pass or set requires_grad=False")%string.

Fixpoint get_grads (ps : list (param A)) : res (list (list A)) :=
  match ps with
  | [] => Ok []
  | p :: rest =>
      if negb (requires_grad p) then get_grads rest
      else match grad p with
           | None => Raise (missing_gradient (name p))
           | Some g =>
               let? gs := get_grads rest in
               Ok (g :: gs)
           end
  end.

Definition _get_grads : M trainer (list (list A)) :=
  t <- get ;; lift_res (get_grads (named_parameters t)).

(** [g.numel()]. *)
Definition numel (g : list A) : nat := length g.

(** [out[offset:offset+numel].copy_(g.view(-1))]; the tensor library rejects
    a copy between a slice and a tensor of different sizes. *)
Definition copy_slice (out : list A) (offset : nat) (g : list A) : res (list A) :=
  if (offset + numel g <=? length out)%nat then
    Ok (firstn offset out ++ g ++ skipn (offset + numel g) out)
  else Raise (RuntimeError "copy_: size mismatch").

(** The loop of [_get_flat_grads]: the buffer and the offset after it. *)
Fixpoint flatten_into (out : list A) (offset : nat) (grads : list (list A))
  : res (list A * nat) :=
  match grads with
  | [] => Ok (out, offset)
  | g :: rest =>
      let? out' := copy_slice out offset g in
      flatten_into out' (offset + numel g)%nat rest
  end.

Definition _get_flat_grads (out : option (list A)) : M trainer (list A) :=
  grads <- _get_grads ;;
  out <- match out with
         | None =>
             let grads_size := list_sum (map numel grads) in
             match grads with
             | [] => raise IndexError          (* [grads[0]] *)
             | _ :: _ => ret (repeat zero grads_size)
             end
         | Some out => ret out
         end ;;
  '(out, offset) <- lift_res (flatten_into out 0 grads) ;;
  ret (firstn offset out).

(** The loop of [_set_flat_grads]: every gradient tensor is overwritten in
    place, so the parameters already written stay written when a later
    [view_as] fails. *)
Fixpoint scatter_into (ps : list (param A)) (new_grads : list A) (offset : nat)
  : res unit * list (param A) :=
  match ps with
  | [] => (Ok tt, [])
  | p :: rest =>
      match (if requires_grad p then grad p else None) with
      | None =>
          let '(r, rest') := scatter_into rest new_grads offset in
          (r, p :: rest')
      | Some g =>
          if (offset + numel g <=? length new_grads)%nat then
            let p' := with_grad (Some (firstn (numel g) (skipn offset new_grads))) p in
            let '(r, rest') := scatter_into rest new_grads (offset + numel g)%nat in
            (r, p' :: rest')
          else (Raise (RuntimeError "view_as: shape is invalid for input"), p :: rest)
      end
  end.

Definition _set_flat_grads (new_grads : list A) : M trainer unit :=
  _ <- _get_grads ;;
  fun t =>
    let '(r, ps) := scatter_into (named_parameters t) new_grads 0 in
    (r, with_named_parameters ps t).

Definition _all_reduce_and_rescale (grad_denom : Z) : M trainer A :=
  t <- get ;;
  flat_grads <- _get_flat_grads (_flat_grads t) ;;
  modify (with_flat_grads (Some flat_grads)) ;;
  (* rescale and clip, in place: [self._flat_grads] is the same tensor *)
  let flat_grads := map (fun x => div_int x grad_denom) flat_grads in
  modify (with_flat_grads (Some flat_grads)) ;;
  t <- get ;;
  let '(r, flat_grads) := clip_grad_norm_ flat_grads (clip_norm (args t)) in
  modify (with_flat_grads (Some flat_grads)) ;;
  grad_norm <- lift_res r ;;
  _set_flat_grads flat_grads ;;
  ret grad_norm.

Definition out_of_memory_warning : string :=
  "| WARNING: ran out of memory, skipping batch".

Definition _forward (sample : option (sample_t A)) (eval : bool)
  : M trainer (option (loss_t A) * Z * Z * A * option A) :=
  modify (with_training (negb eval)) ;;
  '(loss, oom, batch_score, batch_question_type_score) <-
    match sample with
    | None => ret (None, 0, zero, None)
    | Some s =>
        try_except
          (t <- get ;;
           if String.eqb (model (args t)) "MILQT" then
             match forward s with
             | ForwardOk loss batch_score batch_question_type_score =>
                 ret (Some loss, 0, batch_score, Some batch_question_type_score)
             | ForwardRaise e => raise e
             end
           else raise (UnboundLocalError "final_preds"))
          (fun e =>
             match e with
             | RuntimeError _ =>
                 if negb eval && contains "out of memory" (str e) then
                   print out_of_memory_warning ;;
                   ret (None, 1, zero, None)
                 else raise e
             | _ => raise e
             end)
    end ;;
  match sample with
  | None => raise TypeError               (* [len(sample[0])] *)
  | Some s => ret (loss, len0 s, oom, batch_score, batch_question_type_score)
  end.

Definition _backward (loss : option (loss_t A)) : M trainer Z :=
  match loss with
  | None => ret 0
  | Some loss =>
      try_except
        (match backward loss with
         | BackwardOk cs =>
             modify (fun t =>
               with_named_parameters (accumulate (named_parameters t) cs) t) ;;
             ret 0
         | BackwardRaise e => raise e
         end)
        (fun e =>
           match e with
           | RuntimeError _ =>
               if contains "out of memory" (str e) then
                 print out_of_memory_warning ;;
                 zero_grad ;;
                 ret 1
               else raise e
           | _ => raise e
           end)
  end.

(** [utils.move_to_cuda] only moves the tensors; a [None] or empty sample
    becomes [None]. *)
Definition _prepare_sample (sample : option (sample_t A))
  : M trainer (option (sample_t A)) :=
  ret sample.

Definition buffer_append (sample_size oom_fwd oom_bwd : Z) : M trainer unit :=
  modify (fun t =>
    let b := _buffered_stats t in
    with_buffered_stats
      {| sample_sizes := sample_sizes b ++ [sample_size];
         ooms_fwd := ooms_fwd b ++ [oom_fwd];
         ooms_bwd := ooms_bwd b ++ [oom_bwd] |} t).

Definition sum_Z (l : list Z) : Z := fold_left Z.add l 0.

Definition update_meters (grad_norm : A) (ooms : Z) : M trainer unit :=
  modify (fun t =>
    let m := meters t in
    with_meters
      {| gnorm := gnorm m ++ [grad_norm];
         clip := clip m ++ [if gtb grad_norm (clip_norm (args t)) then one else zero];
         oom := oom m ++ [ooms] |} t).

Definition train_step (sample : option (sample_t A)) (update_params : bool)
  : M trainer (option (option (loss_t A) * A * A * option A)) :=
  sample <- _prepare_sample sample ;;
  '(loss, sample_size, oom_fwd, batch_score, batch_question_type_score) <-
    _forward sample false ;;
  oom_bwd <- _backward loss ;;
  buffer_append 1 oom_fwd oom_bwd ;;
  if update_params then
    t <- get ;;
    let ooms_fwd := sum_Z (ooms_fwd (_buffered_stats t)) in
    let ooms_bwd := sum_Z (ooms_bwd (_buffered_stats t)) in
    let grad_denom := sum_Z (sample_sizes (_buffered_stats t)) in
    grad_norm <-
      try_except
        (grad_norm <- _all_reduce_and_rescale grad_denom ;;
         _opt ;;
         update_meters grad_norm (ooms_fwd + ooms_bwd) ;;
         ret grad_norm)
        (fun e =>
           match e with
           | OverflowError _ =>
               zero_grad ;;
               print ("| WARNING: overflow detected, " ++ str e)%string ;;
               (* [grad_norm] is still the 0 it was set to before the [try]:
                  of the calls in it, only the first can raise this error *)
               ret zero
           | _ => raise e
           end) ;;
    clear_buffered_stats ;;
    ret (Some (loss, grad_norm, batch_score, batch_question_type_score))
  else ret None.

Definition dummy_train_step (dummy_batch : option (sample_t A)) : M trainer unit :=
  train_step dummy_batch false ;;
  zero_grad ;;
  clear_buffered_stats.

End Defs.

Arguments trainer A O : clear implicits.
Arguments args_t A : clear implicits.
Arguments meters_t A : clear implicits.

End Trainer.

(* ================================================================== *)
(** ** [train] and [evaluate] (train.py) *)

Module Driver.

Import Trainer.

(** The options [train] reads for its loop. *)
Record config : Type := {
  batch_size : Z;                 (* [args.batch_size] *)
  update_freq : Z;                (* [int(args.update_freq)] *)
  print_interval : Z;             (* [args.print_interval] *)
  testing : bool                  (* [args.testing] *)
}.

Section Defs.

Context {A O : Type} {B : Backend A O}.

(** The trainer and the locals of [train] that live through an epoch.
    [train_step_calls] records the [update_params] argument of every call of
    [trainer.train_step], oldest first. *)
Record epoch_state : Type := {
  the_trainer : trainer A O;
  lr : float;                     (* [optimizer.param_groups[0]['lr']] *)
  total_loss : A;
  train_score : A;
  train_question_type_score : A;
  total_norm : A;
  count_norm : Z;
  num_updates : Z;
  train_step_calls : list bool
}.

Definition with_trainer (v : trainer A O) (s : epoch_state) : epoch_state :=
  {| the_trainer := v; lr := lr s; total_loss := total_loss s;
     train_score := train_score s;
     train_question_type_score := train_question_type_score s;
     total_norm := total_norm s; count_norm := count_norm s;
     num_updates := num_updates s; train_step_calls := train_step_calls s |}.

(** Run a method of the trainer. *)
Definition on_trainer {X : Type} (c : M (trainer A O) X) : M epoch_state X :=
  fun s => let '(r, t) := c (the_trainer s) in (r, with_trainer t s).

Definition call_train_step (sample : sample_t A) (update_params : bool)
  : M epoch_state (option (option (loss_t A) * A * A * option A)) :=
  modify (fun s =>
    {| the_trainer := the_trainer s; lr := lr s; total_loss := total_loss s;
       train_score := train_score s;
       train_question_type_score := train_question_type_score s;
       total_norm := total_norm s; count_norm := count_norm s;
       num_updates := num_updates s;
       train_step_calls := train_step_calls s ++ [update_params] |}) ;;
  on_trainer (train_step (Some sample) update_params).

(** The sums [train] keeps after a commit (train.py 94-100), up to the
    point where [loss] or the question-type score turn out to be [None]. *)
Definition add_commit (loss : option (loss_t A)) (grad_norm batch_score : A)
    (batch_question_type_score : option A) : M epoch_state unit :=
  modify (fun s =>
    {| the_trainer := the_trainer s; lr := lr s; total_loss := total_loss s;
       train_score := train_score s;
       train_question_type_score := train_question_type_score s;
       total_norm := add (total_norm s) grad_norm;
       count_norm := count_norm s + 1;
       num_updates := num_updates s; train_step_calls := train_step_calls s |}) ;;
  match loss with
  | None => raise AttributeError          (* [loss.item()] *)
  | Some loss =>
      modify (fun s =>
        {| the_trainer := the_trainer s; lr := lr s;
           total_loss := add (total_loss s) (item loss);
           train_score := add (train_score s) batch_score;
           train_question_type_score := train_question_type_score s;
           total_norm := total_norm s; count_norm := count_norm s;
           num_updates := num_updates s; train_step_calls := train_step_calls s |})
  end ;;
  match batch_question_type_score with
  | None => raise TypeError
  | Some q =>
      modify (fun s =>
        {| the_trainer := the_trainer s; lr := lr s; total_loss := total_loss s;
           train_score := train_score s;
           train_question_type_score := add (train_question_type_score s) q;
           total_norm := total_norm s; count_norm := count_norm s;
           num_updates := num_updates s + 1;
           train_step_calls := train_step_calls s |})
  end.

Inductive control : Type := Continue | Break.

Definition progress_line : string := "Iter: ...".

(** The test of train.py 90: [i < num_batches - 1 and (i + 1) % update_freq > 0]. *)
Definition buffers (cfg : config) (num_batches i : Z) : res bool :=
  if i <? num_batches - 1 then
    let? r := py_mod (i + 1) (update_freq cfg) in
    Ok (r >? 0)
  else Ok false.

(** The body of the loop over the micro-batches (train.py 82-104). *)
Definition batch_body (cfg : config) (num_batches i : Z) (sample : sample_t A)
  : M epoch_state control :=
  buffering <- lift_res (buffers cfg num_batches i) ;;
  if (buffering : bool) then
    call_train_step sample false ;;
    ret Continue
  else
    r <- call_train_step sample true ;;
    match r with
    | None => raise TypeError
    | Some (loss, grad_norm, batch_score, batch_question_type_score) =>
        add_commit loss grad_norm batch_score batch_question_type_score ;;
        s <- get ;;
        d <- lift_res (py_int_truediv (print_interval cfg) (update_freq cfg)) ;;
        m <- lift_res (py_mod (num_updates s) d) ;;
        if m =? 0 then
          (* the line's [i / num_batches] *)
          (if num_batches =? 0 then raise ZeroDivisionError else ret tt) ;;
          on_trainer (print progress_line) ;;
          if testing cfg then ret Break else ret Continue
        else ret Continue
    end.

Fixpoint batch_loop (cfg : config) (num_batches : Z)
    (batches : list (Z * sample_t A)) : M epoch_state unit :=
  match batches with
  | [] => ret tt
  | (i, sample) :: rest =>
      c <- batch_body cfg num_batches i sample ;;
      match c with
      | Break => ret tt
      | Continue => batch_loop cfg num_batches rest
      end
  end.

(** One turn of the loop over the epochs, from the reset of the sums to
    [total_loss /= num_updates] (train.py 63-106).  [N] is
    [len(train_loader.dataset)]; [train_loader] is the list of micro-batches
    the loader yields in this epoch. *)
Definition train_epoch (cfg : config) (lr_default : float) (epoch N : Z)
    (train_loader : list (sample_t A)) : M epoch_state unit :=
  modify (fun s =>
    {| the_trainer := the_trainer s; lr := lr s; total_loss := zero;
       train_score := zero; train_question_type_score := zero;
       total_norm := zero; count_norm := 0; num_updates := 0;
       train_step_calls := train_step_calls s |}) ;;
  num_batches <- lift_res (py_int_truediv_plus1 N (batch_size cfg)) ;;
  s <- get ;;
  lr' <- lift_res (LR.set_epoch_lr lr_default epoch (lr s)) ;;
  modify (fun s =>
    {| the_trainer := the_trainer s; lr := lr'; total_loss := total_loss s;
       train_score := train_score s;
       train_question_type_score := train_question_type_score s;
       total_norm := total_norm s; count_norm := count_norm s;
       num_updates := num_updates s; train_step_calls := train_step_calls s |}) ;;
  batch_loop cfg num_batches (enumerate train_loader) ;;
  s <- get ;;
  if num_updates s =? 0 then raise ZeroDivisionError
  else
    modify (fun s =>
      {| the_trainer := the_trainer s; lr := lr s;
         total_loss := div_int (total_loss s) (num_updates s);
         train_score := train_score s;
         train_question_type_score := train_question_type_score s;
         total_norm := total_norm s; count_norm := count_norm s;
         num_updates := num_updates s; train_step_calls := train_step_calls s |}).

End Defs.

(** A batch of the evaluation loader: the labels [a] and [qt], and the
    combined and question-type predictions the model returns on it. *)
Record eval_batch : Type := {
  combined_preds : Score.matrix;
  question_type_preds : Score.matrix;
  a : Score.matrix;
  qt : Score.matrix
}.

Record eval_sums : Type := {
  score : Q;
  question_type_score : Q;
  upper_bound : Q;
  question_type_upper_bound : Q;
  num_data : Z
}.

(** The body of the loop of [evaluate] (train.py 142-159).  With a model
    name other than "MILQT", [final_preds] is still [None] when it is scored
    and [torch.max] rejects it. *)
Definition evaluate_batch (model : string) (b : eval_batch) (s : eval_sums)
  : res eval_sums :=
  let final_preds := if String.eqb model "MILQT" then Some (combined_preds b) else None in
  let? final_preds :=
    match final_preds with
    | None => Raise TypeError
    | Some p => Ok p
    end in
  let? batch_score := Score.compute_score_with_logits final_preds (a b) in
  let? question_type_batch_score :=
    Score.compute_score_with_logits (question_type_preds b) (qt b) in
  let? a_max := Score.max_rows (a b) in
  let? qt_max := Score.max_rows (qt b) in
  Ok {| score := (score s + Score.sum batch_score)%Q;
        question_type_score :=
          (question_type_score s + Score.sum question_type_batch_score)%Q;
        upper_bound := (upper_bound s + Score.sum_row a_max)%Q;
        question_type_upper_bound :=
          (question_type_upper_bound s + Score.sum_row qt_max)%Q;
        num_data := num_data s + Z.of_nat (length final_preds) |}.

Fixpoint evaluate_loop (model : string) (dataloader : list eval_batch)
    (s : eval_sums) : res eval_sums :=
  match dataloader with
  | [] => Ok s
  | b :: rest =>
      let? s' := evaluate_batch model b s in
      evaluate_loop model rest s'
  end.

(** [evaluate(model, dataloader, args)]; [dataset_len] is
    [len(dataloader.dataset)], of a dataset that is not empty. *)
Definition evaluate (model : string) (dataloader : list eval_batch)
    (dataset_len : positive) : res (Q * Q * Q * Q) :=
  let? s :=
    evaluate_loop model dataloader
      {| score := 0; question_type_score := 0; upper_bound := 0;
         question_type_upper_bound := 0; num_data := 0 |} in
  let n := inject_Z (Z.pos dataset_len) in
  Ok (score s / n, upper_bound s / n,
      question_type_score s / n, question_type_upper_bound s / n)%Q.

End Driver.

(* ================================================================== *)
(** * Definitions used to state the properties *)

(** The label weight at the predicted class of one example. *)
Definition label_at_argmax (logits labels : Score.row) : Q :=
  match Score.argmax logits with
  | Ok j => nth j labels 0%Q
  | Raise _ => 0%Q
  end.

Fixpoint labels_at_argmax (logits labels : Score.matrix) : list Q :=
  match logits, labels with
  | l :: logits', y :: labels' => label_at_argmax l y :: labels_at_argmax logits' labels'
  | _, _ => []
  end.

(** The indicator the specification describes: 1 when the label weight at
    the predicted class is not zero, 0 when it is. *)
Definition indicator_at_argmax (logits labels : Score.row) : Q :=
  if Qeq_bool (label_at_argmax logits labels) 0 then 0%Q else 1%Q.


Fixpoint indicators_at_argmax (logits labels : Score.matrix) : list Q :=
  match logits, labels with
  | l :: logits', y :: labels' =>
      indicator_at_argmax l y :: indicators_at_argmax logits' labels'
  | _, _ => []
  end.

(** The score of each example, [scores.sum(1)], and the total the callers
    take, [scores.sum()]. *)
Definition per_example_scores (logits labels : Score.matrix) : res (list Q) :=
  let? scores := Score.compute_score_with_logits logits labels in
  Ok (Score.sum_rows scores).

Definition total_score (logits labels : Score.matrix) : res Q :=
  let? scores := Score.compute_score_with_logits logits labels in
  Ok (Score.sum scores).

(** Every label weight is 0 or 1. *)
Definition hard_labels (labels : Score.matrix) : Prop :=
  Forall (Forall (fun w => w = 0%Q \/ w = 1%Q)) labels.

(** *** The two halves of [train_step] *)

Section TrainStepParts.

Import Trainer.

Context {A O : Type} {B : Backend A O}.

(** The forward and backward pass and the buffering of the stats
    (trainer.py 71-79). *)
Definition forward_backward (sample : option (sample_t A))
  : M (trainer A O) (option (loss_t A) * A * option A) :=
  sample <- _prepare_sample sample ;;
  '(loss, sample_size, oom_fwd, batch_score, batch_question_type_score) <-
    _forward sample false ;;
  oom_bwd <- _backward loss ;;
  buffer_append 1 oom_fwd oom_bwd ;;
  ret (loss, batch_score, batch_question_type_score).

(** The commit (trainer.py 82-112). *)
Definition commit (loss : option (loss_t A)) (batch_score : A)
    (batch_question_type_score : option A)
  : M (trainer A O) (option (option (loss_t A) * A * A * option A)) :=
  t <- get ;;
  let ooms_fwd := sum_Z (ooms_fwd (_buffered_stats t)) in
  let ooms_bwd := sum_Z (ooms_bwd (_buffered_stats t)) in
  let grad_denom := sum_Z (sample_sizes (_buffered_stats t)) in
  grad_norm <-
    try_except
      (grad_norm <- _all_reduce_and_rescale grad_denom ;;
       _opt ;;
       update_meters grad_norm (ooms_fwd + ooms_bwd) ;;
       ret grad_norm)
      (fun e =>
         match e with
         | OverflowError _ =>
             zero_grad ;;
             print ("| WARNING: overflow detected, " ++ str e)%string ;;
             ret zero
         | _ => raise e
         end) ;;
  clear_buffered_stats ;;
  ret (Some (loss, grad_norm, batch_score, batch_question_type_score)).

Definition no_buffered_stats : buffered_stats :=
  {| sample_sizes := []; ooms_fwd := []; ooms_bwd := [] |}.

(** The stats of one more micro-batch. *)
Definition buffered_one_more (oom_fwd oom_bwd : Z) (b : buffered_stats)
  : buffered_stats :=
  {| sample_sizes := sample_sizes b ++ [1];
     ooms_fwd := ooms_fwd b ++ [oom_fwd];
     ooms_bwd := ooms_bwd b ++ [oom_bwd] |}.

(** The forward pass of the sample raises an out-of-memory error. *)
Definition forward_runs_out_of_memory (t : trainer A O) (s : sample_t A) : Prop :=
  model (args t) = "MILQT" /\
  exists msg, forward s = ForwardRaise (RuntimeError msg) /\
              contains "out of memory" msg = true.

(** C2, as the specification states it, for one call of [train_step]: the
    call returns, the warning is printed, [zero_grad] is called, no
    optimizer step is taken and the optimizer is left as it was. *)
Definition forward_oom_recovery_as_stated (t : trainer A O) (s : sample_t A)
    (update_params : bool) : Prop :=
  forward_runs_out_of_memory t s ->
  let '(r, t') := train_step (Some s) update_params t in
  (exists v, r = Ok v) /\
  stdout t' = stdout t ++ [out_of_memory_warning] /\
  (exists calls, optimizer_calls t' = optimizer_calls t ++ calls /\
                 In ZeroGradCall calls /\ ~ In StepCall calls) /\
  _optimizer t' = _optimizer t.

(** After [zero_grad], a trainable parameter has no gradient or a gradient
    of zeros. *)
Definition zeroed (p : param A) : Prop :=
  requires_grad p = true ->
  grad p = None \/ exists g, grad p = Some g /\ Forall (eq zero) g.

End TrainStepParts.

(** *** The clipping of [utils.clip_grad_norm_], over the reals *)

Module ClipSpec.

Local Open Scope R_scope.

Definition sum_squares (v : list R) : R := fold_right (fun x acc => x * x + acc) 0 v.

(** The global L2 norm of a flat buffer. *)
Definition l2_norm (v : list R) : R := sqrt (sum_squares v).

(** Modelled from the spec: [utils.clip_grad_norm_], which [trainer.py]
    imports from a file that is not among the sources.  "Compute the global
    L2 norm of the flat buffer; if norm exceeds [max_norm], scale all
    elements by [max_norm / norm]. ... Returns the pre-clip global norm." *)
Definition clip_grad_norm_model (tensor : list R) (max_norm : R) : res R * list R :=
  let norm := l2_norm tensor in
  (Ok norm,
   if Rlt_dec max_norm norm then map (fun x => x * (max_norm / norm)) tensor
   else tensor).

(** Real-valued gradients with this clipping, over any optimizer. *)
Definition real_backend {O : Type} (step : list (option (list R)) -> O -> O)
    (to_none : bool) : Backend R O :=
  {| zero := 0; one := 1; add := Rplus;
     div_int := fun x n => x / IZR n;
     gtb := fun x y => if Rgt_dec x y then true else false;
     clip_grad_norm_ := clip_grad_norm_model;
     optimizer_step := step;
     set_to_none := to_none |}.

End ClipSpec.

(** *** Concrete collaborators, for the examples *)

Module Examples.

Import Trainer.

(** Integer gradients; an optimizer that only counts its steps; a
    [clip_grad_norm_] that leaves the tensor alone and reports [norm]. *)
Definition counting_backend (norm : res Z) : Backend Z nat :=
  {| zero := 0; one := 1; add := Z.add; div_int := Z.div; gtb := Z.gtb;
     clip_grad_norm_ := fun tensor _ => (norm, tensor);
     optimizer_step := fun _ steps => S steps;
     set_to_none := false |}.

Definition a_backend : Backend Z nat := counting_backend (Ok 5).


Definition a_trainer (model_name : string) (w : option (list Z)) : trainer Z nat :=
  {| args := {| model := model_name; clip_norm := 1 |};
     training := true;
     named_parameters :=
       [ {| name := "w"; requires_grad := true; grad := w |};
         {| name := "frozen"; requires_grad := false; grad := None |} ];
     meters := {| gnorm := []; clip := []; oom := [] |};
     _buffered_stats := {| sample_sizes := []; ooms_fwd := []; ooms_bwd := [] |};
     _flat_grads := None;
     _num_updates := 0;
     _optimizer := Some 0%nat;
     stdout := [];
     optimizer_calls := [] |}.

(** A sample on which the forward pass runs out of memory. *)
Definition oom_sample : sample_t Z :=
  {| forward := ForwardRaise (RuntimeError "CUDA out of memory. Tried to allocate 2.00 GiB");
     len0 := 2 |}.

(** A sample with loss 3 whose backward pass adds [contribution] to [w]. *)
Definition a_sample (contribution : option (list Z)) : sample_t Z :=
  {| forward :=
       ForwardOk {| item := 3; backward := BackwardOk [contribution; None] |} 2 1;
     len0 := 2 |}.

(** The loop options of the examples: batches of 2, a commit every 2
    micro-batches, a progress line every 2 micro-batches. *)
Definition a_config : Driver.config :=
  {| Driver.batch_size := 2; Driver.update_freq := 2;
     Driver.print_interval := 2; Driver.testing := false |}.

Definition an_epoch_state : Driver.epoch_state (A := Z) (O := nat) :=
  {| Driver.the_trainer := a_trainer "MILQT" None;
     Driver.lr := 0.001%float;
     Driver.total_loss := 0; Driver.train_score := 0;
     Driver.train_question_type_score := 0;
     Driver.total_norm := 0; Driver.count_norm := 0; Driver.num_updates := 0;
     Driver.train_step_calls := [] |}.

(** Real-valued collaborators: a trainer whose parameter [w] has no
    gradient yet, and a sample whose backward pass gives it [3, 4]. *)
Definition a_real_backend : Backend R nat :=
  ClipSpec.real_backend (fun _ steps => S steps) false.

Definition a_real_trainer : trainer R nat :=
  {| args := {| model := "MILQT"; clip_norm := 1%R |};
     training := true;
     named_parameters := [ {| name := "w"; requires_grad := true; grad := None |} ];
     meters := {| gnorm := []; clip := []; oom := [] |};
     _buffered_stats := {| sample_sizes := []; ooms_fwd := []; ooms_bwd := [] |};
     _flat_grads := None;
     _num_updates := 0;
     _optimizer := Some 0%nat;
     stdout := [];
     optimizer_calls := [] |}.

Definition a_real_loss : loss_t R :=
  {| item := 2%R; backward := BackwardOk [Some [3%R; 4%R]] |}.

Definition a_real_sample : sample_t R :=
  {| forward := ForwardOk a_real_loss 1%R 1%R; len0 := 2 |}.

(** A batch of the evaluation loader. *)
Definition an_eval_batch : Driver.eval_batch :=
  {| Driver.combined_preds := [[9#10; 1#10]]%Q;
     Driver.question_type_preds := [[1#10; 9#10]]%Q;
     Driver.a := [[1; 0]]%Q;
     Driver.qt := [[0; 1]]%Q |}.

End Examples.

(** [chunks ns l] cuts [l] into consecutive pieces of the sizes [ns]. *)
Fixpoint chunks {X : Type} (ns : list nat) (l : list X) : list (list X) :=
  match ns with
  | [] => []
  | n :: ns' => firstn n l :: chunks ns' (skipn n l)
  end.


(* ================================================================== *)
(** * More of the two files *)

(** ** [Trainer.__init__] and a run of buffering steps *)

Section TrainerSetup.

Import Trainer.

Context {A O : Type} {B : Backend A O}.

(** [Trainer(args, model, criterion, optimizer)] (trainer.py 15-48): the
    meters are new, nothing is buffered, there is no flat buffer yet and no
    update was made.  [model_training] and [model_parameters] are the mode
    and the parameters of the model passed in. *)
Definition __init__ (the_args : args_t A) (model_training : bool)
    (model_parameters : list (param A)) (the_optimizer : option O)
  : trainer A O :=
  {| args := the_args;
     training := model_training;
     named_parameters := model_parameters;
     meters := {| gnorm := []; clip := []; oom := [] |};
     _buffered_stats := {| sample_sizes := []; ooms_fwd := []; ooms_bwd := [] |};
     _flat_grads := None;
     _num_updates := 0;
     _optimizer := the_optimizer;
     stdout := [];
     optimizer_calls := [] |}.

(** The calls [trainer.train_step(sample, update_params=False)] that [train]
    makes on the micro-batches of a group before it commits. *)
Fixpoint buffer_steps (samples : list (sample_t A)) : M (trainer A O) unit :=
  match samples with
  | [] => ret tt
  | sample :: rest =>
      train_step (Some sample) false ;;
      buffer_steps rest
  end.

(** The gradient contribution of a sample whose forward and backward pass
    both return. *)
Definition sample_contribution (s : sample_t A) : option (list (option (list A))) :=
  match forward s with
  | ForwardOk loss _ _ =>
      match backward loss with
      | BackwardOk cs => Some cs
      | BackwardRaise _ => None
      end
  | ForwardRaise _ => None
  end.

(** The exceptions the two out-of-memory handlers absorb. *)
Definition is_out_of_memory (e : exn) : bool :=
  match e with
  | RuntimeError msg => contains "out of memory" msg
  | _ => false
  end.

(** How many optimizer steps a record of calls holds. *)
Fixpoint count_steps (calls : list call) : Z :=
  match calls with
  | [] => 0
  | StepCall :: rest => 1 + count_steps rest
  | ZeroGradCall :: rest => count_steps rest
  end.

End TrainerSetup.

(** ** The checkpoints of [train] (train.py 36, 47 and 123-131) *)

Module Checkpoint.

Definition saving_epoch : Z := 3.

(** A call of [utils.save_model]: on ['model_epoch%d.pth'] or on
    ['model_epoch_best.pth'], with the epoch it stores. *)
Inductive save : Type :=
| SaveEpoch (epoch : Z)
| SaveBest (epoch : Z).

Record state : Type := {
  best_eval_score : Q;
  saves : list save               (* oldest first *)
}.

(** [best_eval_score = 0] before the first epoch. *)
Definition initial : state := {| best_eval_score := 0; saves := [] |}.

(** [eval_score > best_eval_score]. *)
Definition Qgtb (x y : Q) : bool := negb (Qle_bool x y).

(** The end of an epoch.  [eval_score] is [None] when there is no
    evaluation loader ([eval_loader is None]). *)
Definition save_per_epoch (epoch : Z) (eval_score : option Q) (s : state) : state :=
  if saving_epoch <=? epoch then
    let s1 := {| best_eval_score := best_eval_score s;
                 saves := saves s ++ [SaveEpoch epoch] |} in
    match eval_score with
    | Some score =>
        if Qgtb score (best_eval_score s1) then
          {| best_eval_score := score; saves := saves s1 ++ [SaveBest epoch] |}
        else s1
    | None => s1
    end
  else s.

(** The epochs of a run, each with its evaluation score. *)
Fixpoint run (epochs : list (Z * option Q)) (s : state) : state :=
  match epochs with
  | [] => s
  | (epoch, eval_score) :: rest => run rest (save_per_epoch epoch eval_score s)
  end.

End Checkpoint.

(** ** What [evaluate] reads from the labels alone *)

(** The sum over the batches of [(labels.max(1)[0]).sum()], as [evaluate]
    accumulates it from [start]. *)
Fixpoint upper_bound_sum (labels : list Score.matrix) (start : Q) : res Q :=
  match labels with
  | [] => Ok start
  | m :: rest =>
      let? maxima := Score.max_rows m in
      upper_bound_sum rest (start + Score.sum_row maxima)%Q
  end.

(** How many of the recorded calls of [train_step] were commits. *)
Fixpoint count_commits (calls : list bool) : Z :=
  match calls with
  | [] => 0
  | true :: rest => 1 + count_commits rest
  | false :: rest => count_commits rest
  end.

(** ** More concrete collaborators *)

Module MoreExamples.

Import Trainer Examples.

(** A sample on which the forward pass fails for another reason. *)
Definition a_failing_sample : sample_t Z :=
  {| forward := ForwardRaise (RuntimeError "CUDA error: device-side assert triggered");
     len0 := 2 |}.

(** A sample whose backward pass runs out of memory. *)
Definition a_backward_oom_loss : loss_t Z :=
  {| item := 3; backward := BackwardRaise (RuntimeError "CUDA out of memory.") |}.

Definition a_backward_oom_sample : sample_t Z :=
  {| forward := ForwardOk a_backward_oom_loss 2 1; len0 := 2 |}.

(** A trainer built without an optimizer, and one whose only parameter is
    frozen. *)
Definition a_trainer_without_optimizer : trainer Z nat :=
  __init__ {| model := "MILQT"; clip_norm := 1 |} true
    [ {| name := "w"; requires_grad := true; grad := Some [2; 4] |} ] None.

Definition a_frozen_trainer : trainer Z nat :=
  __init__ {| model := "MILQT"; clip_norm := 1 |} true
    [ {| name := "frozen"; requires_grad := false; grad := None |} ] (Some 0%nat).

(** Two trainable parameters around a frozen one. *)
Definition a_larger_trainer : trainer Z nat :=
  __init__ {| model := "MILQT"; clip_norm := 1 |} true
    [ {| name := "w"; requires_grad := true; grad := Some [2; 4] |};
      {| name := "frozen"; requires_grad := false; grad := Some [9] |};
      {| name := "b"; requires_grad := true; grad := Some [6] |} ]
    (Some 0%nat).

End MoreExamples.

(** ** The denominator of a commit, as the specification words it *)

Section Denominator.

Import Trainer.

Context {A O : Type} {B : Backend A O}.

(** The micro-batches of a group that contribute to the commit: those whose
    forward and backward pass both return, and so add to the gradients. *)
Definition contributing_micro_batches (samples : list (sample_t A)) : Z :=
  Z.of_nat
    (length
       (filter (fun s => match sample_contribution s with
                         | Some _ => true
                         | None => false
                         end) samples)).

(** C5's denominator, as the specification states it, for one group: after
    the buffering calls on [samples] and the committing call on [last], from
    empty buffered stats, the flat buffer is the gradients divided by the
    number of contributing micro-batches, then clipped. *)
Definition denominator_as_stated (samples : list (sample_t A)) (last : sample_t A)
    (t : trainer A O) : Prop :=
  _buffered_stats t = no_buffered_stats ->
  forall (tk t1 : trainer A O) (x : option (loss_t A) * A * option A)
         (gs : list (list A))
         (r : option (option (loss_t A) * A * A * option A)) (t' : trainer A O),
    buffer_steps samples t = (Ok tt, tk) ->
    forward_backward (Some last) tk = (Ok x, t1) ->
    get_grads (named_parameters t1) = Ok gs ->
    train_step (Some last) true tk = (Ok r, t') ->
    _flat_grads t' =
      Some (snd (clip_grad_norm_
                   (map (fun v => div_int v
                                    (contributing_micro_batches (samples ++ [last])))
                        (concat gs))
                   (clip_norm (args t)))).

End Denominator.

(** A group over the reals: a micro-batch that gives [w] the gradient
    [6, 8], buffered, and then one whose forward pass runs out of memory. *)
Module GroupExamples.

Import Trainer Examples.

Definition a_first_loss : loss_t R :=
  {| item := 2%R; backward := BackwardOk [Some [6%R; 8%R]] |}.

Definition a_first_sample : sample_t R :=
  {| forward := ForwardOk a_first_loss 1%R 1%R; len0 := 2 |}.

Definition a_real_oom_sample : sample_t R :=
  {| forward := ForwardRaise (RuntimeError "CUDA out of memory."); len0 := 2 |}.

(** The trainer after the buffering call on the first micro-batch. *)
Definition a_real_trainer_after_one_step : trainer R nat :=
  snd (train_step (B := a_real_backend) (Some a_first_sample) false a_real_trainer).

End GroupExamples.

(* ================================================================== *)
(** * Properties *)

(** ** The score function *)

Section ScoreFacts.

Import Score.

Local Open Scope Q_scope.

Lemma sum_row_from (r : row) (acc : Q) :
  fold_left Qplus r acc == acc + sum_row r.
Proof.
  unfold sum_row. revert acc.
  induction r as [|x r IH]; intros acc; simpl.
  - ring.
  - rewrite IH, (IH (0 + x)). ring.
Qed.

Lemma sum_row_cons (x : Q) (r : row) : sum_row (x :: r) == x + sum_row r.
Proof. unfold sum_row at 1. simpl. rewrite sum_row_from. ring. Qed.

Lemma sum_row_mul_zeros (y : row) :
  sum_row (mul_row (map (fun _ => 0) y) y) == 0.
Proof.
  induction y as [|v y IH]; simpl.
  - reflexivity.
  - rewrite sum_row_cons, IH. ring.
Qed.

(** A row of zeros with a one at [j], times the labels, sums to label [j]. *)
Lemma sum_row_one_hot (y : row) (j : nat) :
  (j < length y)%nat ->
  sum_row (mul_row (set_nth j 1 (map (fun _ => 0) y)) y) == nth j y 0.
Proof.
  revert j. induction y as [|v y IH]; intros j Hj; simpl in Hj.
  - lia.
  - destruct j as [|j]; simpl.
    + rewrite sum_row_cons, sum_row_mul_zeros. ring.
    + rewrite sum_row_cons, IH by lia. ring.
Qed.

Lemma argmax_from_bound (xs : row) (best_i i : nat) (best : Q) :
  (best_i < i)%nat -> (argmax_from best_i best i xs < i + length xs)%nat.
Proof.
  revert best_i i best.
  induction xs as [|x xs IH]; intros best_i i best Hlt; simpl.
  - lia.
  - destruct (Qle_bool x best).
    + specialize (IH best_i (S i) best). lia.
    + specialize (IH i (S i) x). lia.
Qed.

Lemma argmax_bound (r : row) (j : nat) : argmax r = Ok j -> (j < length r)%nat.
Proof.
  destruct r as [|x xs]; simpl; intros H; inversion H; subst.
  pose proof (@argmax_from_bound xs 0%nat 1%nat x). lia.
Qed.

Lemma length_set_nth (j : nat) (v : Q) (r : row) : length (set_nth j v r) = length r.
Proof.
  revert j. induction r as [|x r IH]; intros [|j]; simpl; auto.
Qed.

End ScoreFacts.

Lemma compute_score_rows (logits labels : Score.matrix) :
  Score.same_shape logits labels ->
  Forall (fun r => r <> []) logits ->
  exists scores,
    Score.compute_score_with_logits logits labels = Ok scores /\
    Forall2 Qeq (Score.sum_rows scores) (labels_at_argmax logits labels).
Proof.
  unfold Score.compute_score_with_logits.
  induction 1 as [|l y logits labels Hlen Hshape IH]; intros Hne.
  - exists []. split; [reflexivity | constructor].
  - inversion Hne as [|? ? Hl Hne']; subst.
    destruct (IH Hne') as (scores & Hscores & Hsums). clear IH.
    destruct l as [|x xs]; [congruence|].
    simpl Score.argmax_rows. unfold res_bind at 1 2. simpl Score.argmax.
    unfold res_bind in Hscores.
    destruct (Score.argmax_rows logits) as [js|e]; [|discriminate].
    cbn [res_bind Score.zeros_like map Score.scatter_].
    fold (Score.zeros_like labels).
    pose proof (@argmax_bound (x :: xs) _ eq_refl) as Hj.
    rewrite length_map.
    rewrite <- Hlen.
    destruct (Nat.ltb_spec (Score.argmax_from 0 x 1 xs) (length (x :: xs))) as [_|Hge];
      [|lia].
    destruct (Score.scatter_ (Score.zeros_like labels) js) as [oh|e]; [|discriminate].
    inversion Hscores; subst scores.
    eexists. split; [reflexivity|].
    simpl. constructor; [|exact Hsums].
    unfold label_at_argmax. simpl Score.argmax.
    apply sum_row_one_hot. rewrite <- Hlen. exact Hj.
Qed.

Lemma hard_label_indicator (l y : Score.row) :
  Forall (fun w => w = 0%Q \/ w = 1%Q) y ->
  (label_at_argmax l y == indicator_at_argmax l y)%Q.
Proof.
  intros Hy. unfold indicator_at_argmax.
  assert (Hv : label_at_argmax l y = 0%Q \/ label_at_argmax l y = 1%Q).
  { unfold label_at_argmax. destruct (Score.argmax l) as [j|]; [|now left].
    destruct (nth_in_or_default j y 0%Q) as [Hin|Hd]; [|now left].
    rewrite Forall_forall in Hy. exact (Hy _ Hin). }
  destruct Hv as [Hv|Hv]; rewrite Hv; reflexivity.
Qed.

Lemma hard_labels_indicators (logits labels : Score.matrix) :
  hard_labels labels ->
  Forall2 Qeq (labels_at_argmax logits labels) (indicators_at_argmax logits labels).
Proof.
  intros H. revert logits.
  induction H as [|y labels Hy _ IH]; intros [|l logits]; simpl; constructor.
  - now apply hard_label_indicator.
  - apply IH.
Qed.

Lemma Forall2_Qeq_trans (u v w : list Q) :
  Forall2 Qeq u v -> Forall2 Qeq v w -> Forall2 Qeq u w.
Proof.
  intros H. revert w.
  induction H as [|x y u v Hxy _ IH]; intros w Hw; inversion Hw; subst; constructor.
  - now rewrite Hxy.
  - now apply IH.
Qed.

(** C3, as amended.  For logits and soft labels of the same shape with at
    least one class, [compute_score_with_logits] returns, and the score of
    each example (the sum of its row) is the ground-truth weight of the
    class the argmax predicts; it is the 0/1 indicator of a nonzero weight
    when every weight is 0 or 1.  For logits [[0.9,0.1],[0.2,0.8]] the
    scores are [1, 1] (total 2) under labels [[1,0],[0,1]] and [0, 1]
    (total 1) under labels [[0,1],[0,1]]. *)
Theorem score_is_label_weight_at_argmax (logits labels : Score.matrix) :
  Score.same_shape logits labels ->
  Forall (fun r => r <> []) logits ->
  (exists scores,
      Score.compute_score_with_logits logits labels = Ok scores /\
      Forall2 Qeq (Score.sum_rows scores) (labels_at_argmax logits labels) /\
      (hard_labels labels ->
       Forall2 Qeq (Score.sum_rows scores) (indicators_at_argmax logits labels))) /\
  per_example_scores [[9#10; 1#10]; [2#10; 8#10]]%Q [[1; 0]; [0; 1]]%Q = Ok [1; 1]%Q /\
  total_score [[9#10; 1#10]; [2#10; 8#10]]%Q [[1; 0]; [0; 1]]%Q = Ok 2%Q /\
  per_example_scores [[9#10; 1#10]; [2#10; 8#10]]%Q [[0; 1]; [0; 1]]%Q = Ok [0; 1]%Q /\
  total_score [[9#10; 1#10]; [2#10; 8#10]]%Q [[0; 1]; [0; 1]]%Q = Ok 1%Q.
Proof.
  intros Hshape Hne. split; [|repeat split; reflexivity].
  destruct (compute_score_rows Hshape Hne) as (scores & Hs & Hsum).
  exists scores. repeat split; trivial.
  intros Hhard.
  eapply Forall2_Qeq_trans; [exact Hsum|].
  now apply hard_labels_indicators.
Qed.

Lemma score_is_label_weight_at_argmax_witness :
  exists scores,
    Score.compute_score_with_logits [[1#2; 3#2; 1#4]]%Q [[0; 3#10; 1]]%Q = Ok scores /\
    Forall2 Qeq (Score.sum_rows scores)
      (labels_at_argmax [[1#2; 3#2; 1#4]]%Q [[0; 3#10; 1]]%Q).
Proof.
  assert (Hshape : Score.same_shape [[1#2; 3#2; 1#4]]%Q [[0; 3#10; 1]]%Q)
    by (repeat constructor).
  assert (Hne : Forall (fun r : Score.row => r <> []) [[1#2; 3#2; 1#4]]%Q)
    by (repeat constructor; discriminate).
  destruct (score_is_label_weight_at_argmax Hshape Hne) as [(scores & Hs & Hsum & _) _].
  exists scores. split; assumption.
Defined.

(** C3 as stated fails on soft labels: with logits [[0.9, 0.1]] and labels
    [[0.5, 0]] the predicted class 0 has the nonzero weight 0.5, the
    indicator is 1, and the score is 0.5. *)
Lemma score_is_not_an_indicator :
  ~ (forall logits labels scores,
        Score.same_shape logits labels ->
        Score.compute_score_with_logits logits labels = Ok scores ->
        Forall2 Qeq (Score.sum_rows scores) (indicators_at_argmax logits labels)).
Proof.
  intros H.
  specialize (H [[9#10; 1#10]]%Q [[1#2; 0]]%Q [[1#2; 0]]%Q).
  assert (Hshape : Score.same_shape [[9#10; 1#10]]%Q [[1#2; 0]]%Q)
    by (repeat constructor).
  specialize (H Hshape eq_refl).
  inversion H as [|x y u v Hxy _]; subst.
  vm_compute in Hxy. discriminate.
Qed.

(** ** The learning-rate policy *)

Lemma decay_epochs_are (e : Z) :
  LR.lr_decay_epochs e =
  (e =? 10) || (e =? 12) || (e =? 14) || (e =? 16) || (e =? 18).
Proof.
  unfold LR.lr_decay_epochs, in_range, LR.lr_decay_step.
  destruct (Z.leb_spec 10 e) as [Hlo|Hlo]; cbn [andb].
  - destruct (Z.ltb_spec e 20) as [Hhi|Hhi]; cbn [andb].
    + assert (Hcases : e = 10 \/ e = 11 \/ e = 12 \/ e = 13 \/ e = 14 \/ e = 15 \/
                       e = 16 \/ e = 17 \/ e = 18 \/ e = 19) by lia.
      repeat (destruct Hcases as [->|Hcases]; [reflexivity|]).
      subst e. reflexivity.
    + repeat (match goal with
              | |- context [e =? ?k] =>
                  replace (e =? k) with false by (symmetry; apply Z.eqb_neq; lia)
              end).
      reflexivity.
  - repeat (match goal with
            | |- context [e =? ?k] =>
                replace (e =? k) with false by (symmetry; apply Z.eqb_neq; lia)
            end).
    reflexivity.
Qed.

(** C1, as amended.  At the head of epoch [e] (0-based) the driver sets the
    learning rate to [0.5, 1.0, 1.5, 2.0][e] times the base rate when
    [e < 4], multiplies the previous epoch's rate by 0.25 when [e] is one of
    10, 12, 14, 16, 18, and leaves it as it was otherwise.  In a run from
    epoch 0 with base rate 0.001: epoch 0 has 0.0005, epoch 3 has
    2.0 * 0.001 = 0.002 (the last warmup step), epoch 10 has
    0.002 * 0.25 = 0.0005 and epoch 12 has 0.0005 * 0.25 = 0.000125. *)
Theorem lr_policy (lr_default lr_prev : float) (e : Z) :
  0 <= e ->
  LR.set_epoch_lr lr_default e lr_prev =
    Ok (if e <? 4 then
          (nth (Z.to_nat e) [0.5; 1.0; 1.5; 2.0] 0 * lr_default)%float
        else if (e =? 10) || (e =? 12) || (e =? 14) || (e =? 16) || (e =? 18)
             then (lr_prev * 0.25)%float
        else lr_prev) /\
  LR.lr_during 0.001 0 0 0.001 = Ok 0.0005%float /\
  LR.lr_during 0.001 0 3 0.001 = Ok 0.002%float /\
  LR.lr_during 0.001 0 10 0.001 = Ok 0.0005%float /\
  LR.lr_during 0.001 0 12 0.001 = Ok 0.000125%float.
Proof.
  intros He. split; [|repeat split; vm_compute; reflexivity].
  unfold LR.set_epoch_lr.
  change (Z.of_nat (length (LR.gradual_warmup_steps lr_default))) with 4.
  destruct (Z.ltb_spec e 4) as [Hlt|Hge].
  - assert (Hcases : e = 0 \/ e = 1 \/ e = 2 \/ e = 3) by lia.
    destruct Hcases as [-> | [-> | [-> | ->]]]; reflexivity.
  - rewrite decay_epochs_are.
    destruct ((e =? 10) || (e =? 12) || (e =? 14) || (e =? 16) || (e =? 18));
      reflexivity.
Qed.

Lemma lr_policy_witness :
  LR.set_epoch_lr 0.001 12 0.0005 = Ok 0.000125%float.
Proof.
  destruct (@lr_policy 0.001 0.0005 12) as [H _]; [lia|].
  rewrite H. vm_compute. reflexivity.
Defined.

(** C1 as stated fails at epoch 3, which is still a warmup epoch: whatever
    the rate was before, a base rate of 0.001 gives 2.0 * 0.001 = 0.002 and
    not 0.001; and so, in a run from epoch 0, epoch 10 has 0.0005 and not
    0.00025, and epoch 12 has 0.000125 and not 0.0000625. *)
Lemma lr_epoch_3_is_not_the_base_rate :
  ~ (exists lr_prev, LR.set_epoch_lr 0.001 3 lr_prev = Ok 0.001%float) /\
  LR.lr_during 0.001 0 3 0.001 <> Ok 0.001%float /\
  LR.lr_during 0.001 0 10 0.001 <> Ok 0.00025%float /\
  LR.lr_during 0.001 0 12 0.001 <> Ok 0.0000625%float.
Proof.
  repeat split.
  - intros [lr_prev H].
    apply (f_equal (fun r => match r with
                             | Ok v => PrimFloat.eqb v 0.001
                             | Raise _ => false
                             end)) in H.
    vm_compute in H. discriminate.
  - intros H.
    apply (f_equal (fun r => match r with
                             | Ok v => PrimFloat.eqb v 0.001
                             | Raise _ => false
                             end)) in H.
    vm_compute in H. discriminate.
  - intros H.
    apply (f_equal (fun r => match r with
                             | Ok v => PrimFloat.eqb v 0.00025
                             | Raise _ => false
                             end)) in H.
    vm_compute in H. discriminate.
  - intros H.
    apply (f_equal (fun r => match r with
                             | Ok v => PrimFloat.eqb v 0.0000625
                             | Raise _ => false
                             end)) in H.
    vm_compute in H. discriminate.
Qed.

(** ** The step executor *)

(** Case analysis on the innermost scrutinee of a computation in [H]. *)
Ltac break_inner H :=
  match type of H with
  | context [match ?x with _ => _ end] =>
      lazymatch x with
      | context [match _ with _ => _ end] => fail
      | _ => destruct x eqn:?
      end
  end.

Section TrainerFacts.

Import Trainer.

Context {A O : Type} {B : Backend A O}.

Implicit Types (t : trainer A O) (s : sample_t A).

Lemma train_step_parts (sample : option (sample_t A)) (update_params : bool) t :
  train_step sample update_params t =
  ('(loss, batch_score, batch_question_type_score) <- forward_backward sample ;;
   if update_params then commit loss batch_score batch_question_type_score
   else ret None) t.
Proof.
  unfold train_step, forward_backward, _prepare_sample, bind, ret.
  destruct (_forward sample false t) as [[[[[[loss n] oom_fwd] bs] bq]|e] t1];
    [|reflexivity].
  destruct (_backward loss t1) as [[oom_bwd|e] t2]; [|reflexivity].
  destruct (buffer_append 1 oom_fwd oom_bwd t2) as [[[]|e] t3]; [|reflexivity].
  destruct update_params; reflexivity.
Qed.

Lemma forward_oom t s :
  forward_runs_out_of_memory t s ->
  _forward (Some s) false t =
    (Ok (None, len0 s, 1, zero, None),
     with_stdout (stdout t ++ [out_of_memory_warning]) (with_training true t)).
Proof.
  intros (Hmodel & msg & Hfwd & Hmsg).
  unfold _forward, bind, modify, try_except, get, ret, raise, print.
  cbn. rewrite Hmodel, Hfwd. cbn. rewrite Hmsg. reflexivity.
Qed.

Lemma forward_ok t s loss bs bq :
  model (args t) = "MILQT" ->
  forward s = ForwardOk loss bs bq ->
  _forward (Some s) false t =
    (Ok (Some loss, len0 s, 0, bs, Some bq), with_training true t).
Proof.
  intros Hmodel Hfwd.
  unfold _forward, bind, modify, try_except, get, ret, raise, print.
  cbn. rewrite Hmodel, Hfwd. reflexivity.
Qed.

Lemma forward_other_model t s (eval : bool) :
  model (args t) <> "MILQT" ->
  _forward (Some s) eval t =
    (Raise (UnboundLocalError "final_preds"), with_training (negb eval) t).
Proof.
  intros Hmodel. apply String.eqb_neq in Hmodel.
  unfold _forward, bind, modify, try_except, get, ret, raise, print.
  cbn. rewrite Hmodel. reflexivity.
Qed.

Lemma backward_ok t loss cs :
  backward loss = BackwardOk cs ->
  _backward (Some loss) t =
    (Ok 0, with_named_parameters (accumulate (named_parameters t) cs) t).
Proof.
  intros Hbwd.
  unfold _backward, bind, modify, try_except, get, ret, raise, print.
  rewrite Hbwd. reflexivity.
Qed.



(** What the first half of [train_step] leaves alone, and what it buffers. *)
Lemma forward_backward_frame (sample : option (sample_t A)) t r t1 :
  forward_backward sample t = (r, t1) ->
  args t1 = args t /\ _optimizer t1 = _optimizer t /\
  _flat_grads t1 = _flat_grads t /\ _num_updates t1 = _num_updates t /\
  meters t1 = meters t /\
  ((exists x, r = Ok x) ->
   exists oom_fwd oom_bwd,
     _buffered_stats t1 = buffered_one_more oom_fwd oom_bwd (_buffered_stats t)).
Proof.
  unfold forward_backward, _prepare_sample, _forward, _backward, buffer_append,
    zero_grad, optimizer, print, bind, modify, try_except, get, ret, raise.
  intros H. cbn in H.
  repeat (break_inner H; cbn in H);
    inversion H; subst; cbn;
    repeat apply conj; trivial; try (intros [x Hx]; discriminate);
    intros _; eexists _, _; reflexivity.
Qed.

(** C2, as amended.  When the forward pass of a micro-batch raises an
    out-of-memory error, [_forward] catches it, prints the warning and
    reports the flag 1 with no loss, so no backward pass runs and the
    micro-batch adds nothing to the gradients; [zero_grad] is not called.
    When [update_params] is false, [train_step] returns [None], takes no
    optimizer step and leaves the optimizer, the gradients and the record of
    optimizer calls as they were; the micro-batch is counted in the buffered
    stats with its forward flag set. *)
Theorem forward_oom_is_skipped t s :
  forward_runs_out_of_memory t s ->
  _forward (Some s) false t =
    (Ok (None, len0 s, 1, zero, None),
     with_stdout (stdout t ++ [out_of_memory_warning]) (with_training true t)) /\
  (forall t1, _backward None t1 = (Ok 0, t1)) /\
  train_step (Some s) false t =
    (Ok None,
     with_buffered_stats (buffered_one_more 1 0 (_buffered_stats t))
       (with_stdout (stdout t ++ [out_of_memory_warning]) (with_training true t))) /\
  (forall t', t' = snd (train_step (Some s) false t) ->
     stdout t' = stdout t ++ [out_of_memory_warning] /\
     _optimizer t' = _optimizer t /\
     named_parameters t' = named_parameters t /\
     optimizer_calls t' = optimizer_calls t).
Proof.
  intros Hoom.
  assert (Hstep : train_step (Some s) false t =
    (Ok None,
     with_buffered_stats (buffered_one_more 1 0 (_buffered_stats t))
       (with_stdout (stdout t ++ [out_of_memory_warning]) (with_training true t)))).
  { unfold train_step, _prepare_sample.
    unfold bind at 1. unfold ret at 1. unfold bind at 1.
    rewrite (forward_oom Hoom). reflexivity. }
  split; [exact (forward_oom Hoom)|].
  split; [reflexivity|].
  split; [exact Hstep|].
  intros t' ->. rewrite Hstep. repeat split.
Qed.

(** With a model name other than "MILQT" the forward pass of every sample
    stops at the unassigned [final_preds]. *)
Lemma train_step_other_model t s (update_params : bool) :
  model (args t) <> "MILQT" ->
  train_step (Some s) update_params t =
    (Raise (UnboundLocalError "final_preds"), with_training true t).
Proof.
  intros Hmodel.
  unfold train_step, _prepare_sample.
  unfold bind at 1. unfold ret at 1. unfold bind at 1.
  rewrite (@forward_other_model t s false Hmodel). reflexivity.
Qed.

End TrainerFacts.

(** ** The commit *)

Section CommitFacts.

Import Trainer.

Context {A O : Type} {B : Backend A O}.

Implicit Types (t : trainer A O) (s : sample_t A).

(** The first trainable parameter without a gradient stops [_get_grads]. *)
Lemma get_grads_missing (ps : list (param A)) :
  Exists (fun p => requires_grad p = true /\ grad p = None) ps ->
  exists p, In p ps /\ requires_grad p = true /\ grad p = None /\
            get_grads ps = Raise (missing_gradient (name p)).
Proof.
  induction ps as [|q ps IH]; intros Hex.
  - inversion Hex.
  - simpl get_grads.
    destruct (requires_grad q) eqn:Hreq; simpl negb; cbv iota.
    + destruct (grad q) as [g|] eqn:Hgrad.
      * inversion Hex as [? ? [_ Hnone]|? ? Hrest]; subst; [congruence|].
        destruct (IH Hrest) as (p & Hin & Hp1 & Hp2 & Hp3).
        exists p. rewrite Hp3. simpl. auto.
      * exists q. simpl. auto.
    + inversion Hex as [? ? [Htrue _]|? ? Hrest]; subst; [congruence|].
      destruct (IH Hrest) as (p & Hin & Hp1 & Hp2 & Hp3).
      exists p. simpl. auto.
Qed.

Lemma all_reduce_no_grads t (d : Z) (e : exn) :
  get_grads (named_parameters t) = Raise e ->
  _all_reduce_and_rescale d t = (Raise e, t).
Proof.
  intros H.
  unfold _all_reduce_and_rescale, _get_flat_grads, _get_grads, bind, get, ret,
    lift_res.
  rewrite H. reflexivity.
Qed.

(** What gradient aggregation leaves alone. *)
Lemma all_reduce_frame t (d : Z) r t2 :
  _all_reduce_and_rescale d t = (r, t2) ->
  args t2 = args t /\ _optimizer t2 = _optimizer t /\
  optimizer_calls t2 = optimizer_calls t /\ stdout t2 = stdout t /\
  _num_updates t2 = _num_updates t /\ _buffered_stats t2 = _buffered_stats t /\
  meters t2 = meters t /\ training t2 = training t.
Proof.
  unfold _all_reduce_and_rescale, _get_flat_grads, _set_flat_grads, _get_grads,
    bind, get, ret, raise, modify, lift_res.
  intros H. cbn in H.
  repeat (break_inner H; cbn in H);
    inversion H; subst; cbn; repeat apply conj; reflexivity.
Qed.



Lemma zero_param_zeroed (p : param A) : zeroed (zero_param p).
Proof.
  unfold zeroed, zero_param.
  destruct (requires_grad p) eqn:Hreq; [|congruence].
  intros _. simpl.
  destruct set_to_none; [now left|].
  destruct (grad p) as [g|]; [|now left].
  right. exists (map (fun _ => zero) g). split; [reflexivity|].
  induction g; simpl; constructor; auto.
Qed.

(** C8.  If, when [train_step] comes to commit, a parameter with
    [requires_grad] set has no gradient, collecting the gradients raises the
    RuntimeError "Model parameter did not receive gradient" on the first
    such parameter, and the error leaves [train_step]: neither the overflow
    handler of the commit nor the out-of-memory handlers of the forward and
    backward pass see it, and the trainer is as the backward pass left it. *)
Theorem missing_gradient_propagates (sample : option (sample_t A)) t x t1 :
  forward_backward sample t = (Ok x, t1) ->
  Exists (fun p => requires_grad p = true /\ grad p = None) (named_parameters t1) ->
  exists p,
    In p (named_parameters t1) /\ requires_grad p = true /\ grad p = None /\
    train_step sample true t = (Raise (missing_gradient (name p)), t1).
Proof.
  intros Hfb Hex.
  destruct (get_grads_missing Hex) as (p & Hin & Hreq & Hnone & Hraise).
  exists p. repeat (split; [assumption|]).
  rewrite train_step_parts. unfold bind at 1. rewrite Hfb.
  destruct x as [[loss bs] bq].
  unfold commit, bind, get, try_except.
  rewrite (all_reduce_no_grads _ _ Hraise). reflexivity.
Qed.


End CommitFacts.

(** ** Flattening and scattering the gradients *)

Section FlatFacts.

Import Trainer.

Context {A O : Type} {B : Backend A O}.

Implicit Types (t : trainer A O) (ps : list (param A)) (gs : list (list A)).

Local Open Scope nat_scope.

Lemma concat_chunks {X : Type} (ns : list nat) (l : list X) :
  list_sum ns <= length l ->
  concat (chunks ns l) = firstn (list_sum ns) l.
Proof.
  revert l. induction ns as [|n ns IH]; intros l Hlen; simpl in *.
  - reflexivity.
  - rewrite IH by (rewrite length_skipn; lia).
    rewrite <- (firstn_skipn n l) at 3.
    rewrite firstn_app, length_firstn.
    replace (Nat.min n (length l)) with n by lia.
    rewrite firstn_firstn.
    replace (Nat.min (n + list_sum ns) n) with n by lia.
    replace (n + list_sum ns - n) with (list_sum ns) by lia.
    reflexivity.
Qed.

Lemma numel_chunks {X : Type} (ns : list nat) (l : list X) :
  list_sum ns <= length l ->
  map (@length X) (chunks ns l) = ns.
Proof.
  revert l. induction ns as [|n ns IH]; intros l Hlen; simpl in *.
  - reflexivity.
  - rewrite IH by (rewrite length_skipn; lia).
    rewrite length_firstn. f_equal. lia.
Qed.

(** [_set_flat_grads] gives every trainable parameter its piece of the
    buffer, in the order of [named_parameters]. *)
Lemma scatter_into_chunks ps gs (new_grads : list A) (offset : nat) :
  get_grads ps = Ok gs ->
  offset + list_sum (map numel gs) <= length new_grads ->
  exists ps',
    scatter_into ps new_grads offset = (Ok tt, ps') /\
    get_grads ps' = Ok (chunks (map numel gs) (skipn offset new_grads)).
Proof.
  revert gs offset.
  induction ps as [|p ps IH]; intros gs offset Hgs Hlen; simpl in Hgs.
  - inversion Hgs; subst. exists []. split; reflexivity.
  - simpl scatter_into.
    destruct (requires_grad p) eqn:Hreq; simpl in Hgs.
    + destruct (grad p) as [g|] eqn:Hg; [|discriminate].
      destruct (get_grads ps) as [gs'|e] eqn:Hps; [|discriminate].
      simpl in Hgs. inversion Hgs; subst gs. clear Hgs.
      simpl in Hlen.
      destruct (Nat.leb_spec (offset + numel g) (length new_grads)) as [_|Hbad];
        [|lia].
      destruct (IH gs' (offset + numel g) eq_refl) as (ps' & Hsc & Hgr); [lia|].
      rewrite Hsc. eexists. split; [reflexivity|].
      simpl. rewrite Hreq. simpl. rewrite Hgr. simpl.
      rewrite skipn_skipn. rewrite (Nat.add_comm (numel g) offset). reflexivity.
    + destruct (IH gs offset Hgs Hlen) as (ps' & Hsc & Hgr).
      rewrite Hsc. eexists. split; [reflexivity|].
      simpl. rewrite Hreq. simpl. exact Hgr.
Qed.

(** The loop of [_get_flat_grads] writes the gradients one after the other
    from the offset on. *)
Lemma flatten_into_concat gs (out : list A) (offset : nat) :
  offset + list_sum (map numel gs) <= length out ->
  flatten_into out offset gs =
    Ok (firstn offset out ++ concat gs
          ++ skipn (offset + list_sum (map numel gs)) out,
        offset + list_sum (map numel gs)).
Proof.
  revert out offset.
  induction gs as [|g gs IH]; intros out offset Hlen; simpl in *.
  - rewrite Nat.add_0_r, firstn_skipn. reflexivity.
  - unfold copy_slice.
    destruct (Nat.leb_spec (offset + numel g) (length out)) as [_|Hbad]; [|lia].
    simpl res_bind.
    set (out' := firstn offset out ++ g ++ skipn (offset + numel g) out).
    assert (Hg : numel g = length g) by reflexivity.
    assert (Hf : length (firstn offset out) = offset)
      by (rewrite length_firstn; lia).
    assert (Hlen' : length out' = length out).
    { unfold out'. rewrite !length_app, Hf, length_skipn. lia. }
    rewrite IH by lia.
    assert (Hfirst : firstn (offset + numel g) out' = firstn offset out ++ g).
    { unfold out'. rewrite app_assoc.
      rewrite firstn_app.
      rewrite length_app, Hf.
      replace (offset + numel g - (offset + length g)) with 0 by lia.
      rewrite firstn_O, app_nil_r.
      apply firstn_all2. rewrite length_app, Hf. lia. }
    assert (Hskip : skipn (offset + numel g + list_sum (map numel gs)) out'
                    = skipn (offset + (numel g + list_sum (map numel gs))) out).
    { unfold out'. rewrite app_assoc.
      rewrite skipn_app.
      rewrite length_app, Hf.
      rewrite (skipn_all2 (firstn offset out ++ g))
        by (rewrite length_app, Hf; lia).
      simpl. rewrite skipn_skipn. f_equal. lia. }
    rewrite Hfirst, Hskip. rewrite <- !app_assoc.
    f_equal. f_equal. lia.
Qed.

Lemma get_flat_grads_concat t gs (out : option (list A)) :
  get_grads (named_parameters t) = Ok gs ->
  match out with
  | None => gs <> []
  | Some o => list_sum (map numel gs) <= length o
  end ->
  _get_flat_grads out t = (Ok (concat gs), t).
Proof.
  intros Hgs Hout.
  unfold _get_flat_grads, _get_grads, bind, get, ret, raise, lift_res.
  rewrite Hgs.
  assert (Hcut : forall o : list A,
             list_sum (map numel gs) <= length o ->
             firstn (0 + list_sum (map numel gs))
               (firstn 0 o ++ concat gs ++ skipn (0 + list_sum (map numel gs)) o)
             = concat gs).
  { intros o Ho. simpl.
    assert (Hc : length (concat gs) = list_sum (map numel gs)).
    { clear. induction gs as [|g gs IH]; simpl; [reflexivity|].
      rewrite length_app, IH. reflexivity. }
    rewrite firstn_app, Hc, Nat.sub_diag, firstn_O, app_nil_r.
    apply firstn_all2. lia. }
  destruct out as [o|].
  - rewrite flatten_into_concat by (simpl; lia).
    rewrite Hcut by assumption. reflexivity.
  - destruct gs as [|g gs']; [congruence|].
    rewrite flatten_into_concat by (rewrite repeat_length; simpl; lia).
    rewrite Hcut by (rewrite repeat_length; lia). reflexivity.
Qed.

Lemma set_flat_grads_chunks t gs (new_grads : list A) :
  get_grads (named_parameters t) = Ok gs ->
  list_sum (map numel gs) <= length new_grads ->
  exists ps',
    _set_flat_grads new_grads t = (Ok tt, with_named_parameters ps' t) /\
    get_grads ps' = Ok (chunks (map numel gs) new_grads).
Proof.
  intros Hgs Hlen.
  destruct (@scatter_into_chunks (named_parameters t) gs new_grads 0 Hgs)
    as (ps' & Hsc & Hgr); [simpl; lia|].
  exists ps'. split; [|exact Hgr].
  unfold _set_flat_grads, _get_grads, bind, get, ret, lift_res.
  rewrite Hgs, Hsc. reflexivity.
Qed.

(** C6.  When every trainable parameter has a gradient and the buffer has
    as many elements as these gradients together, [_set_flat_grads] followed
    by [_get_flat_grads] gives the buffer back: both walk
    [named_parameters] in the same order. *)
Theorem flat_grads_round_trip t gs (new_grads : list A) :
  get_grads (named_parameters t) = Ok gs ->
  gs <> [] ->
  length new_grads = list_sum (map numel gs) ->
  exists t1,
    _set_flat_grads new_grads t = (Ok tt, t1) /\
    _get_flat_grads None t1 = (Ok new_grads, t1) /\
    (forall out, length new_grads <= length out ->
                 _get_flat_grads (Some out) t1 = (Ok new_grads, t1)) /\
    (_set_flat_grads new_grads ;; _get_flat_grads None) t = (Ok new_grads, t1).
Proof.
  intros Hgs Hne Hlen.
  destruct (@set_flat_grads_chunks t gs new_grads Hgs) as (ps' & Hset & Hgr);
    [lia|].
  set (t1 := with_named_parameters ps' t) in *.
  assert (Hsizes : map numel (chunks (map numel gs) new_grads) = map numel gs)
    by (apply numel_chunks; lia).
  assert (Hcat : concat (chunks (map numel gs) new_grads) = new_grads).
  { rewrite concat_chunks by lia. apply firstn_all2. lia. }
  assert (Hnone : _get_flat_grads None t1 = (Ok new_grads, t1)).
  { rewrite <- Hcat at 1.
    apply get_flat_grads_concat; [exact Hgr|].
    destruct gs; [congruence|discriminate]. }
  exists t1. repeat split.
  - exact Hset.
  - exact Hnone.
  - intros out Hout. rewrite <- Hcat at 1.
    apply get_flat_grads_concat; [exact Hgr|].
    rewrite Hsizes. lia.
  - unfold bind. rewrite Hset. exact Hnone.
Qed.

End FlatFacts.

(** ** Rescaling and clipping *)

Section RescaleFacts.

Import Trainer.

Context {A O : Type} {B : Backend A O}.

Implicit Types (t : trainer A O) (ps : list (param A)) (gs : list (list A)).

Lemma optimizer_grads_get_grads ps gs :
  get_grads ps = Ok gs -> optimizer_grads ps = map Some gs.
Proof.
  unfold optimizer_grads. revert gs.
  induction ps as [|p ps IH]; intros gs H; simpl in *.
  - inversion H. reflexivity.
  - destruct (requires_grad p); simpl in *; [|auto].
    destruct (grad p) as [g|]; [|discriminate].
    destruct (get_grads ps) as [gs'|]; [|discriminate].
    simpl in H. inversion H. simpl. f_equal. auto.
Qed.

Lemma length_concat_numel gs : length (concat gs) = list_sum (map numel gs).
Proof.
  induction gs as [|g gs IH]; simpl; [reflexivity|].
  rewrite length_app, IH. reflexivity.
Qed.

(** Gradient aggregation when the clipping returns. *)
Lemma all_reduce_ok t gs (d : Z) (n : A) (flat' : list A) :
  get_grads (named_parameters t) = Ok gs ->
  match _flat_grads t with
  | None => gs <> []
  | Some out => (list_sum (map numel gs) <= length out)%nat
  end ->
  clip_grad_norm_ (map (fun x => div_int x d) (concat gs)) (clip_norm (args t))
    = (Ok n, flat') ->
  length flat' = length (concat gs) ->
  exists ps',
    _all_reduce_and_rescale d t =
      (Ok n, with_named_parameters ps' (with_flat_grads (Some flat') t)) /\
    get_grads ps' = Ok (chunks (map numel gs) flat').
Proof.
  intros Hgs Hout Hclip Hlen.
  destruct (@scatter_into_chunks _ (named_parameters t) gs flat' 0 Hgs)
    as (ps' & Hsc & Hgr).
  { rewrite Hlen, length_concat_numel. simpl. lia. }
  exists ps'. split; [|exact Hgr].
  unfold _all_reduce_and_rescale.
  unfold bind at 1. unfold get at 1.
  unfold bind at 1. rewrite (get_flat_grads_concat _ _ Hgs Hout).
  unfold _set_flat_grads, _get_grads, bind, modify, get, lift_res, ret.
  cbn. rewrite Hclip. cbn. rewrite Hgs, Hsc. reflexivity.
Qed.

Lemma sum_Z_app (l : list Z) (x : Z) : sum_Z (l ++ [x]) = sum_Z l + x.
Proof. unfold sum_Z. rewrite fold_left_app. reflexivity. Qed.

Lemma sum_Z_repeat (k : nat) : sum_Z (repeat 1 k) = Z.of_nat k.
Proof.
  induction k as [|k IH].
  - reflexivity.
  - simpl repeat. rewrite repeat_cons, sum_Z_app, IH. lia.
Qed.

End RescaleFacts.

Section ClipFacts.

Import Trainer ClipSpec.

Local Open Scope R_scope.

Lemma sum_squares_nonneg (v : list R) : 0 <= sum_squares v.
Proof.
  induction v as [|x v IH]; simpl; [lra|].
  pose proof (Rle_0_sqr x) as Hx. unfold Rsqr in Hx. lra.
Qed.

Lemma sum_squares_scale (c : R) (v : list R) :
  sum_squares (map (fun x => x * c) v) = c * c * sum_squares v.
Proof.
  induction v as [|x v IH]; simpl; [ring|]. rewrite IH. ring.
Qed.

Lemma l2_norm_scale (c : R) (v : list R) :
  0 <= c -> l2_norm (map (fun x => x * c) v) = c * l2_norm v.
Proof.
  intros Hc. unfold l2_norm. rewrite sum_squares_scale.
  rewrite sqrt_mult_alt by nra.
  fold (Rsqr c). rewrite sqrt_Rsqr by exact Hc. reflexivity.
Qed.

(** Past the threshold, the clipped buffer has norm [max_norm]. *)
Lemma clipped_norm (v : list R) (max_norm : R) :
  0 <= max_norm -> max_norm < l2_norm v ->
  l2_norm (map (fun x => x * (max_norm / l2_norm v)) v) = max_norm.
Proof.
  intros H0 Hlt.
  rewrite l2_norm_scale.
  - field. lra.
  - apply Rle_mult_inv_pos; lra.
Qed.

(** C5, as amended.  On a commit that follows [k] buffered calls of
    [train_step], the gradient aggregator divides every element of the flat
    gradient buffer by [k + 1]: the number of calls of [train_step] since
    the buffered stats were last cleared, the committing one included.
    Every call that returns counts for 1 there, also one whose forward or
    backward pass ran out of memory and added nothing to the gradients.
    If the global L2 norm of the divided buffer exceeds [clip_norm], every
    element is scaled by [clip_norm / norm], and for [clip_norm >= 0] the
    norm of the result is [clip_norm]; otherwise the divided buffer is left
    as it is.  The optimizer steps on these gradients, parameter by
    parameter, and [train_step] returns the norm taken before the
    clipping. *)
Theorem rescale_and_clip_on_commit {O : Type}
    (step : list (option (list R)) -> O -> O) (to_none : bool)
    (sample : option (sample_t R)) (t t1 : trainer R O)
    (loss : option (loss_t R)) (bs : R) (bq : option R)
    (gs : list (list R)) (o : O) (k : nat) :
  let B := real_backend step to_none in
  let divided := map (fun x => x / IZR (Z.of_nat k + 1)) (concat gs) in
  let norm := l2_norm divided in
  let clipped :=
    if Rlt_dec (clip_norm (args t)) norm
    then map (fun x => x * (clip_norm (args t) / norm)) divided
    else divided in
  sample_sizes (_buffered_stats t) = repeat 1%Z k ->
  forward_backward (B := B) sample t = (Ok (loss, bs, bq), t1) ->
  get_grads (named_parameters t1) = Ok gs ->
  gs <> [] ->
  match _flat_grads t with
  | None => True
  | Some out => (list_sum (map (@numel R) gs) <= length out)%nat
  end ->
  _optimizer t = Some o ->
  (exists t',
     train_step (B := B) sample true t = (Ok (Some (loss, norm, bs, bq)), t') /\
     _optimizer t' = Some (step (map Some (chunks (map (@numel R) gs) clipped)) o) /\
     concat (chunks (map (@numel R) gs) clipped) = clipped /\
     (0 <= clip_norm (args t) -> clip_norm (args t) < norm ->
      l2_norm clipped = clip_norm (args t)) /\
     (norm <= clip_norm (args t) -> clipped = divided) /\
     _flat_grads t' = Some clipped) /\
  (forall (sample' : option (sample_t R)) (u u1 : trainer R O)
          (x : option (loss_t R) * R * option R),
     forward_backward (B := B) sample' u = (Ok x, u1) ->
     sample_sizes (_buffered_stats u1) = sample_sizes (_buffered_stats u) ++ [1%Z]).
Proof.
  intros B divided norm clipped Hsizes Hfb Hgs Hne Hflat Ho.
  split.
  2:{ intros sample' u u1 x Hx.
      destruct (forward_backward_frame _ _ Hx) as (_ & _ & _ & _ & _ & Hb).
      destruct Hb as (oom_fwd & oom_bwd & Hb); [eexists; reflexivity|].
      rewrite Hb. reflexivity. }
  destruct (forward_backward_frame _ _ Hfb)
    as (Hargs & Ho1 & Hflat1 & _ & _ & Hbuf).
  destruct Hbuf as (oom_fwd & oom_bwd & Hbuf); [eexists; reflexivity|].
  assert (Hdenom : sum_Z (sample_sizes (_buffered_stats t1)) = (Z.of_nat k + 1)%Z).
  { rewrite Hbuf. unfold buffered_one_more. cbn [sample_sizes].
    rewrite Hsizes, sum_Z_app, sum_Z_repeat. reflexivity. }
  assert (Hlen : length clipped = length (concat gs)).
  { unfold clipped, divided. destruct (Rlt_dec _ _); rewrite ?length_map; reflexivity. }
  assert (Hflat' : match _flat_grads t1 with
                   | None => gs <> []
                   | Some out => (list_sum (map (@numel R) gs) <= length out)%nat
                   end).
  { rewrite Hflat1. destruct (_flat_grads t); assumption. }
  assert (Hcl : clip_grad_norm_ (Backend := B)
                  (map (fun x => div_int x (Z.of_nat k + 1)) (concat gs))
                  (clip_norm (args t1)) = (Ok norm, clipped)).
  { rewrite Hargs. reflexivity. }
  destruct (all_reduce_ok (B := B) t1 (Z.of_nat k + 1) Hgs Hflat' Hcl Hlen)
    as (ps' & Hall & Hgr).
  eexists. split; [|split; [|split; [|split; [|split]]]].
  - rewrite train_step_parts. unfold bind at 1. rewrite Hfb.
    unfold commit.
    unfold bind at 1. unfold get at 1.
    rewrite Hdenom.
    unfold bind at 1. unfold try_except. unfold bind at 1.
    rewrite Hall.
    unfold _opt, zero_grad, optimizer, update_meters, clear_buffered_stats,
      bind, get, ret, modify.
    cbn -[optimizer_grads]. rewrite Ho1, Ho. cbn -[optimizer_grads]. reflexivity.
  - cbn -[optimizer_grads]. erewrite optimizer_grads_get_grads; [reflexivity|exact Hgr].
  - rewrite concat_chunks by (rewrite Hlen, length_concat_numel; lia).
    apply firstn_all2. rewrite Hlen, length_concat_numel. lia.
  - intros Hclip0 Hgt. unfold clipped.
    destruct (Rlt_dec (clip_norm (args t)) norm) as [_|Hn]; [|contradiction].
    apply clipped_norm; assumption.
  - intros Hle. unfold clipped.
    destruct (Rlt_dec (clip_norm (args t)) norm) as [Hn|_]; [lra|reflexivity].
  - reflexivity.
Qed.

End ClipFacts.

(** ** The epoch driver *)

Section DriverFacts.

Import Trainer Driver.

Context {A O : Type} {B : Backend A O}.

Implicit Types (st : epoch_state (A := A) (O := O)) (s : sample_t A) (cfg : config).

Lemma call_train_step_run s (update_params : bool) st :
  call_train_step s update_params st =
  (fst (train_step (Some s) update_params (the_trainer st)),
   {| the_trainer := snd (train_step (Some s) update_params (the_trainer st));
      lr := lr st; total_loss := total_loss st; train_score := train_score st;
      train_question_type_score := train_question_type_score st;
      total_norm := total_norm st; count_norm := count_norm st;
      num_updates := num_updates st;
      train_step_calls := train_step_calls st ++ [update_params] |}).
Proof.
  unfold call_train_step, on_trainer, bind, modify, with_trainer.
  cbn -[train_step].
  destruct (train_step (Some s) update_params (the_trainer st)) as [r t'].
  reflexivity.
Qed.

(** A micro-batch that is buffered. *)
Lemma batch_body_buffers cfg (num_batches i : Z) s st :
  buffers cfg num_batches i = Ok true ->
  forall r st', batch_body cfg num_batches i s st = (r, st') ->
  train_step_calls st' = train_step_calls st ++ [false] /\
  (r = Ok Continue \/ exists e, r = Raise e).
Proof.
  intros Hb r st' H.
  unfold batch_body in H. unfold bind at 1 in H. unfold lift_res in H.
  rewrite Hb in H. unfold bind in H.
  rewrite call_train_step_run in H.
  destruct (fst (train_step (Some s) false (the_trainer st))) as [v|e];
    inversion H; subst; cbn -[train_step]; split; eauto.
Qed.

(** With a progress divisor of zero, an iteration that commits raises. *)
Lemma batch_body_commit_raises cfg (num_batches i : Z) s st :
  py_int_truediv (print_interval cfg) (update_freq cfg) = Ok 0 ->
  buffers cfg num_batches i = Ok false ->
  forall r st', batch_body cfg num_batches i s st = (r, st') ->
  exists e, r = Raise e.
Proof.
  intros Hd Hb r st' H.
  unfold batch_body in H. unfold bind at 1 in H. unfold lift_res in H.
  rewrite Hb in H. unfold bind at 1 in H.
  rewrite call_train_step_run in H.
  destruct (fst (train_step (Some s) true (the_trainer st))) as [[[[[loss gn] bs] bq]|]|e].
  - unfold add_commit, bind, modify, get, raise, lift_res in H.
    rewrite Hd in H.
    destruct loss as [loss|]; [|inversion H; eauto].
    destruct bq as [q|]; [|inversion H; eauto].
    cbn -[train_step] in H. inversion H; eauto.
  - inversion H; eauto.
  - inversion H; eauto.
Qed.

Lemma print_divisor_zero (pi uf : Z) :
  0 <= pi < uf -> py_int_truediv pi uf = Ok 0.
Proof.
  intros H. unfold py_int_truediv.
  destruct (Z.eqb_spec uf 0) as [->|_]; [lia|].
  rewrite Z.quot_small by lia. reflexivity.
Qed.

Lemma print_divisor_positive (pi uf : Z) :
  0 < uf <= pi -> exists d, py_int_truediv pi uf = Ok d /\ 1 <= d.
Proof.
  intros H. unfold py_int_truediv.
  destruct (Z.eqb_spec uf 0) as [->|_]; [lia|].
  eexists. split; [reflexivity|].
  rewrite Z.quot_div_nonneg by lia.
  apply Z.div_le_lower_bound; lia.
Qed.

(** With a progress divisor of zero, the loop over the micro-batches only
    comes to its end when it never committed. *)
Lemma batch_loop_without_commit cfg (num_batches : Z)
    (batches : list (Z * sample_t A)) st st' :
  py_int_truediv (print_interval cfg) (update_freq cfg) = Ok 0 ->
  batch_loop cfg num_batches batches st = (Ok tt, st') ->
  train_step_calls st' = train_step_calls st ++ repeat false (length batches).
Proof.
  intros Hd. revert st.
  induction batches as [|[i s] batches IH]; intros st H.
  - inversion H. simpl. rewrite app_nil_r. reflexivity.
  - simpl batch_loop in H. unfold bind at 1 in H.
    destruct (batch_body cfg num_batches i s st) as [r st1] eqn:Hbody.
    destruct (buffers cfg num_batches i) as [[|]|e] eqn:Hb.
    + destruct (batch_body_buffers _ _ _ _ _ Hb Hbody) as (Hcalls & [->|[e ->]]).
      * apply IH in H. rewrite H, Hcalls, <- app_assoc. reflexivity.
      * discriminate.
    + destruct (batch_body_commit_raises _ _ _ _ _ Hd Hb Hbody) as (e & ->).
      discriminate.
    + unfold batch_body in Hbody. unfold bind at 1 in Hbody.
      unfold lift_res in Hbody. rewrite Hb in Hbody.
      inversion Hbody; subst. discriminate.
Qed.

(** C9.  When [0 <= print_interval < update_freq], the divisor
    [int(print_interval / update_freq)] of the progress test is 0: an
    iteration that commits raises ZeroDivisionError as soon as its
    [train_step] has returned and its sums are taken, so the loop over the
    micro-batches never gets past its first commit.  With
    [print_interval >= update_freq > 0] the divisor is at least 1. *)
Theorem print_interval_below_update_freq cfg :
  0 <= print_interval cfg < update_freq cfg ->
  py_int_truediv (print_interval cfg) (update_freq cfg) = Ok 0 /\
  (forall (num_batches i : Z) s st loss gn bs q,
     buffers cfg num_batches i = Ok false ->
     fst (train_step (Some s) true (the_trainer st))
       = Ok (Some (Some loss, gn, bs, Some q)) ->
     exists st',
       batch_body cfg num_batches i s st = (Raise ZeroDivisionError, st') /\
       num_updates st' = num_updates st + 1 /\
       train_step_calls st' = train_step_calls st ++ [true]) /\
  (forall (num_batches : Z) (batches : list (Z * sample_t A)) st st',
     batch_loop cfg num_batches batches st = (Ok tt, st') ->
     train_step_calls st' = train_step_calls st ++ repeat false (length batches)) /\
  (forall pi uf : Z,
     0 < uf <= pi -> exists d, py_int_truediv pi uf = Ok d /\ 1 <= d).
Proof.
  intros Hcfg.
  pose proof (print_divisor_zero Hcfg) as Hd.
  split; [exact Hd|]. split; [|split].
  - intros num_batches i s st loss gn bs q Hb Hstep.
    unfold batch_body. unfold bind at 1. unfold lift_res at 1.
    rewrite Hb. unfold bind at 1.
    rewrite call_train_step_run, Hstep.
    unfold add_commit, bind, modify, get, raise, lift_res.
    rewrite Hd. cbn -[train_step].
    eexists. split; [reflexivity|]. cbn -[train_step]. split; reflexivity.
  - intros num_batches batches st st'.
    apply batch_loop_without_commit. exact Hd.
  - exact print_divisor_positive.
Qed.

(** Where the test of train.py 90 commits and where it buffers. *)
Lemma index_num_batches_minus_1_commits cfg (num_batches : Z) :
  buffers cfg num_batches (num_batches - 1) = Ok false.
Proof.
  unfold buffers. rewrite Z.ltb_irrefl. reflexivity.
Qed.

(** When the batch size divides the dataset size into [m] micro-batches and
    [update_freq] does not divide [m], [num_batches] is [m + 1] and the
    last micro-batch, of index [m - 1], is buffered. *)
Lemma last_micro_batch_buffered cfg (m : Z) :
  0 < batch_size cfg -> 0 < update_freq cfg -> 0 < m ->
  m mod update_freq cfg <> 0 ->
  py_int_truediv_plus1 (m * batch_size cfg) (batch_size cfg) = Ok (m + 1) /\
  buffers cfg (m + 1) (m - 1) = Ok true.
Proof.
  intros Hbs Huf Hm Hmod. split.
  - unfold py_int_truediv_plus1.
    destruct (Z.eqb_spec (batch_size cfg) 0) as [E|_]; [lia|].
    rewrite Z.quot_div_nonneg by nia.
    replace (m * batch_size cfg + batch_size cfg)
      with ((m + 1) * batch_size cfg) by ring.
    rewrite Z.div_mul by lia. reflexivity.
  - unfold buffers, py_mod.
    destruct (Z.ltb_spec (m - 1) (m + 1 - 1)) as [_|Hbad]; [|lia].
    destruct (Z.eqb_spec (update_freq cfg) 0) as [E|_]; [lia|].
    simpl res_bind. replace (m - 1 + 1) with m by ring.
    pose proof (Z.mod_pos_bound m (update_freq cfg) Huf) as Hb.
    destruct (Z.gtb_spec (m mod update_freq cfg) 0) as [_|Hle]; [reflexivity|lia].
Qed.

Lemma evaluate_other_model (model_name : string) (b : eval_batch)
    (rest : list eval_batch) (dataset_len : positive) :
  model_name <> "MILQT" ->
  evaluate model_name (b :: rest) dataset_len = Raise TypeError.
Proof.
  intros H. apply String.eqb_neq in H.
  unfold evaluate. simpl evaluate_loop. unfold evaluate_batch.
  rewrite H. reflexivity.
Qed.

(** C10.  With a model name other than "MILQT" no prediction is assigned:
    [train_step] stops at the unassigned [final_preds] on every sample, and
    [evaluate] stops at its [None] on the first batch. *)
Theorem model_name_must_be_MILQT (t : trainer A O) :
  model (args t) <> "MILQT" ->
  (forall s (update_params : bool),
     train_step (Some s) update_params t =
       (Raise (UnboundLocalError "final_preds"), with_training true t)) /\
  (forall (b : eval_batch) (rest : list eval_batch) (dataset_len : positive),
     evaluate (model (args t)) (b :: rest) dataset_len = Raise TypeError).
Proof.
  intros Hmodel. split.
  - intros s update_params. now apply train_step_other_model.
  - intros b rest dataset_len. now apply evaluate_other_model.
Qed.

End DriverFacts.

(** ** The properties on concrete runs *)

Import Trainer Driver Examples.

Lemma oom_sample_runs_out_of_memory (w : option (list Z)) :
  forward_runs_out_of_memory (a_trainer "MILQT" w) oom_sample.
Proof.
  split; [reflexivity|].
  eexists. split; reflexivity.
Qed.

Lemma forward_oom_is_skipped_witness :
  forward_runs_out_of_memory (a_trainer "MILQT" (Some [2; 4])) oom_sample /\
  exists t',
    train_step (B := a_backend) (Some oom_sample) false (a_trainer "MILQT" (Some [2; 4]))
      = (Ok None, t') /\
    stdout t' = [out_of_memory_warning] /\
    _optimizer t' = Some 0%nat /\
    optimizer_calls t' = [].
Proof.
  split; [apply oom_sample_runs_out_of_memory|].
  destruct (forward_oom_is_skipped (B := a_backend)
              (oom_sample_runs_out_of_memory (Some [2; 4])))
    as (_ & _ & Hstep & _).
  eexists. split; [exact Hstep|].
  repeat split.
Defined.

(** C2 as stated fails both ways.  A buffering [train_step] whose forward
    pass runs out of memory does not call [zero_grad]; a committing one
    takes the optimizer step on the gradients accumulated before, and the
    optimizer is not as it was. *)
Lemma forward_oom_recovery_is_not_as_stated :
  ~ forward_oom_recovery_as_stated (B := a_backend)
      (a_trainer "MILQT" (Some [2; 4])) oom_sample false /\
  ~ forward_oom_recovery_as_stated (B := a_backend)
      (a_trainer "MILQT" (Some [2; 4])) oom_sample true.
Proof.
  split; intros H;
    specialize (H (oom_sample_runs_out_of_memory (Some [2; 4])));
    unfold forward_oom_recovery_as_stated in H.
  - destruct (train_step (B := a_backend) (Some oom_sample) false
                (a_trainer "MILQT" (Some [2; 4]))) as [r t'] eqn:E.
    assert (Hc : optimizer_calls t' = []).
    { change t' with (snd (r, t')). rewrite <- E. vm_compute. reflexivity. }
    destruct H as (_ & _ & (calls & Hcalls & Hin & _) & _).
    rewrite Hc in Hcalls. simpl in Hcalls. subst calls. exact Hin.
  - destruct (train_step (B := a_backend) (Some oom_sample) true
                (a_trainer "MILQT" (Some [2; 4]))) as [r t'] eqn:E.
    assert (Ho : _optimizer t' = Some 1%nat).
    { change t' with (snd (r, t')). rewrite <- E. vm_compute. reflexivity. }
    destruct H as (_ & _ & _ & Hopt).
    rewrite Ho in Hopt. discriminate.
Qed.

(** The out-of-memory recovery stops at the driver when the micro-batch
    commits: [train_step] returns no loss and [loss.item()] fails.  Here the
    second of three micro-batches runs out of memory. *)
Example forward_oom_on_commit_stops_the_epoch :
  fst (train_epoch (B := a_backend) a_config 0.001 0 5
         [a_sample (Some [2; 4]); oom_sample; a_sample (Some [2; 4])]
         an_epoch_state)
  = Raise AttributeError.
Proof. vm_compute. reflexivity. Qed.

(** C4 fails on the code.  With 6 examples in batches of 2 and a commit
    every 2 micro-batches, [num_batches] is 4 while the loader yields 3
    micro-batches: the epoch ends normally, but its last micro-batch was
    passed with [update_params=False], its gradient and its buffered stats
    are left pending, and a single optimizer step was taken. *)
Theorem final_micro_batch_is_not_committed :
  py_int_truediv_plus1 6 (batch_size a_config) = Ok 4 /\
  fst (train_epoch (B := a_backend) a_config 0.001 0 6
         [a_sample (Some [2; 4]); a_sample (Some [2; 4]); a_sample (Some [2; 4])]
         an_epoch_state) = Ok tt /\
  train_step_calls
    (snd (train_epoch (B := a_backend) a_config 0.001 0 6
            [a_sample (Some [2; 4]); a_sample (Some [2; 4]); a_sample (Some [2; 4])]
            an_epoch_state)) = [false; true; false] /\
  forall t',
    t' = the_trainer
           (snd (train_epoch (B := a_backend) a_config 0.001 0 6
                   [a_sample (Some [2; 4]); a_sample (Some [2; 4]);
                    a_sample (Some [2; 4])]
                   an_epoch_state)) ->
    sample_sizes (_buffered_stats t') = [1] /\
    optimizer_calls t' = [StepCall; ZeroGradCall] /\
    named_parameters t' = named_parameters (a_trainer "MILQT" (Some [2; 4])).
Proof.
  split; [reflexivity|].
  split; [vm_compute; reflexivity|].
  split; [vm_compute; reflexivity|].
  intros t' ->. repeat split; vm_compute; reflexivity.
Qed.

Lemma flat_grads_round_trip_witness :
  exists t1,
    _set_flat_grads [7; 9] (a_trainer "MILQT" (Some [2; 4])) = (Ok tt, t1) /\
    _get_flat_grads (B := a_backend) None t1 = (Ok [7; 9], t1).
Proof.
  destruct (@flat_grads_round_trip Z nat a_backend
              (a_trainer "MILQT" (Some [2; 4])) [[2; 4]] [7; 9])
    as (t1 & Hset & Hget & _).
  - reflexivity.
  - discriminate.
  - reflexivity.
  - exists t1. split; assumption.
Defined.


Lemma missing_gradient_propagates_witness :
  exists t1,
    train_step (B := a_backend) (Some (a_sample None)) true (a_trainer "MILQT" None)
    = (Raise (missing_gradient "w"), t1) /\
    stdout t1 = [] /\ optimizer_calls t1 = [].
Proof.
  pose (t := a_trainer "MILQT" None).
  pose (t1 := snd (forward_backward (B := a_backend) (Some (a_sample None)) t)).
  destruct (@missing_gradient_propagates Z nat a_backend
              (Some (a_sample None)) t
              (Some {| item := 3; backward := BackwardOk [None; None] |}, 2, Some 1)
              t1)
    as (p & Hin & Hreq & _ & Hstep).
  - reflexivity.
  - apply Exists_cons_hd. split; reflexivity.
  - exists t1. split; [|split; reflexivity].
    destruct Hin as [<-|[<-|[]]]; [exact Hstep|discriminate].
Defined.

Lemma model_name_must_be_MILQT_witness :
  train_step (B := a_backend) (Some (a_sample (Some [2; 4]))) true
    (a_trainer "BAN" None)
  = (Raise (UnboundLocalError "final_preds"), with_training true (a_trainer "BAN" None)) /\
  evaluate "BAN" [an_eval_batch] 1 = Raise TypeError.
Proof.
  destruct (@model_name_must_be_MILQT Z nat a_backend (a_trainer "BAN" None))
    as [Hstep Heval].
  - discriminate.
  - split; [apply Hstep | apply (Heval an_eval_batch [] 1%positive)].
Defined.

Lemma print_interval_below_update_freq_witness :
  py_int_truediv 1 2 = Ok 0 /\
  exists st',
    batch_body (B := a_backend)
      {| batch_size := 2; update_freq := 2; print_interval := 1; testing := false |}
      4 3 (a_sample (Some [2; 4])) an_epoch_state
    = (Raise ZeroDivisionError, st').
Proof.
  destruct (@print_interval_below_update_freq Z nat a_backend
              {| batch_size := 2; update_freq := 2; print_interval := 1;
                 testing := false |})
    as (Hd & Hbody & _).
  - simpl. lia.
  - split; [exact Hd|].
    destruct (Hbody 4 3 (a_sample (Some [2; 4])) an_epoch_state
                {| item := 3; backward := BackwardOk [Some [2; 4]; None] |}
                5 2 1)
      as (st' & Hraise & _).
    + reflexivity.
    + reflexivity.
    + exists st'. exact Hraise.
Defined.

Lemma rescale_and_clip_on_commit_witness :
  sample_sizes (_buffered_stats GroupExamples.a_real_trainer_after_one_step) = [1] /\
  exists t' clipped,
    train_step (B := a_real_backend) (Some GroupExamples.a_real_oom_sample) true
      GroupExamples.a_real_trainer_after_one_step
    = (Ok (Some (None,
                 ClipSpec.l2_norm (map (fun x => (x / IZR (Z.of_nat 1 + 1))%R)
                                       [6%R; 8%R]),
                 0%R, None)), t') /\
    _flat_grads t' = Some clipped /\
    ClipSpec.l2_norm clipped = 1%R.
Proof.
  split; [reflexivity|].
  pose (t1 := snd (forward_backward (B := a_real_backend)
                     (Some GroupExamples.a_real_oom_sample)
                     GroupExamples.a_real_trainer_after_one_step)).
  destruct (@rescale_and_clip_on_commit nat (fun _ steps => S steps) false
              (Some GroupExamples.a_real_oom_sample)
              GroupExamples.a_real_trainer_after_one_step t1
              None 0%R None [[6%R; 8%R]] 0%nat 1%nat)
    as [(t' & Hstep & _ & _ & Hclip & _ & Hflat) _].
  - reflexivity.
  - reflexivity.
  - reflexivity.
  - discriminate.
  - exact I.
  - reflexivity.
  - exists t'. eexists. split; [exact Hstep|]. split; [exact Hflat|].
    apply Hclip.
    + simpl. lra.
    + unfold ClipSpec.l2_norm, ClipSpec.sum_squares. simpl.
      rewrite <- sqrt_1 at 1. apply sqrt_lt_1; lra.
Defined.

(** C5 as stated fails on the denominator.  After a buffered micro-batch
    that gives the gradient [4, 8], a committing micro-batch whose forward
    pass runs out of memory contributes nothing, and yet counts: the buffer
    is divided by 2, and is [2, 4], where one contributing micro-batch would
    leave [4, 8].  And with a negative [clip_norm] the norm always exceeds
    it while no clipped buffer can have it as its norm. *)
Lemma denominator_counts_every_micro_batch :
  ~ denominator_as_stated (B := a_backend)
      [a_sample (Some [4; 8])] oom_sample (a_trainer "MILQT" None) /\
  (-1 < ClipSpec.l2_norm [3; 4])%R /\
  ClipSpec.l2_norm (snd (ClipSpec.clip_grad_norm_model [3%R; 4%R] (-1)%R)) <> (-1)%R.
Proof.
  assert (Hpos : forall v, (-1 < ClipSpec.l2_norm v)%R).
  { intros v. unfold ClipSpec.l2_norm.
    pose proof (sqrt_pos (ClipSpec.sum_squares v)). lra. }
  split; [|split].
  - intros H.
    pose (tk := snd (buffer_steps (B := a_backend) [a_sample (Some [4; 8])]
                       (a_trainer "MILQT" None))).
    pose (t1 := snd (forward_backward (B := a_backend) (Some oom_sample) tk)).
    pose (t' := snd (train_step (B := a_backend) (Some oom_sample) true tk)).
    specialize (H eq_refl tk t1 (None, 0, None) [[4; 8]] (Some (None, 5, 0, None)) t').
    assert (H1 : buffer_steps (B := a_backend) [a_sample (Some [4; 8])]
                   (a_trainer "MILQT" None) = (Ok tt, tk))
      by (vm_compute; reflexivity).
    assert (H2 : forward_backward (B := a_backend) (Some oom_sample) tk
                 = (Ok (None, 0, None), t1))
      by (vm_compute; reflexivity).
    assert (H3 : get_grads (named_parameters t1) = Ok [[4; 8]])
      by (vm_compute; reflexivity).
    assert (H4 : train_step (B := a_backend) (Some oom_sample) true tk
                 = (Ok (Some (None, 5, 0, None)), t'))
      by (vm_compute; reflexivity).
    specialize (H H1 H2 H3 H4).
    assert (E1 : _flat_grads t' = Some [2; 4]) by (vm_compute; reflexivity).
    rewrite E1 in H.
    assert (E2 : contributing_micro_batches [a_sample (Some [4; 8]); oom_sample] = 1)
      by (vm_compute; reflexivity).
    cbn [app] in H. rewrite E2 in H.
    cbn in H. discriminate.
  - apply Hpos.
  - specialize (Hpos (snd (ClipSpec.clip_grad_norm_model [3%R; 4%R] (-1)%R))). lra.
Qed.

(* ================================================================== *)
(** * Further properties of the step executor *)

Section StepFacts.

Import Trainer.

Context {A O : Type} {B : Backend A O}.

Implicit Types (t : trainer A O) (s : sample_t A).

(** X1.  Which exceptions of the forward pass [_forward] absorbs: a RuntimeError
    whose message holds "out of memory", and only outside evaluation.  Any
    other exception leaves [_forward], and [train_step] with it, before
    anything is buffered. *)
Theorem forward_absorbs_only_out_of_memory t s (e : exn) (eval : bool) :
  model (args t) = "MILQT" ->
  forward s = ForwardRaise e ->
  _forward (Some s) eval t =
    (if negb eval && is_out_of_memory e
     then (Ok (None, len0 s, 1, zero, None),
           with_stdout (stdout t ++ [out_of_memory_warning])
             (with_training (negb eval) t))
     else (Raise e, with_training (negb eval) t)) /\
  (is_out_of_memory e = false ->
   forall update_params : bool,
     train_step (Some s) update_params t = (Raise e, with_training true t)).
Proof.
  intros Hmodel Hfwd.
  assert (Hf : forall ev : bool,
             _forward (Some s) ev t =
             (if negb ev && is_out_of_memory e
              then (Ok (None, len0 s, 1, zero, None),
                    with_stdout (stdout t ++ [out_of_memory_warning])
                      (with_training (negb ev) t))
              else (Raise e, with_training (negb ev) t))).
  { intros ev.
    unfold _forward, bind, modify, try_except, get, ret, raise, print.
    cbn. rewrite Hmodel, Hfwd. cbn.
    destruct e; cbn; try (rewrite andb_false_r; reflexivity).
    destruct (negb ev && contains "out of memory" msg); reflexivity. }
  split; [apply Hf|].
  intros Hoom update_params.
  unfold train_step, _prepare_sample.
  unfold bind at 1. unfold ret at 1. unfold bind at 1.
  rewrite Hf, Hoom, andb_false_r. reflexivity.
Qed.

(** X2.  An out-of-memory error of the backward pass is absorbed too, and there
    [zero_grad] is called: the gradients accumulated for the group so far
    are zeroed with those of the failed micro-batch, the warning is printed,
    and the micro-batch is buffered with its backward flag set. *)
Theorem backward_oom_zeroes_the_gradients t s loss (bs bq : A) (msg : string) (o : O) :
  model (args t) = "MILQT" ->
  forward s = ForwardOk loss bs bq ->
  backward loss = BackwardRaise (RuntimeError msg) ->
  contains "out of memory" msg = true ->
  _optimizer t = Some o ->
  _backward (Some loss) t =
    (Ok 1,
     with_optimizer_calls (optimizer_calls t ++ [ZeroGradCall])
       (with_named_parameters (map zero_param (named_parameters t))
          (with_stdout (stdout t ++ [out_of_memory_warning]) t))) /\
  exists t',
    train_step (Some s) false t = (Ok None, t') /\
    stdout t' = stdout t ++ [out_of_memory_warning] /\
    optimizer_calls t' = optimizer_calls t ++ [ZeroGradCall] /\
    named_parameters t' = map zero_param (named_parameters t) /\
    Forall zeroed (named_parameters t') /\
    _buffered_stats t' = buffered_one_more 0 1 (_buffered_stats t) /\
    _optimizer t' = Some o /\ _num_updates t' = _num_updates t.
Proof.
  intros Hmodel Hfwd Hbwd Hmsg Ho.
  assert (Hb : forall u : trainer A O,
             _optimizer u = Some o ->
             _backward (Some loss) u =
             (Ok 1,
              with_optimizer_calls (optimizer_calls u ++ [ZeroGradCall])
                (with_named_parameters (map zero_param (named_parameters u))
                   (with_stdout (stdout u ++ [out_of_memory_warning]) u)))).
  { intros u Hu.
    unfold _backward, try_except, raise. rewrite Hbwd.
    cbn [str]. rewrite Hmsg.
    unfold zero_grad, optimizer, print, bind, modify, get, ret.
    cbn. rewrite Hu. reflexivity. }
  split; [apply Hb; exact Ho|].
  eexists. split.
  - unfold train_step, _prepare_sample.
    unfold bind at 1. unfold ret at 1. unfold bind at 1.
    rewrite (forward_ok _ _ Hmodel Hfwd).
    unfold bind at 1. rewrite Hb by exact Ho.
    reflexivity.
  - cbn. repeat split; trivial.
    apply Forall_forall. intros p Hin. apply in_map_iff in Hin.
    destruct Hin as (q & <- & _). apply zero_param_zeroed.
Qed.

(** X3.  A trainer built without an optimizer cannot commit: [_build_optimizer]
    builds nothing, so [zero_grad] and [_opt] fail on the missing optimizer,
    and every committing [train_step] raises, as does every
    [dummy_train_step]. *)
Theorem no_optimizer_no_commit t :
  _optimizer t = None ->
  zero_grad t = (Raise AttributeError, t) /\
  _opt t = (Raise AttributeError, t) /\
  (forall (sample : option (sample_t A)) r t',
     train_step sample true t = (r, t') -> exists e, r = Raise e) /\
  (forall (sample : option (sample_t A)) r t',
     dummy_train_step sample t = (r, t') -> exists e, r = Raise e).
Proof.
  intros Ho.
  assert (Hz : forall u : trainer A O,
             _optimizer u = None -> zero_grad u = (Raise AttributeError, u)).
  { intros u Hu. unfold zero_grad, optimizer, bind, get, ret, raise.
    rewrite Hu. reflexivity. }
  assert (Hopt : forall u : trainer A O,
             _optimizer u = None -> _opt u = (Raise AttributeError, u)).
  { intros u Hu. unfold _opt, optimizer, bind, get, ret, raise.
    rewrite Hu. reflexivity. }
  split; [apply Hz; exact Ho|]. split; [apply Hopt; exact Ho|]. split.
  - intros sample r t' H.
    rewrite train_step_parts in H. unfold bind at 1 in H.
    destruct (forward_backward sample t) as [[[[loss bs] bq]|e] t1] eqn:Hfb;
      [|inversion H; eauto].
    destruct (forward_backward_frame _ _ Hfb) as (_ & Ho1 & _).
    unfold commit in H. unfold bind at 1 in H. unfold get at 1 in H.
    unfold bind at 1 in H. unfold try_except in H. unfold bind at 1 in H.
    destruct (_all_reduce_and_rescale
                (sum_Z (sample_sizes (_buffered_stats t1))) t1)
      as [[gn|e] t2] eqn:Hall;
      destruct (all_reduce_frame _ _ Hall) as (_ & Ho2 & _).
    + unfold bind at 1 in H. rewrite Hopt in H by congruence.
      inversion H; eauto.
    + destruct e; try (inversion H; eauto; fail).
      unfold bind at 1 in H. rewrite Hz in H by congruence.
      inversion H; eauto.
  - intros sample r t' H.
    unfold dummy_train_step in H. unfold bind at 1 in H.
    destruct (train_step sample false t) as [[v|e] t1] eqn:Hstep;
      [|inversion H; eauto].
    rewrite train_step_parts in Hstep. unfold bind at 1 in Hstep.
    destruct (forward_backward sample t) as [[[[loss bs] bq]|e] t0] eqn:Hfb;
      [|discriminate].
    destruct (forward_backward_frame _ _ Hfb) as (_ & Ho1 & _).
    inversion Hstep; subst.
    unfold bind at 1 in H. rewrite Hz in H by congruence.
    inversion H; eauto.
Qed.

Lemma count_steps_app (l1 l2 : list call) :
  count_steps (l1 ++ l2) = count_steps l1 + count_steps l2.
Proof.
  induction l1 as [|[|] l1 IH]; cbn [count_steps app]; lia.
Qed.

(** The forward and backward pass never step the optimizer. *)
Lemma forward_backward_calls (sample : option (sample_t A)) t r t1 :
  forward_backward sample t = (r, t1) ->
  exists new,
    optimizer_calls t1 = optimizer_calls t ++ new /\ count_steps new = 0.
Proof.
  unfold forward_backward, _prepare_sample, _forward, _backward, buffer_append,
    zero_grad, optimizer, print, bind, modify, try_except, get, ret, raise.
  intros H. cbn in H.
  repeat (break_inner H; cbn in H);
    inversion H; subst; cbn;
    first [ exists []; split; [symmetry; apply app_nil_r | reflexivity]
          | exists [ZeroGradCall]; split; reflexivity ].
Qed.


Lemma train_step_buffers t s (cs : list (option (list A))) :
  model (args t) = "MILQT" ->
  sample_contribution s = Some cs ->
  train_step (Some s) false t =
    (Ok None,
     with_buffered_stats (buffered_one_more 0 0 (_buffered_stats t))
       (with_named_parameters (accumulate (named_parameters t) cs)
          (with_training true t))).
Proof.
  intros Hmodel Hcs. unfold sample_contribution in Hcs.
  destruct (forward s) as [loss bs bq|e] eqn:Hfwd; [|discriminate].
  destruct (backward loss) as [cs'|e] eqn:Hbwd; [|discriminate].
  inversion Hcs; subst cs'.
  unfold train_step, _prepare_sample.
  unfold bind at 1. unfold ret at 1. unfold bind at 1.
  rewrite (forward_ok _ _ Hmodel Hfwd).
  unfold bind at 1. erewrite backward_ok by exact Hbwd.
  reflexivity.
Qed.

Lemma buffer_steps_run (samples : list (sample_t A))
    (css : list (list (option (list A)))) t :
  model (args t) = "MILQT" ->
  map sample_contribution samples = map Some css ->
  exists t',
    buffer_steps samples t = (Ok tt, t') /\
    named_parameters t' = fold_left accumulate css (named_parameters t) /\
    sample_sizes (_buffered_stats t')
      = sample_sizes (_buffered_stats t) ++ repeat 1 (length samples) /\
    ooms_fwd (_buffered_stats t')
      = ooms_fwd (_buffered_stats t) ++ repeat 0 (length samples) /\
    ooms_bwd (_buffered_stats t')
      = ooms_bwd (_buffered_stats t) ++ repeat 0 (length samples) /\
    optimizer_calls t' = optimizer_calls t /\
    _optimizer t' = _optimizer t /\
    _num_updates t' = _num_updates t /\
    _flat_grads t' = _flat_grads t /\
    args t' = args t.
Proof.
  revert css t.
  induction samples as [|s samples IH]; intros css t Hmodel Hcss.
  - destruct css; [|discriminate].
    exists t. cbn. rewrite !app_nil_r. repeat split.
  - destruct css as [|cs css]; [discriminate|].
    cbn [map] in Hcss. inversion Hcss as [[Hcs Hrest]].
    cbn [buffer_steps]. unfold bind at 1.
    rewrite (train_step_buffers _ _ Hmodel Hcs).
    destruct (IH css
                (with_buffered_stats (buffered_one_more 0 0 (_buffered_stats t))
                   (with_named_parameters (accumulate (named_parameters t) cs)
                      (with_training true t))))
      as (t' & Hrun & Hps & Hss & Hf & Hb & Hc & Ho & Hn & Hfl & Ha);
      [exact Hmodel | exact Hrest |].
    exists t'. split; [exact Hrun|].
    cbn in Hps, Hss, Hf, Hb, Hc, Ho, Hn, Hfl, Ha.
    rewrite Hps, Hss, Hf, Hb, Hc, Ho, Hn, Hfl, Ha.
    cbn [length repeat fold_left]. rewrite <- !app_assoc.
    repeat split.
Qed.

(** X5.  Buffering steps only accumulate.  After the calls of [train_step] with
    [update_params=False] on micro-batches whose forward and backward pass
    return, the gradients hold the contributions of all of them, added in
    order, the buffered stats hold one entry of sample size 1 and no
    out-of-memory flag for each, and the optimizer was not called. *)
Theorem buffer_steps_accumulate (samples : list (sample_t A))
    (css : list (list (option (list A)))) t :
  model (args t) = "MILQT" ->
  map sample_contribution samples = map Some css ->
  exists t',
    buffer_steps samples t = (Ok tt, t') /\
    named_parameters t' = fold_left accumulate css (named_parameters t) /\
    sample_sizes (_buffered_stats t')
      = sample_sizes (_buffered_stats t) ++ repeat 1 (length samples) /\
    ooms_fwd (_buffered_stats t')
      = ooms_fwd (_buffered_stats t) ++ repeat 0 (length samples) /\
    ooms_bwd (_buffered_stats t')
      = ooms_bwd (_buffered_stats t) ++ repeat 0 (length samples) /\
    optimizer_calls t' = optimizer_calls t /\
    _optimizer t' = _optimizer t /\
    _num_updates t' = _num_updates t /\
    _flat_grads t' = _flat_grads t /\
    args t' = args t.
Proof. apply buffer_steps_run. Qed.

(** X6.  [dummy_train_step] leaves nothing pending.  When it returns, the
    buffered stats are empty, every gradient is zeroed, and the optimizer
    has not stepped: its state and the update counter are as before. *)
Theorem dummy_train_step_leaves_nothing (sample : option (sample_t A)) t t' :
  dummy_train_step sample t = (Ok tt, t') ->
  _buffered_stats t' = no_buffered_stats /\
  Forall zeroed (named_parameters t') /\
  _optimizer t' = _optimizer t /\
  _num_updates t' = _num_updates t /\
  exists new,
    optimizer_calls t' = optimizer_calls t ++ new /\ count_steps new = 0.
Proof.
  intros H.
  unfold dummy_train_step in H. unfold bind at 1 in H.
  destruct (train_step sample false t) as [[v|e] t1] eqn:Hstep; [|discriminate].
  rewrite train_step_parts in Hstep. unfold bind at 1 in Hstep.
  destruct (forward_backward sample t) as [[[[loss bs] bq]|e] t0] eqn:Hfb;
    [|discriminate].
  inversion Hstep; subst t0 v. clear Hstep.
  destruct (forward_backward_frame _ _ Hfb) as (_ & Ho1 & _ & Hn1 & _).
  destruct (forward_backward_calls _ _ Hfb) as (new0 & Hc1 & H0).
  unfold zero_grad, optimizer, clear_buffered_stats, bind, modify, get, ret,
    raise in H.
  destruct (_optimizer t1) as [o|] eqn:Ho; cbn in H; [|discriminate].
  inversion H; subst t'. cbn.
  repeat split; try congruence.
  - apply Forall_forall. intros p Hin. apply in_map_iff in Hin.
    destruct Hin as (q & <- & _). apply zero_param_zeroed.
  - exists (new0 ++ [ZeroGradCall]).
    rewrite Hc1, count_steps_app, H0, <- app_assoc. split; reflexivity.
Qed.

(** X7.  A missing sample.  [train_step] on [None] (or on an empty sample, which
    [_prepare_sample] turns into [None]) skips the forward pass and fails on
    [len(sample[0])]: it raises TypeError whatever the model name, having
    only put the model in training mode; nothing is buffered. *)
Theorem missing_sample_raises (update_params : bool) t :
  train_step None update_params t = (Raise TypeError, with_training true t) /\
  dummy_train_step None t = (Raise TypeError, with_training true t) /\
  forall eval : bool,
    _forward None eval t = (Raise TypeError, with_training (negb eval) t).
Proof.
  repeat split.
Qed.

Lemma forward_backward_ok t s loss (bs bq : A) (cs : list (option (list A))) :
  model (args t) = "MILQT" ->
  forward s = ForwardOk loss bs bq ->
  backward loss = BackwardOk cs ->
  forward_backward (Some s) t =
    (Ok (Some loss, bs, Some bq),
     with_buffered_stats (buffered_one_more 0 0 (_buffered_stats t))
       (with_named_parameters (accumulate (named_parameters t) cs)
          (with_training true t))).
Proof.
  intros Hmodel Hfwd Hbwd.
  unfold forward_backward, _prepare_sample.
  unfold bind at 1. unfold ret at 1. unfold bind at 1.
  rewrite (forward_ok _ _ Hmodel Hfwd).
  unfold bind at 1. erewrite backward_ok by exact Hbwd.
  reflexivity.
Qed.

End StepFacts.

(** * Further properties of the gradient aggregator *)

Section AggregatorFacts.

Import Trainer.

Context {A O : Type} {B : Backend A O}.

Implicit Types (t : trainer A O) (ps : list (param A)) (gs : list (list A)).

Lemma with_same_grad (p : param A) (g : list A) :
  grad p = Some g -> with_grad (Some g) p = p.
Proof. destruct p as [n r gr]. simpl. intros ->. reflexivity. Qed.

Lemma with_same_named_parameters t : with_named_parameters (named_parameters t) t = t.
Proof. destruct t. reflexivity. Qed.

(** Scattering the concatenation of the gradients, found at its offset in
    a buffer, rewrites every gradient with itself. *)
Lemma scatter_into_same ps gs (pre post : list A) :
  get_grads ps = Ok gs ->
  scatter_into ps (pre ++ concat gs ++ post) (length pre) = (Ok tt, ps).
Proof.
  revert gs pre.
  induction ps as [|p ps IH]; intros gs pre Hgs; simpl in Hgs.
  - reflexivity.
  - simpl scatter_into.
    destruct (requires_grad p) eqn:Hreq; simpl in Hgs.
    + destruct (grad p) as [g|] eqn:Hg; [|discriminate].
      destruct (get_grads ps) as [gs'|e] eqn:Hps; [|discriminate].
      simpl in Hgs. inversion Hgs; subst gs. clear Hgs.
      cbn [concat]. unfold numel.
      rewrite <- (app_assoc g), (app_assoc pre g).
      replace (length pre + length g)%nat with (length (pre ++ g))
        by apply length_app.
      rewrite (IH gs' (pre ++ g) eq_refl).
      rewrite <- (app_assoc pre g).
      destruct (Nat.leb_spec (length (pre ++ g))
                  (length (pre ++ g ++ concat gs' ++ post))) as [_|Hbad].
      2:{ rewrite !length_app in Hbad. lia. }
      rewrite skipn_app, Nat.sub_diag, skipn_all, skipn_O, app_nil_l.
      rewrite firstn_app, Nat.sub_diag, firstn_all, firstn_O, app_nil_r.
      rewrite (with_same_grad _ Hg). reflexivity.
    + rewrite (IH gs pre Hgs). reflexivity.
Qed.

(** X8.  The other round trip.  [_get_flat_grads] returns the gradients of the
    trainable parameters one after the other, in the order of
    [named_parameters] and without those of the frozen ones, and leaves the
    trainer alone; [_set_flat_grads] on its result changes nothing. *)
Theorem flatten_then_scatter_is_identity t gs :
  get_grads (named_parameters t) = Ok gs ->
  gs <> [] ->
  _get_flat_grads None t = (Ok (concat gs), t) /\
  length (concat gs) = list_sum (map numel gs) /\
  _set_flat_grads (concat gs) t = (Ok tt, t) /\
  (flat <- _get_flat_grads None ;; _set_flat_grads flat) t = (Ok tt, t).
Proof.
  intros Hgs Hne.
  assert (Hget : _get_flat_grads None t = (Ok (concat gs), t))
    by (apply get_flat_grads_concat; assumption).
  assert (Hset : _set_flat_grads (concat gs) t = (Ok tt, t)).
  { unfold _set_flat_grads, _get_grads, bind, get, ret, lift_res.
    rewrite Hgs.
    pose proof (@scatter_into_same (named_parameters t) gs [] [] Hgs) as Hsc.
    rewrite app_nil_r in Hsc. simpl in Hsc. rewrite Hsc.
    rewrite with_same_named_parameters. reflexivity. }
  repeat split.
  - exact Hget.
  - apply length_concat_numel.
  - exact Hset.
  - unfold bind. rewrite Hget. exact Hset.
Qed.

Lemma get_grads_frozen ps :
  Forall (fun p => requires_grad p = false) ps -> get_grads ps = Ok [].
Proof.
  induction 1 as [|p ps Hp _ IH]; simpl; [reflexivity|].
  rewrite Hp. exact IH.
Qed.

(** X9.  A model without a trainable parameter cannot commit for the first
    time: with no flat buffer yet, [_get_flat_grads] looks for the first
    gradient of an empty list, and the IndexError leaves [train_step]. *)
Theorem no_trainable_parameter_no_commit (sample : option (sample_t A)) t
    (x : option (loss_t A) * A * option A) t1 :
  forward_backward sample t = (Ok x, t1) ->
  Forall (fun p => requires_grad p = false) (named_parameters t1) ->
  _flat_grads t = None ->
  _get_flat_grads None t1 = (Raise IndexError, t1) /\
  train_step sample true t = (Raise IndexError, t1).
Proof.
  intros Hfb Hfrozen Hflat.
  pose proof (get_grads_frozen Hfrozen) as Hgs.
  assert (Hget : _get_flat_grads None t1 = (Raise IndexError, t1)).
  { unfold _get_flat_grads, _get_grads, bind, get, ret, raise, lift_res.
    rewrite Hgs. reflexivity. }
  split; [exact Hget|].
  destruct (forward_backward_frame _ _ Hfb) as (_ & _ & Hflat1 & _).
  rewrite train_step_parts. unfold bind at 1. rewrite Hfb.
  destruct x as [[loss bs] bq].
  unfold commit, bind, get, try_except.
  unfold _all_reduce_and_rescale, bind, get.
  rewrite Hflat1, Hflat, Hget. reflexivity.
Qed.

Lemma commit_run (sample : option (sample_t A)) t t1
    (loss : option (loss_t A)) (bs : A) (bq : option A) gs (o : O)
    (n : A) (flat' : list A) :
  forward_backward sample t = (Ok (loss, bs, bq), t1) ->
  get_grads (named_parameters t1) = Ok gs ->
  match _flat_grads t with
  | None => gs <> []
  | Some out => (list_sum (map numel gs) <= length out)%nat
  end ->
  clip_grad_norm_
    (map (fun x => div_int x (sum_Z (sample_sizes (_buffered_stats t1))))
         (concat gs))
    (clip_norm (args t)) = (Ok n, flat') ->
  length flat' = length (concat gs) ->
  _optimizer t = Some o ->
  exists t',
    train_step sample true t = (Ok (Some (loss, n, bs, bq)), t') /\
    _optimizer t' = Some (optimizer_step (map Some (chunks (map numel gs) flat')) o) /\
    optimizer_calls t' = optimizer_calls t1 ++ [StepCall; ZeroGradCall] /\
    _num_updates t' = _num_updates t + 1 /\
    Forall zeroed (named_parameters t') /\
    _flat_grads t' = Some flat' /\
    _buffered_stats t' = no_buffered_stats /\
    meters t' =
      {| gnorm := gnorm (meters t) ++ [n];
         clip := clip (meters t)
                   ++ [if gtb n (clip_norm (args t)) then one else zero];
         oom := oom (meters t)
                  ++ [sum_Z (ooms_fwd (_buffered_stats t1))
                      + sum_Z (ooms_bwd (_buffered_stats t1))] |}.
Proof.
  intros Hfb Hgs Hflat Hclip Hlen Ho.
  destruct (forward_backward_frame _ _ Hfb)
    as (Hargs & Ho1 & Hflat1 & Hn1 & Hm1 & _).
  assert (Hflat' : match _flat_grads t1 with
                   | None => gs <> []
                   | Some out => (list_sum (map numel gs) <= length out)%nat
                   end) by (rewrite Hflat1; exact Hflat).
  rewrite <- Hargs in Hclip.
  destruct (all_reduce_ok t1 _ Hgs Hflat' Hclip Hlen) as (ps' & Hall & Hgr).
  eexists. split.
  - rewrite train_step_parts. unfold bind at 1. rewrite Hfb.
    unfold commit.
    unfold bind at 1. unfold get at 1.
    unfold bind at 1. unfold try_except. unfold bind at 1.
    rewrite Hall.
    unfold _opt, zero_grad, optimizer, update_meters, clear_buffered_stats,
      bind, get, ret, modify.
    cbn -[optimizer_grads]. rewrite Ho1, Ho. cbn -[optimizer_grads]. reflexivity.
  - cbn -[optimizer_grads].
    erewrite optimizer_grads_get_grads by exact Hgr.
    rewrite Hn1, Hm1, Hargs.
    repeat split; try rewrite <- app_assoc; try reflexivity.
    apply Forall_forall. intros p Hin. apply in_map_iff in Hin.
    destruct Hin as (q & <- & _). apply zero_param_zeroed.
Qed.

(** X10.  A commit that goes through.  When every trainable parameter has a
    gradient and the clipping returns, [train_step] takes exactly one
    optimizer step, on the rescaled and clipped buffer cut back into the
    parameters' gradients; it then zeroes the gradients, counts the update,
    feeds the three meters, keeps the buffer for the next commit and
    empties the buffered stats. *)
Theorem commit_steps_once (sample : option (sample_t A)) t t1
    (loss : option (loss_t A)) (bs : A) (bq : option A) gs (o : O)
    (n : A) (flat' : list A) :
  forward_backward sample t = (Ok (loss, bs, bq), t1) ->
  get_grads (named_parameters t1) = Ok gs ->
  match _flat_grads t with
  | None => gs <> []
  | Some out => (list_sum (map numel gs) <= length out)%nat
  end ->
  clip_grad_norm_
    (map (fun x => div_int x (sum_Z (sample_sizes (_buffered_stats t1))))
         (concat gs))
    (clip_norm (args t)) = (Ok n, flat') ->
  length flat' = length (concat gs) ->
  _optimizer t = Some o ->
  exists t',
    train_step sample true t = (Ok (Some (loss, n, bs, bq)), t') /\
    _optimizer t' = Some (optimizer_step (map Some (chunks (map numel gs) flat')) o) /\
    optimizer_calls t' = optimizer_calls t1 ++ [StepCall; ZeroGradCall] /\
    _num_updates t' = _num_updates t + 1 /\
    Forall zeroed (named_parameters t') /\
    _flat_grads t' = Some flat' /\
    _buffered_stats t' = no_buffered_stats /\
    meters t' =
      {| gnorm := gnorm (meters t) ++ [n];
         clip := clip (meters t)
                   ++ [if gtb n (clip_norm (args t)) then one else zero];
         oom := oom (meters t)
                  ++ [sum_Z (ooms_fwd (_buffered_stats t1))
                      + sum_Z (ooms_bwd (_buffered_stats t1))] |}.
Proof. apply commit_run. Qed.

(** X11.  A whole accumulation group.  From empty buffered stats, [k] buffering
    steps and a committing one, all of whose passes return, make one
    optimizer step: on the sum of the [k + 1] contributions, every element
    divided by [k + 1], clipped, and cut back parameter by parameter. *)
Theorem accumulation_group (samples : list (sample_t A))
    (css : list (list (option (list A)))) (last : sample_t A)
    (loss : loss_t A) (bs bq : A) (cs : list (option (list A))) t gs (o : O)
    (n : A) (flat' : list A) :
  model (args t) = "MILQT" ->
  _buffered_stats t = no_buffered_stats ->
  map sample_contribution samples = map Some css ->
  forward last = ForwardOk loss bs bq ->
  backward loss = BackwardOk cs ->
  get_grads (fold_left accumulate (css ++ [cs]) (named_parameters t)) = Ok gs ->
  match _flat_grads t with
  | None => gs <> []
  | Some out => (list_sum (map numel gs) <= length out)%nat
  end ->
  clip_grad_norm_
    (map (fun x => div_int x (Z.of_nat (length samples) + 1)) (concat gs))
    (clip_norm (args t)) = (Ok n, flat') ->
  length flat' = length (concat gs) ->
  _optimizer t = Some o ->
  exists t',
    (buffer_steps samples ;; train_step (Some last) true) t
      = (Ok (Some (Some loss, n, bs, Some bq)), t') /\
    _optimizer t' = Some (optimizer_step (map Some (chunks (map numel gs) flat')) o) /\
    optimizer_calls t' = optimizer_calls t ++ [StepCall; ZeroGradCall] /\
    _num_updates t' = _num_updates t + 1 /\
    Forall zeroed (named_parameters t') /\
    _buffered_stats t' = no_buffered_stats.
Proof.
  intros Hmodel Hbuf Hcss Hfwd Hbwd Hgs Hflat Hclip Hlen Ho.
  destruct (buffer_steps_run samples css t Hmodel Hcss)
    as (tk & Hrun & Hps & Hss & _ & _ & Hc & Hok & Hnk & Hflk & Hak).
  assert (Hmodelk : model (args tk) = "MILQT") by (rewrite Hak; exact Hmodel).
  pose proof (forward_backward_ok tk last Hmodelk Hfwd Hbwd) as Hfb.
  set (t1 := with_buffered_stats (buffered_one_more 0 0 (_buffered_stats tk))
               (with_named_parameters (accumulate (named_parameters tk) cs)
                  (with_training true tk))) in *.
  assert (Hgs1 : get_grads (named_parameters t1) = Ok gs).
  { unfold t1. cbn. rewrite Hps. rewrite fold_left_app in Hgs. exact Hgs. }
  assert (Hden : sum_Z (sample_sizes (_buffered_stats t1))
                 = Z.of_nat (length samples) + 1).
  { unfold t1, buffered_one_more. cbn [_buffered_stats with_buffered_stats sample_sizes].
    rewrite Hss, Hbuf. cbn [sample_sizes no_buffered_stats app].
    rewrite sum_Z_app, sum_Z_repeat. reflexivity. }
  destruct (@commit_run (Some last) tk t1 (Some loss) bs (Some bq) gs o n flat')
    as (t' & Hstep & Hopt & Hcalls & Hnum & Hzero & _ & Hb & _).
  - exact Hfb.
  - exact Hgs1.
  - rewrite Hflk. exact Hflat.
  - rewrite Hden, Hak. exact Hclip.
  - exact Hlen.
  - rewrite Hok. exact Ho.
  - exists t'. split.
    + unfold bind. rewrite Hrun. exact Hstep.
    + unfold t1 in Hcalls. cbn in Hcalls.
      rewrite Hcalls, Hc, Hnum, Hnk. repeat split; assumption.
Qed.

End AggregatorFacts.

(** * Further properties of the epoch driver *)

Section EpochFacts.

Import Trainer Driver.

Context {A O : Type} {B : Backend A O}.

Implicit Types (st : epoch_state (A := A) (O := O)) (s : sample_t A) (cfg : config).

Lemma count_commits_app (l1 l2 : list bool) :
  count_commits (l1 ++ l2) = count_commits l1 + count_commits l2.
Proof.
  induction l1 as [|[|] l1 IH]; cbn [count_commits app]; lia.
Qed.

(** An iteration that does not raise made one call of [train_step], and
    took one more commit into its counts exactly when that call committed. *)
Lemma batch_body_counts cfg (num_batches i : Z) s st (c : control) st' :
  batch_body cfg num_batches i s st = (Ok c, st') ->
  exists flag : bool,
    train_step_calls st' = train_step_calls st ++ [flag] /\
    num_updates st' = num_updates st + count_commits [flag] /\
    count_norm st' = count_norm st + count_commits [flag] /\
    (testing cfg = false -> c = Continue).
Proof.
  intros H.
  unfold batch_body in H. unfold bind at 1 in H. unfold lift_res at 1 in H.
  destruct (buffers cfg num_batches i) as [[|]|e]; [| |discriminate].
  - unfold bind in H. rewrite call_train_step_run in H.
    destruct (fst (train_step (Some s) false (the_trainer st))) as [v|e];
      inversion H; subst. cbn -[train_step].
    exists false. cbn [count_commits]. repeat split; lia.
  - unfold bind at 1 in H. rewrite call_train_step_run in H.
    destruct (fst (train_step (Some s) true (the_trainer st)))
      as [[[[[loss gn] bs] bq]|]|e]; [| discriminate | discriminate].
    unfold add_commit, on_trainer, print, bind, modify, get, raise, ret,
      lift_res in H.
    destruct loss as [loss|]; [|discriminate].
    destruct bq as [q|]; [|discriminate].
    cbn -[train_step] in H.
    destruct (py_int_truediv (print_interval cfg) (update_freq cfg)) as [d|e];
      [|discriminate].
    destruct (py_mod (num_updates st + 1) d) as [m|e]; [|discriminate].
    destruct (m =? 0).
    + destruct (num_batches =? 0); [discriminate|].
      cbn -[train_step] in H.
      destruct (testing cfg); inversion H; subst; cbn -[train_step];
        exists true; cbn [count_commits]; repeat split; intros; try lia;
        congruence.
    + inversion H; subst. cbn -[train_step].
      exists true. cbn [count_commits]. repeat split; lia.
Qed.

Lemma batch_loop_counts cfg (num_batches : Z)
    (batches : list (Z * sample_t A)) st st' :
  batch_loop cfg num_batches batches st = (Ok tt, st') ->
  exists new : list bool,
    train_step_calls st' = train_step_calls st ++ new /\
    num_updates st' = num_updates st + count_commits new /\
    count_norm st' = count_norm st + count_commits new /\
    (length new <= length batches)%nat /\
    (testing cfg = false -> length new = length batches).
Proof.
  revert st.
  induction batches as [|[i s] batches IH]; intros st H.
  - inversion H; subst. exists []. cbn. rewrite app_nil_r.
    repeat split; lia.
  - simpl batch_loop in H. unfold bind at 1 in H.
    destruct (batch_body cfg num_batches i s st) as [[c|e] st1] eqn:Hbody;
      [|discriminate].
    destruct (batch_body_counts _ _ _ _ _ Hbody) as (flag & Hc & Hn & Hcn & Ht).
    destruct c.
    + destruct (IH _ H) as (new & Hc' & Hn' & Hcn' & Hlen & Hlen').
      exists (flag :: new).
      rewrite Hc', Hn', Hcn', Hc, Hn, Hcn, <- app_assoc.
      change (flag :: new) with ([flag] ++ new).
      rewrite count_commits_app. cbn [length app].
      repeat split; try lia. intros Htest. rewrite (Hlen' Htest). reflexivity.
    + inversion H; subst. exists [flag]. cbn [length].
      repeat split; try assumption; try lia.
      intros Htest. specialize (Ht Htest). discriminate.
Qed.

(** X12.  The counts of an epoch.  When [train_epoch] returns, [num_updates] is
    the number of committing calls of [train_step] it made, [count_norm] is
    the same number, and there was at least one: an epoch without a commit
    cannot get past [total_loss /= num_updates].  Unless [testing] is set,
    every micro-batch of the loader was passed to [train_step]. *)
Theorem epoch_counts_its_commits cfg (lr_default : float) (epoch N : Z)
    (train_loader : list (sample_t A)) st st' :
  train_epoch cfg lr_default epoch N train_loader st = (Ok tt, st') ->
  exists new : list bool,
    train_step_calls st' = train_step_calls st ++ new /\
    num_updates st' = count_commits new /\
    count_norm st' = count_commits new /\
    1 <= count_commits new /\
    (length new <= length train_loader)%nat /\
    (testing cfg = false -> length new = length train_loader).
Proof.
  intros H.
  unfold train_epoch in H.
  unfold bind at 1 in H. unfold modify at 1 in H.
  unfold bind at 1 in H. unfold lift_res at 1 in H.
  destruct (py_int_truediv_plus1 N (batch_size cfg)) as [num_batches|e];
    [|discriminate].
  unfold bind at 1 in H. unfold get at 1 in H.
  unfold bind at 1 in H. unfold lift_res at 1 in H.
  cbn [lr] in H.
  destruct (LR.set_epoch_lr lr_default epoch (lr st)) as [lr'|e]; [|discriminate].
  unfold bind at 1 in H. unfold modify at 1 in H.
  unfold bind at 1 in H.
  match type of H with
  | context [batch_loop cfg num_batches ?bs ?s0] =>
      destruct (batch_loop cfg num_batches bs s0) as [[[]|e] st1] eqn:Hloop;
        [|discriminate]
  end.
  destruct (batch_loop_counts _ _ _ _ Hloop)
    as (new & Hc & Hn & Hcn & Hlen & Hlen').
  cbn in Hc, Hn, Hcn.
  assert (Henum : forall (l : list (sample_t A)) (k : Z),
             length (enumerate_from k l) = length l).
  { induction l as [|x l IHl]; intros k; simpl; [reflexivity|].
    now rewrite IHl. }
  unfold enumerate in Hlen, Hlen'. rewrite Henum in Hlen, Hlen'.
  unfold bind, get, modify, raise in H.
  destruct (Z.eqb_spec (num_updates st1) 0) as [E|E]; [discriminate|].
  inversion H; subst st'. cbn.
  exists new. rewrite Hc, Hn, Hcn.
  assert (Hpos : 0 <= count_commits new).
  { clear. induction new as [|[|] new IH]; cbn [count_commits]; lia. }
  repeat split; try assumption; lia.
Qed.

(** X13.  An epoch over a loader that yields nothing fails: no commit was made
    and [total_loss /= num_updates] divides by zero. *)
Theorem empty_loader_fails cfg (lr_default : float) (epoch N : Z) st :
  0 <= epoch ->
  fst (train_epoch cfg lr_default epoch N [] st) = Raise ZeroDivisionError.
Proof.
  intros He.
  unfold train_epoch.
  unfold bind at 1. unfold modify at 1.
  unfold bind at 1. unfold lift_res at 1.
  unfold py_int_truediv_plus1.
  destruct (batch_size cfg =? 0); [reflexivity|].
  unfold bind at 1. unfold get at 1.
  unfold bind at 1. unfold lift_res at 1.
  assert (Hlr : exists lr', LR.set_epoch_lr lr_default epoch
                              (lr {| the_trainer := the_trainer st; lr := lr st;
                                     total_loss := zero; train_score := zero;
                                     train_question_type_score := zero;
                                     total_norm := zero; count_norm := 0;
                                     num_updates := 0;
                                     train_step_calls := train_step_calls st |})
                            = Ok lr').
  { unfold LR.set_epoch_lr.
    change (Z.of_nat (length (LR.gradual_warmup_steps lr_default))) with 4.
    destruct (Z.ltb_spec epoch 4) as [Hlt|Hge].
    - assert (Hcases : epoch = 0 \/ epoch = 1 \/ epoch = 2 \/ epoch = 3) by lia.
      destruct Hcases as [-> | [-> | [-> | ->]]]; eexists; reflexivity.
    - destruct (LR.lr_decay_epochs epoch); eexists; reflexivity. }
  destruct Hlr as (lr' & Hlr). rewrite Hlr.
  reflexivity.
Qed.

(** X14.  Where the loop commits when the batch size does not divide the size of
    the dataset: [num_batches] is then the number of micro-batches the
    loader yields, the last of them commits, and before it a micro-batch
    commits exactly when its position is a multiple of [update_freq]. *)
Theorem commit_schedule cfg (N : Z) :
  0 < batch_size cfg -> 0 < update_freq cfg -> 0 <= N ->
  N mod batch_size cfg <> 0 ->
  exists num_batches,
    py_int_truediv_plus1 N (batch_size cfg) = Ok num_batches /\
    (num_batches - 1) * batch_size cfg < N < num_batches * batch_size cfg /\
    buffers cfg num_batches (num_batches - 1) = Ok false /\
    (forall i, 0 <= i < num_batches - 1 ->
       buffers cfg num_batches i
         = Ok (negb ((i + 1) mod update_freq cfg =? 0))).
Proof.
  intros Hbs Huf HN Hmod.
  exists (N / batch_size cfg + 1).
  pose proof (Z.div_mod N (batch_size cfg) ltac:(lia)) as Hdm.
  pose proof (Z.mod_pos_bound N (batch_size cfg) Hbs) as Hb.
  repeat split.
  - unfold py_int_truediv_plus1.
    destruct (Z.eqb_spec (batch_size cfg) 0) as [E|_]; [lia|].
    rewrite Z.quot_div_nonneg by lia.
    replace (N + batch_size cfg) with (N + 1 * batch_size cfg) by ring.
    rewrite Z.div_add by lia. reflexivity.
  - nia.
  - nia.
  - apply index_num_batches_minus_1_commits.
  - intros i Hi. unfold buffers, py_mod.
    destruct (Z.ltb_spec i (N / batch_size cfg + 1 - 1)) as [_|Hbad]; [|lia].
    destruct (Z.eqb_spec (update_freq cfg) 0) as [E|_]; [lia|].
    simpl res_bind.
    pose proof (Z.mod_pos_bound (i + 1) (update_freq cfg) Huf) as Hm.
    destruct (Z.eqb_spec ((i + 1) mod update_freq cfg) 0) as [E|E].
    + rewrite E. reflexivity.
    + destruct (Z.gtb_spec ((i + 1) mod update_freq cfg) 0); [reflexivity|lia].
Qed.

End EpochFacts.

(** * Properties of the evaluator *)

Section EvaluateFacts.

Import Score Driver.

Local Open Scope Q_scope.

Lemma evaluate_loop_upper_bound (model : string) (dataloader : list eval_batch)
    (s0 s : eval_sums) :
  evaluate_loop model dataloader s0 = Ok s ->
  upper_bound_sum (map a dataloader) (upper_bound s0) = Ok (upper_bound s) /\
  upper_bound_sum (map qt dataloader) (question_type_upper_bound s0)
    = Ok (question_type_upper_bound s).
Proof.
  revert s0.
  induction dataloader as [|b rest IH]; intros s0 H; simpl in H.
  - inversion H. split; reflexivity.
  - unfold res_bind at 1 in H.
    destruct (evaluate_batch model b s0) as [s1|e] eqn:Hb; [|discriminate].
    destruct (IH _ H) as [Ha Hq]. clear IH H.
    unfold evaluate_batch in Hb.
    destruct (if (model =? "MILQT")%string then Some (combined_preds b) else None)
      as [p|]; [|discriminate].
    cbn [res_bind] in Hb.
    destruct (compute_score_with_logits p (a b)) as [sc|e]; [|discriminate].
    cbn [res_bind] in Hb.
    destruct (compute_score_with_logits (question_type_preds b) (qt b))
      as [qsc|e]; [|discriminate].
    cbn [res_bind] in Hb.
    destruct (max_rows (a b)) as [am|e] eqn:Ham; [|discriminate].
    cbn [res_bind] in Hb.
    destruct (max_rows (qt b)) as [qm|e] eqn:Hqm; [|discriminate].
    cbn [res_bind] in Hb. inversion Hb; subst s1. clear Hb.
    cbn [upper_bound question_type_upper_bound] in Ha, Hq.
    cbn [map upper_bound_sum]. rewrite Ham, Hqm. cbn [res_bind].
    split; assumption.
Qed.

(** X15.  The upper bound [evaluate] returns is read from the labels alone: it is
    the sum over the batches of the largest weight of each example, divided
    by the size of the dataset, whatever the model predicts. *)
Theorem upper_bound_ignores_predictions (model : string)
    (dataloader : list eval_batch) (dataset_len : positive)
    (sc ub qsc qub : Q) :
  evaluate model dataloader dataset_len = Ok (sc, ub, qsc, qub) ->
  (exists U QU,
     upper_bound_sum (map a dataloader) 0 = Ok U /\
     upper_bound_sum (map qt dataloader) 0 = Ok QU /\
     ub = U / inject_Z (Z.pos dataset_len) /\
     qub = QU / inject_Z (Z.pos dataset_len)) /\
  (forall (model' : string) (dataloader' : list eval_batch) (sc' ub' qsc' qub' : Q),
     map a dataloader' = map a dataloader ->
     map qt dataloader' = map qt dataloader ->
     evaluate model' dataloader' dataset_len = Ok (sc', ub', qsc', qub') ->
     ub' = ub /\ qub' = qub).
Proof.
  assert (Hshape : forall m l (x1 x2 x3 x4 : Q),
             evaluate m l dataset_len = Ok (x1, x2, x3, x4) ->
             exists U QU,
               upper_bound_sum (map a l) 0 = Ok U /\
               upper_bound_sum (map qt l) 0 = Ok QU /\
               x2 = U / inject_Z (Z.pos dataset_len) /\
               x4 = QU / inject_Z (Z.pos dataset_len)).
  { intros m l x1 x2 x3 x4 H. unfold evaluate in H.
    unfold res_bind at 1 in H.
    match type of H with
    | context [evaluate_loop m l ?s0] =>
        destruct (evaluate_loop m l s0) as [s|e] eqn:Hloop; [|discriminate]
    end.
    destruct (evaluate_loop_upper_bound _ _ _ Hloop) as [Ha Hq].
    cbn in Ha, Hq. inversion H; subst.
    exists (upper_bound s), (question_type_upper_bound s). auto. }
  intros H. split; [exact (Hshape _ _ _ _ _ _ H)|].
  intros model' dataloader' sc' ub' qsc' qub' Ha Hq H'.
  destruct (Hshape _ _ _ _ _ _ H) as (U & QU & HU & HQU & -> & ->).
  destruct (Hshape _ _ _ _ _ _ H') as (U' & QU' & HU' & HQU' & -> & ->).
  rewrite Ha in HU'. rewrite Hq in HQU'.
  split; congruence.
Qed.

Lemma fold_max_ge (xs : row) (m : Q) :
  m <= fold_left (fun m y => if Qle_bool y m then m else y) xs m /\
  forall x, In x xs ->
    x <= fold_left (fun m y => if Qle_bool y m then m else y) xs m.
Proof.
  revert m. induction xs as [|y xs IH]; intros m; simpl.
  - split; [apply Qle_refl | intros x []].
  - destruct (Qle_bool y m) eqn:Hym.
    + apply Qle_bool_iff in Hym.
      destruct (IH m) as [Hm Hin]. split; [exact Hm|].
      intros x [<-|Hx]; [eapply Qle_trans; eassumption | auto].
    + assert (Hlt : m <= y).
      { destruct (Qlt_le_dec m y) as [Hl|Hl]; [apply Qlt_le_weak; exact Hl|].
        apply Qle_bool_iff in Hl. congruence. }
      destruct (IH y) as [Hy Hin]. split; [eapply Qle_trans; eassumption|].
      intros x [<-|Hx]; [exact Hy | auto].
Qed.

Lemma max_row_ge (y : row) (mx x : Q) :
  max_row y = Ok mx -> In x y -> x <= mx.
Proof.
  destruct y as [|y0 ys]; simpl; intros H Hin; inversion H; subst.
  destruct (fold_max_ge ys y0) as [H0 Hrest].
  destruct Hin as [<-|Hin]; auto.
Qed.

Lemma sum_row_le (u v : list Q) :
  Forall2 Qle u v -> sum_row u <= sum_row v.
Proof.
  induction 1 as [|x y u v Hxy _ IH].
  - apply Qle_refl.
  - rewrite !sum_row_cons. apply Qplus_le_compat; assumption.
Qed.

Lemma length_argmax_rows (logits : matrix) (js : list nat) :
  argmax_rows logits = Ok js -> length js = length logits.
Proof.
  revert js. induction logits as [|l logits IH]; intros js H; simpl in H.
  - inversion H. reflexivity.
  - destruct (argmax l) as [j|]; [|discriminate]. cbn [res_bind] in H.
    destruct (argmax_rows logits) as [js'|]; [|discriminate].
    inversion H. simpl. f_equal. auto.
Qed.

(** With one prediction for each example, no example scores more than its
    largest label weight. *)
Lemma scores_below_maxima (logits labels scores : matrix) (maxima : list Q) :
  length logits = length labels ->
  compute_score_with_logits logits labels = Ok scores ->
  max_rows labels = Ok maxima ->
  Forall2 Qle (sum_rows scores) maxima.
Proof.
  unfold compute_score_with_logits. intros Hlen H Hmax.
  destruct (argmax_rows logits) as [js|] eqn:Hjs; [|discriminate].
  cbn [res_bind] in H.
  apply length_argmax_rows in Hjs. rewrite Hlen in Hjs. clear Hlen logits.
  revert js scores maxima Hjs H Hmax.
  induction labels as [|y labels IH]; intros js scores maxima Hjs H Hmax.
  - destruct js; [|discriminate]. simpl in H, Hmax.
    inversion H; inversion Hmax. constructor.
  - destruct js as [|j js]; [discriminate|].
    simpl in Hmax.
    destruct (max_row y) as [mx|] eqn:Hmx; [|discriminate].
    cbn [res_bind] in Hmax.
    destruct (max_rows labels) as [mxs|] eqn:Hmxs; [|discriminate].
    inversion Hmax; subst maxima. clear Hmax.
    cbn [zeros_like map scatter_] in H. rewrite length_map in H.
    destruct (Nat.ltb_spec j (length y)) as [Hj|Hj]; [|discriminate].
    fold (zeros_like labels) in H.
    destruct (scatter_ (zeros_like labels) js) as [oh|] eqn:Hoh; [|discriminate].
    cbn [res_bind mul] in H. inversion H; subst scores. clear H.
    cbn [sum_rows map]. constructor.
    + rewrite sum_row_one_hot by exact Hj.
      eapply max_row_ge; [exact Hmx|]. apply nth_In. exact Hj.
    + apply (IH js); [simpl in Hjs; lia | | reflexivity].
      rewrite Hoh. reflexivity.
Qed.

Lemma evaluate_loop_below_bound (model : string) (dataloader : list eval_batch)
    (s0 s : eval_sums) :
  Forall (fun b => length (combined_preds b) = length (a b) /\
                   length (question_type_preds b) = length (qt b)) dataloader ->
  evaluate_loop model dataloader s0 = Ok s ->
  score s0 <= upper_bound s0 ->
  question_type_score s0 <= question_type_upper_bound s0 ->
  score s <= upper_bound s /\
  question_type_score s <= question_type_upper_bound s.
Proof.
  intros Hall. revert s0.
  induction Hall as [|b rest [Hla Hlq] _ IH]; intros s0 H H1 H2; simpl in H.
  - inversion H; subst. split; assumption.
  - unfold res_bind at 1 in H.
    destruct (evaluate_batch model b s0) as [s1|e] eqn:Hb; [|discriminate].
    apply (IH _ H); clear IH H;
      unfold evaluate_batch in Hb;
      destruct ((model =? "MILQT")%string); try discriminate;
      cbn [res_bind] in Hb;
      destruct (compute_score_with_logits (combined_preds b) (a b))
        as [sc|] eqn:Hsc; try discriminate;
      cbn [res_bind] in Hb;
      destruct (compute_score_with_logits (question_type_preds b) (qt b))
        as [qsc|] eqn:Hqsc; try discriminate;
      cbn [res_bind] in Hb;
      destruct (max_rows (a b)) as [am|] eqn:Ham; try discriminate;
      cbn [res_bind] in Hb;
      destruct (max_rows (qt b)) as [qm|] eqn:Hqm; try discriminate;
      cbn [res_bind] in Hb; inversion Hb; subst s1; cbn;
      apply Qplus_le_compat; try assumption; unfold sum; apply sum_row_le.
    + eapply scores_below_maxima; [|exact Hsc|exact Ham]; exact Hla.
    + eapply scores_below_maxima; [|exact Hqsc|exact Hqm]; exact Hlq.
Qed.

(** X16.  The scores [evaluate] returns never exceed their upper bounds, as long
    as every batch comes with one prediction for each of its examples. *)
Theorem score_is_below_its_upper_bound (model : string)
    (dataloader : list eval_batch) (dataset_len : positive)
    (sc ub qsc qub : Q) :
  Forall (fun b => length (combined_preds b) = length (a b) /\
                   length (question_type_preds b) = length (qt b)) dataloader ->
  evaluate model dataloader dataset_len = Ok (sc, ub, qsc, qub) ->
  sc <= ub /\ qsc <= qub.
Proof.
  intros Hall H. unfold evaluate in H. unfold res_bind at 1 in H.
  match type of H with
  | context [evaluate_loop model dataloader ?s0] =>
      destruct (evaluate_loop model dataloader s0) as [s|e] eqn:Hloop;
        [|discriminate]
  end.
  destruct (evaluate_loop_below_bound _ _ Hall Hloop) as [H1 H2];
    [apply Qle_refl | apply Qle_refl |].
  inversion H; subst.
  assert (Hn : 0 <= / inject_Z (Z.pos dataset_len)).
  { apply Qinv_le_0_compat. unfold Qle. simpl. lia. }
  split; unfold Qdiv; apply Qmult_le_compat_r; assumption.
Qed.

End EvaluateFacts.

(** * Further properties of the score, the learning rate and the checkpoints *)

Section ScoreShape.

Import Score.

Local Open Scope Q_scope.

Lemma one_hot_row (y : row) (j : nat) :
  Forall2 (fun o w => o = 0 \/ o = 1) (set_nth j 1 (map (fun _ => 0) y)) y.
Proof.
  revert j. induction y as [|w y IH]; intros [|j]; simpl;
    try constructor; auto.
  clear. induction y; simpl; constructor; auto.
Qed.

Lemma scatter_one_hots (labels : matrix) (index : list nat) (one_hots : matrix) :
  scatter_ (zeros_like labels) index = Ok one_hots ->
  Forall2 (Forall2 (fun o w => o = 0 \/ o = 1)) one_hots labels.
Proof.
  revert index one_hots.
  induction labels as [|y labels IH]; intros index one_hots H.
  - destruct index; simpl in H; [|discriminate]. inversion H. constructor.
  - destruct index as [|j index]; cbn [zeros_like map scatter_] in H.
    + inversion H. constructor.
      * clear. induction y; simpl; constructor; auto.
      * clear. induction labels as [|r labels IHl]; simpl; constructor; auto.
        clear. induction r; simpl; constructor; auto.
    + match type of H with
      | context [if ?c then _ else _] => destruct c; [|discriminate]
      end.
      fold (zeros_like labels) in H.
      destruct (scatter_ (zeros_like labels) index) as [rest|] eqn:Hrest;
        [|discriminate].
      cbn [res_bind] in H. inversion H. constructor.
      * apply one_hot_row.
      * apply (IH index). exact Hrest.
Qed.

(** X17.  Whenever [compute_score_with_logits] returns, its result has the shape
    of the labels, and each of its entries is zero or the label weight at
    its place: a score never exceeds what the labels grant. *)
Theorem scores_are_masked_labels (logits labels scores : matrix) :
  compute_score_with_logits logits labels = Ok scores ->
  same_shape scores labels /\
  Forall2 (Forall2 (fun sc w => sc == 0 \/ sc == w)) scores labels.
Proof.
  unfold compute_score_with_logits. intros H.
  destruct (argmax_rows logits) as [js|]; [|discriminate].
  cbn [res_bind] in H.
  destruct (scatter_ (zeros_like labels) js) as [oh|] eqn:Hoh; [|discriminate].
  cbn [res_bind] in H. inversion H; subst scores. clear H.
  apply scatter_one_hots in Hoh. clear js logits.
  assert (Hrow : forall (o y : row),
             Forall2 (fun o w => o = 0 \/ o = 1) o y ->
             length (mul_row o y) = length y /\
             Forall2 (fun sc w => sc == 0 \/ sc == w) (mul_row o y) y).
  { induction 1 as [|a w o y Ha _ [IH1 IH2]]; simpl.
    - split; constructor.
    - split; [congruence|]. constructor; [|exact IH2].
      destruct Ha as [->| ->]; [left|right]; ring. }
  induction Hoh as [|o y oh labels Ho _ [IH1 IH2]]; simpl.
  - split; constructor.
  - destruct (Hrow _ _ Ho) as [Hl Hf]. split; constructor; assumption.
Qed.

End ScoreShape.

Section ScheduleFacts.

Lemma py_range_cons (start stop : Z) :
  start < stop -> py_range start stop = start :: py_range (start + 1) stop.
Proof.
  intros H. unfold py_range.
  replace (Z.to_nat (stop - start)) with (S (Z.to_nat (stop - (start + 1))))
    by lia.
  cbn [seq map]. f_equal; [lia|].
  rewrite <- seq_shift, map_map.
  apply map_ext. intros k. lia.
Qed.

Lemma py_range_lower (start stop x : Z) : In x (py_range start stop) -> start <= x.
Proof.
  unfold py_range. intros H. apply in_map_iff in H.
  destruct H as (k & <- & _). lia.
Qed.

Lemma set_epoch_lr_returns (lr_default lr : float) (epoch : Z) :
  0 <= epoch -> exists lr', LR.set_epoch_lr lr_default epoch lr = Ok lr'.
Proof.
  intros He. unfold LR.set_epoch_lr.
  change (Z.of_nat (length (LR.gradual_warmup_steps lr_default))) with 4.
  destruct (Z.ltb_spec epoch 4) as [Hlt|Hge].
  - assert (Hcases : epoch = 0 \/ epoch = 1 \/ epoch = 2 \/ epoch = 3) by lia.
    destruct Hcases as [-> | [-> | [-> | ->]]]; eexists; reflexivity.
  - destruct (LR.lr_decay_epochs epoch); eexists; reflexivity.
Qed.

Lemma run_epochs_returns (lr_default : float) (epochs : list Z) (lr : float) :
  Forall (fun e => 0 <= e) epochs ->
  exists lr', LR.run_epochs lr_default epochs lr = Ok lr'.
Proof.
  intros H. revert lr.
  induction H as [|e epochs He _ IH]; intros lr; simpl.
  - eexists; reflexivity.
  - destruct (set_epoch_lr_returns lr_default lr He) as (lr1 & ->).
    apply IH.
Qed.

(** X18.  A run that starts in a warmup epoch forgets the learning rate its
    optimizer came with: at every epoch from the first on, the rate is set,
    and it is the same whatever the optimizer held before the run. *)
Theorem warmup_overrides_the_optimizer_lr (lr_default : float)
    (s_epoch epoch : Z) :
  0 <= s_epoch < 4 -> s_epoch <= epoch ->
  forall lr_init,
    exists lr,
      LR.lr_during lr_default s_epoch epoch lr_init = Ok lr /\
      forall lr_init',
        LR.lr_during lr_default s_epoch epoch lr_init' = Ok lr.
Proof.
  intros Hs He lr_init. unfold LR.lr_during.
  rewrite py_range_cons by lia.
  assert (Hfirst : exists w, forall l, LR.set_epoch_lr lr_default s_epoch l = Ok w).
  { unfold LR.set_epoch_lr.
    change (Z.of_nat (length (LR.gradual_warmup_steps lr_default))) with 4.
    assert (Hcases : s_epoch = 0 \/ s_epoch = 1 \/ s_epoch = 2 \/ s_epoch = 3)
      by lia.
    destruct Hcases as [-> | [-> | [-> | ->]]]; eexists; intros l; reflexivity. }
  destruct Hfirst as (w & Hw).
  assert (Hrest : Forall (fun e => 0 <= e) (py_range (s_epoch + 1) (epoch + 1))).
  { apply Forall_forall. intros x Hx. apply py_range_lower in Hx. lia. }
  destruct (run_epochs_returns lr_default w Hrest) as (lr & Hlr).
  exists lr. cbn [LR.run_epochs]. split.
  - rewrite Hw. exact Hlr.
  - intros lr_init'. rewrite Hw. exact Hlr.
Qed.

Lemma map_seq_offset (n a : nat) (f : nat -> Z) :
  map f (seq a n) = map (fun k => f (a + k)%nat) (seq 0 n).
Proof.
  revert a f. induction n as [|n IH]; intros a f; simpl.
  - reflexivity.
  - rewrite Nat.add_0_r. f_equal.
    rewrite (IH (S a) f), (IH 1%nat (fun k => f (a + k)%nat)).
    apply map_ext. intros k. f_equal. lia.
Qed.

Lemma py_range_app (start mid stop : Z) :
  start <= mid <= stop ->
  py_range start stop = py_range start mid ++ py_range mid stop.
Proof.
  intros H. unfold py_range.
  replace (Z.to_nat (stop - start))
    with (Z.to_nat (mid - start) + Z.to_nat (stop - mid))%nat by lia.
  rewrite seq_app, map_app. f_equal.
  rewrite map_seq_offset. apply map_ext. intros k. lia.
Qed.

Lemma run_epochs_app (lr_default : float) (l1 l2 : list Z) (lr : float) :
  LR.run_epochs lr_default (l1 ++ l2) lr =
  (let? lr1 := LR.run_epochs lr_default l1 lr in LR.run_epochs lr_default l2 lr1).
Proof.
  revert lr. induction l1 as [|e l1 IH]; intros lr; simpl.
  - reflexivity.
  - destruct (LR.set_epoch_lr lr_default e lr) as [lr'|]; simpl; auto.
Qed.

(** X19.  Resuming keeps the schedule.  A run stopped after epoch [epoch] and
    resumed at [epoch + 1] with the optimizer it had (as [train] does when
    given [opt] and [s_epoch]) has, at every later epoch, the learning rate
    of the run that was never stopped. *)
Theorem resuming_keeps_the_schedule (lr_default : float)
    (s_epoch epoch epoch' : Z) (lr_init lr : float) :
  s_epoch <= epoch + 1 -> epoch <= epoch' ->
  LR.lr_during lr_default s_epoch epoch lr_init = Ok lr ->
  LR.lr_during lr_default (epoch + 1) epoch' lr
  = LR.lr_during lr_default s_epoch epoch' lr_init.
Proof.
  intros Hs He H. unfold LR.lr_during in *.
  rewrite (@py_range_app s_epoch (epoch + 1) (epoch' + 1)) by lia.
  rewrite run_epochs_app, H. reflexivity.
Qed.

End ScheduleFacts.

Section MessageFacts.

Lemma prefix_app (needle hay : string) :
  String.prefix needle hay = true <->
  exists post, hay = (needle ++ post)%string.
Proof.
  revert hay. induction needle as [|c needle IH]; intros hay.
  - split; [intros _; exists hay; reflexivity | intros _; destruct hay; reflexivity].
  - destruct hay as [|d hay]; simpl.
    + split; [discriminate | intros [post H]; discriminate].
    + destruct (ascii_dec c d) as [->|Hcd].
      * rewrite IH. split; intros [post H]; exists post.
        -- simpl. rewrite H. reflexivity.
        -- simpl in H. inversion H. reflexivity.
      * split; [discriminate|]. intros [post H]. simpl in H.
        inversion H. congruence.
Qed.

(** X20.  The test ['out of memory' in str(e)] of the two handlers: it holds
    exactly for a RuntimeError whose message has the words somewhere in
    it. *)
Theorem out_of_memory_is_a_substring_test (e : exn) :
  is_out_of_memory e = true <->
  exists pre post,
    e = RuntimeError (pre ++ "out of memory" ++ post)%string.
Proof.
  assert (Hc : forall needle hay,
             contains needle hay = true <->
             exists pre post, hay = (pre ++ needle ++ post)%string).
  { intros needle hay. induction hay as [|c hay IH].
    - change (contains needle "")
        with (if String.prefix needle "" then true else false).
      destruct (String.prefix needle "") eqn:Hp.
      + apply prefix_app in Hp. destruct Hp as [post Hp].
        split; [|reflexivity]. intros _. exists ""%string, post. exact Hp.
      + split; [discriminate|]. intros (pre & post & H).
        destruct pre; simpl in H; [|discriminate].
        assert (Hp' : String.prefix needle "" = true)
          by (apply prefix_app; exists post; exact H).
        congruence.
    - change (contains needle (String c hay))
        with (if String.prefix needle (String c hay) then true
              else contains needle hay).
      destruct (String.prefix needle (String c hay)) eqn:Hp.
      + apply prefix_app in Hp. destruct Hp as [post Hp].
        split; [|reflexivity]. intros _. exists ""%string, post. exact Hp.
      + rewrite IH. split.
        * intros (pre & post & H). exists (String c pre), post.
          simpl. rewrite H. reflexivity.
        * intros (pre & post & H). destruct pre as [|d pre]; simpl in H.
          -- assert (Hp' : String.prefix needle (String c hay) = true)
               by (apply prefix_app; exists post; exact H).
             congruence.
          -- inversion H. exists pre, post. reflexivity. }
  destruct e; cbn [is_out_of_memory];
    try (split; [discriminate | intros (pre & post & H); discriminate]).
  rewrite Hc. split; intros (pre & post & H); exists pre, post.
  - rewrite H. reflexivity.
  - inversion H. reflexivity.
Qed.

End MessageFacts.

Section CheckpointFacts.

Import Checkpoint.

Local Open Scope Q_scope.

Lemma Qgtb_lt (x y : Q) : Qgtb x y = true <-> y < x.
Proof.
  unfold Qgtb. rewrite negb_true_iff. split.
  - intros H. destruct (Qlt_le_dec y x) as [Hlt|Hle]; [exact Hlt|].
    apply Qle_bool_iff in Hle. congruence.
  - intros H. destruct (Qle_bool x y) eqn:E; [|reflexivity].
    apply Qle_bool_iff in E. exfalso. exact (Qlt_irrefl _ (Qlt_le_trans _ _ _ H E)).
Qed.

Lemma Qgtb_le (x y : Q) : Qgtb x y = false <-> x <= y.
Proof.
  unfold Qgtb. rewrite negb_false_iff. apply Qle_bool_iff.
Qed.

Lemma save_per_epoch_best (epoch : Z) (eval_score : option Q) (s : state) :
  best_eval_score s <= best_eval_score (save_per_epoch epoch eval_score s) /\
  (forall score, eval_score = Some score -> (saving_epoch <= epoch)%Z ->
     score <= best_eval_score (save_per_epoch epoch eval_score s)) /\
  (best_eval_score (save_per_epoch epoch eval_score s) = best_eval_score s \/
   (eval_score = Some (best_eval_score (save_per_epoch epoch eval_score s)) /\
    (saving_epoch <= epoch)%Z /\
    best_eval_score s < best_eval_score (save_per_epoch epoch eval_score s))).
Proof.
  unfold save_per_epoch.
  destruct (Z.leb_spec saving_epoch epoch) as [He|He].
  - destruct eval_score as [score|]; cbn [best_eval_score].
    + destruct (Qgtb score (best_eval_score s)) eqn:Hgt; cbn [best_eval_score].
      * apply Qgtb_lt in Hgt. repeat split.
        -- apply Qlt_le_weak. exact Hgt.
        -- intros sc Hsc _. inversion Hsc. apply Qle_refl.
        -- right. auto.
      * apply Qgtb_le in Hgt. repeat split.
        -- apply Qle_refl.
        -- intros sc Hsc _. inversion Hsc; subst. exact Hgt.
        -- left. reflexivity.
    + repeat split; [apply Qle_refl | discriminate | left; reflexivity].
  - repeat split; [apply Qle_refl | intros; lia | left; reflexivity].
Qed.

Lemma run_best_eval_score (epochs : list (Z * option Q)) (s : state) :
  best_eval_score s <= best_eval_score (run epochs s) /\
  (forall e score, In (e, Some score) epochs -> (saving_epoch <= e)%Z ->
     score <= best_eval_score (run epochs s)) /\
  (best_eval_score (run epochs s) = best_eval_score s \/
   exists e, In (e, Some (best_eval_score (run epochs s))) epochs /\
             (saving_epoch <= e)%Z /\
             best_eval_score s < best_eval_score (run epochs s)) /\
  (Forall (fun p => (fst p < saving_epoch)%Z) epochs -> run epochs s = s).
Proof.
  revert s. induction epochs as [|[e sc] epochs IH]; intros s.
  - cbn. repeat split; [apply Qle_refl | intros ? ? [] | left; reflexivity].
  - cbn [run].
    destruct (IH (save_per_epoch e sc s)) as (Hmono & Hall & Hwhich & Hearly).
    destruct (save_per_epoch_best e sc s) as (Hmono1 & Hall1 & Hwhich1).
    repeat split.
    + eapply Qle_trans; eassumption.
    + intros e' score [Heq|Hin] He'.
      * inversion Heq; subst. eapply Qle_trans; [|exact Hmono]. now apply Hall1.
      * now apply (Hall e').
    + destruct Hwhich as [Hsame|(e' & Hin & He' & Hlt)].
      * rewrite Hsame. destruct Hwhich1 as [Hsame1|(Hsc & He & Hlt1)].
        -- left. exact Hsame1.
        -- right. exists e. split; [left; f_equal; exact Hsc|]. auto.
      * right. exists e'. split; [right; exact Hin|]. split; [exact He'|].
        eapply Qle_lt_trans; eassumption.
    + intros Hf. inversion Hf as [|? ? He Hrest]; subst. cbn [fst] in He.
      rewrite (Hearly Hrest).
      unfold save_per_epoch.
      destruct (Z.leb_spec saving_epoch e); [lia|reflexivity].
Qed.

(** X21.  [best_eval_score] is the largest evaluation score seen from
    [saving_epoch] on, or the value it had before if none was larger: it
    never decreases, no score of an epoch from [saving_epoch] on exceeds it,
    and it is its old value or one of these scores.  The scores of earlier
    epochs do not count, and a run of such epochs writes nothing. *)
Theorem best_eval_score_is_the_maximum (epochs : list (Z * option Q)) (s : state) :
  best_eval_score s <= best_eval_score (run epochs s) /\
  (forall e score, In (e, Some score) epochs -> (saving_epoch <= e)%Z ->
     score <= best_eval_score (run epochs s)) /\
  (best_eval_score (run epochs s) = best_eval_score s \/
   exists e, In (e, Some (best_eval_score (run epochs s))) epochs /\
             (saving_epoch <= e)%Z /\
             best_eval_score s < best_eval_score (run epochs s)) /\
  (Forall (fun p => (fst p < saving_epoch)%Z) epochs -> run epochs s = s).
Proof. apply run_best_eval_score. Qed.

(** X22.  When the "best" checkpoint is written.  After the epochs [before], the
    end of epoch [e] with evaluation score [score] writes the checkpoint of
    the epoch and then the best one exactly when [e] has reached
    [saving_epoch], the score is positive, and it is strictly greater than
    the score of every earlier epoch from [saving_epoch] on. *)
Theorem best_is_saved_on_strict_improvement (before : list (Z * option Q))
    (e : Z) (score : Q) :
  saves (save_per_epoch e (Some score) (run before initial))
    = saves (run before initial) ++ [SaveEpoch e; SaveBest e]
  <->
  ((saving_epoch <= e)%Z /\ 0 < score /\
   forall e' score', In (e', Some score') before -> (saving_epoch <= e')%Z ->
                     score' < score).
Proof.
  destruct (run_best_eval_score before initial)
    as (Hmono & Hall & Hwhich & _).
  cbn [best_eval_score initial] in Hmono, Hwhich.
  unfold save_per_epoch.
  destruct (Z.leb_spec saving_epoch e) as [He|He]; cbn [saves best_eval_score].
  - destruct (Qgtb score (best_eval_score (run before initial))) eqn:Hgt;
      cbn [saves].
    + apply Qgtb_lt in Hgt. split.
      * intros _. split; [exact He|]. split.
        -- eapply Qle_lt_trans; eassumption.
        -- intros e' score' Hin He'.
           eapply Qle_lt_trans; [|exact Hgt]. now apply (Hall e').
      * intros _. rewrite <- app_assoc. reflexivity.
    + apply Qgtb_le in Hgt. split.
      * intros H. apply app_inv_head in H. discriminate.
      * intros (_ & Hpos & Hlt). exfalso.
        destruct Hwhich as [Hsame|(e' & Hin & He' & _)].
        -- rewrite Hsame in Hgt.
           exact (Qlt_irrefl _ (Qlt_le_trans _ _ _ Hpos Hgt)).
        -- specialize (Hlt _ _ Hin He').
           exact (Qlt_irrefl _ (Qlt_le_trans _ _ _ Hlt Hgt)).
  - split.
    + intros H. apply (f_equal (@length save)) in H.
      rewrite length_app in H. simpl in H. lia.
    + intros (He' & _). lia.
Qed.

End CheckpointFacts.

(** * The further properties on concrete runs *)

Import MoreExamples.

Lemma forward_absorbs_only_out_of_memory_witness :
  train_step (B := a_backend) (Some a_failing_sample) true
    (a_trainer "MILQT" (Some [2; 4]))
  = (Raise (RuntimeError "CUDA error: device-side assert triggered"),
     with_training true (a_trainer "MILQT" (Some [2; 4]))).
Proof.
  destruct (@forward_absorbs_only_out_of_memory Z nat a_backend
              (a_trainer "MILQT" (Some [2; 4])) a_failing_sample
              (RuntimeError "CUDA error: device-side assert triggered") false)
    as [_ Hstep].
  - reflexivity.
  - reflexivity.
  - apply Hstep. reflexivity.
Defined.

Lemma backward_oom_zeroes_the_gradients_witness :
  exists t',
    train_step (B := a_backend) (Some a_backward_oom_sample) false
      (a_trainer "MILQT" (Some [2; 4])) = (Ok None, t') /\
    named_parameters t'
      = [ {| name := "w"; requires_grad := true; grad := Some [0; 0] |};
          {| name := "frozen"; requires_grad := false; grad := None |} ] /\
    optimizer_calls t' = [ZeroGradCall].
Proof.
  destruct (@backward_oom_zeroes_the_gradients Z nat a_backend
              (a_trainer "MILQT" (Some [2; 4])) a_backward_oom_sample
              a_backward_oom_loss 2 1 "CUDA out of memory." 0%nat)
    as (_ & t' & Hstep & _ & Hcalls & Hps & _).
  - reflexivity.
  - reflexivity.
  - reflexivity.
  - reflexivity.
  - reflexivity.
  - exists t'. repeat split; assumption.
Defined.

Lemma no_optimizer_no_commit_witness :
  exists e,
    fst (train_step (B := a_backend) (Some (a_sample (Some [2; 4]))) true
           a_trainer_without_optimizer) = Raise e.
Proof.
  destruct (@no_optimizer_no_commit Z nat a_backend a_trainer_without_optimizer)
    as (_ & _ & Hcommit & _).
  - reflexivity.
  - apply (Hcommit (Some (a_sample (Some [2; 4]))) _
             (snd (train_step (B := a_backend) (Some (a_sample (Some [2; 4])))
                     true a_trainer_without_optimizer))).
    apply surjective_pairing.
Defined.


Lemma buffer_steps_accumulate_witness :
  exists t',
    buffer_steps (B := a_backend)
      [a_sample (Some [2; 4]); a_sample (Some [1; 1])] (a_trainer "MILQT" None)
    = (Ok tt, t') /\
    named_parameters t'
      = [ {| name := "w"; requires_grad := true; grad := Some [3; 5] |};
          {| name := "frozen"; requires_grad := false; grad := None |} ] /\
    sample_sizes (_buffered_stats t') = [1; 1].
Proof.
  destruct (@buffer_steps_accumulate Z nat a_backend
              [a_sample (Some [2; 4]); a_sample (Some [1; 1])]
              [[Some [2; 4]; None]; [Some [1; 1]; None]]
              (a_trainer "MILQT" None))
    as (t' & Hrun & Hps & Hss & _).
  - reflexivity.
  - reflexivity.
  - exists t'. repeat split; assumption.
Defined.

Lemma dummy_train_step_leaves_nothing_witness :
  _buffered_stats
    (snd (dummy_train_step (B := a_backend) (Some (a_sample (Some [2; 4])))
            (a_trainer "MILQT" None)))
  = no_buffered_stats /\
  _num_updates
    (snd (dummy_train_step (B := a_backend) (Some (a_sample (Some [2; 4])))
            (a_trainer "MILQT" None))) = 0.
Proof.
  destruct (@dummy_train_step_leaves_nothing Z nat a_backend
              (Some (a_sample (Some [2; 4]))) (a_trainer "MILQT" None)
              (snd (dummy_train_step (B := a_backend)
                      (Some (a_sample (Some [2; 4]))) (a_trainer "MILQT" None))))
    as (Hbuf & _ & _ & Hnum & _).
  - reflexivity.
  - split; assumption.
Defined.

Lemma flatten_then_scatter_is_identity_witness :
  _get_flat_grads (B := a_backend) None a_larger_trainer
    = (Ok [2; 4; 6], a_larger_trainer) /\
  _set_flat_grads [2; 4; 6] a_larger_trainer = (Ok tt, a_larger_trainer).
Proof.
  destruct (@flatten_then_scatter_is_identity Z nat a_backend a_larger_trainer
              [[2; 4]; [6]])
    as (Hget & _ & Hset & _).
  - reflexivity.
  - discriminate.
  - split; assumption.
Defined.

Lemma no_trainable_parameter_no_commit_witness :
  fst (train_step (B := a_backend) (Some (a_sample None)) true a_frozen_trainer)
  = Raise IndexError.
Proof.
  destruct (@no_trainable_parameter_no_commit Z nat a_backend
              (Some (a_sample None)) a_frozen_trainer
              (Some {| item := 3; backward := BackwardOk [None; None] |}, 2, Some 1)
              (snd (forward_backward (B := a_backend) (Some (a_sample None))
                      a_frozen_trainer)))
    as (_ & Hstep).
  - reflexivity.
  - repeat constructor.
  - reflexivity.
  - rewrite Hstep. reflexivity.
Defined.

Lemma commit_steps_once_witness :
  exists t',
    train_step (B := a_backend) (Some (a_sample (Some [2; 4]))) true
      (a_trainer "MILQT" (Some [4; 4]))
    = (Ok (Some (Some {| item := 3; backward := BackwardOk [Some [2; 4]; None] |},
                 5, 2, Some 1)), t') /\
    _optimizer t' = Some 1%nat /\
    _num_updates t' = 1 /\
    _flat_grads t' = Some [6; 8].
Proof.
  destruct (@commit_steps_once Z nat a_backend
              (Some (a_sample (Some [2; 4]))) (a_trainer "MILQT" (Some [4; 4]))
              (snd (forward_backward (B := a_backend)
                      (Some (a_sample (Some [2; 4])))
                      (a_trainer "MILQT" (Some [4; 4]))))
              (Some {| item := 3; backward := BackwardOk [Some [2; 4]; None] |})
              2 (Some 1) [[6; 8]] 0%nat 5 [6; 8])
    as (t' & Hstep & Hopt & _ & Hnum & _ & Hflat & _).
  - reflexivity.
  - reflexivity.
  - discriminate.
  - reflexivity.
  - reflexivity.
  - reflexivity.
  - exists t'. repeat split; assumption.
Defined.

Lemma epoch_counts_its_commits_witness :
  exists new : list bool,
    train_step_calls
      (snd (train_epoch (B := a_backend) a_config 0.001 0 5
              [a_sample (Some [2; 4]); a_sample (Some [2; 4]);
               a_sample (Some [2; 4])]
              an_epoch_state)) = [] ++ new /\
    num_updates
      (snd (train_epoch (B := a_backend) a_config 0.001 0 5
              [a_sample (Some [2; 4]); a_sample (Some [2; 4]);
               a_sample (Some [2; 4])]
              an_epoch_state)) = count_commits new /\
    length new = 3%nat.
Proof.
  destruct (@epoch_counts_its_commits Z nat a_backend a_config 0.001%float 0 5
              [a_sample (Some [2; 4]); a_sample (Some [2; 4]);
               a_sample (Some [2; 4])]
              an_epoch_state
              (snd (train_epoch (B := a_backend) a_config 0.001 0 5
                      [a_sample (Some [2; 4]); a_sample (Some [2; 4]);
                       a_sample (Some [2; 4])]
                      an_epoch_state)))
    as (new & Hcalls & Hnum & _ & _ & _ & Hlen).
  - vm_compute. reflexivity.
  - exists new. split; [exact Hcalls|]. split; [exact Hnum|].
    apply Hlen. reflexivity.
Defined.

Lemma empty_loader_fails_witness :
  fst (train_epoch (B := a_backend) a_config 0.001 7 0 [] an_epoch_state)
  = Raise ZeroDivisionError.
Proof.
  apply (@empty_loader_fails Z nat a_backend). lia.
Defined.

Lemma commit_schedule_witness :
  exists num_batches,
    py_int_truediv_plus1 5 (batch_size a_config) = Ok num_batches /\
    buffers a_config num_batches (num_batches - 1) = Ok false.
Proof.
  destruct (@commit_schedule a_config 5) as (nb & Hnb & _ & Hlast & _).
  - reflexivity.
  - reflexivity.
  - lia.
  - discriminate.
  - exists nb. split; assumption.
Defined.

Lemma upper_bound_ignores_predictions_witness :
  exists sc ub qsc qub U,
    evaluate "MILQT" [an_eval_batch] 1 = Ok (sc, ub, qsc, qub) /\
    upper_bound_sum [a an_eval_batch] 0 = Ok U /\
    ub = (U / inject_Z 1)%Q.
Proof.
  destruct (@upper_bound_ignores_predictions "MILQT" [an_eval_batch] 1%positive
              (1 # 1)%Q (1 # 1)%Q (1 # 1)%Q (1 # 1)%Q)
    as [(U & QU & HU & _ & Hub & _) _].
  - reflexivity.
  - exists (1 # 1)%Q, (1 # 1)%Q, (1 # 1)%Q, (1 # 1)%Q, U.
    split; [reflexivity|]. split; assumption.
Defined.

Lemma score_is_below_its_upper_bound_witness :
  exists sc ub qsc qub,
    evaluate "MILQT" [an_eval_batch] 1 = Ok (sc, ub, qsc, qub) /\
    (sc <= ub)%Q /\ (qsc <= qub)%Q.
Proof.
  destruct (@score_is_below_its_upper_bound "MILQT" [an_eval_batch] 1%positive
              (1 # 1)%Q (1 # 1)%Q (1 # 1)%Q (1 # 1)%Q)
    as [H1 H2].
  - repeat constructor.
  - reflexivity.
  - exists (1 # 1)%Q, (1 # 1)%Q, (1 # 1)%Q, (1 # 1)%Q.
    split; [reflexivity|]. split; assumption.
Defined.

Lemma scores_are_masked_labels_witness :
  exists scores,
    Score.compute_score_with_logits [[1 # 2; 3 # 2; 1 # 4]]%Q [[0; 3 # 10; 1]]%Q
      = Ok scores /\
    Score.same_shape scores [[0; 3 # 10; 1]]%Q.
Proof.
  destruct (@scores_are_masked_labels [[1 # 2; 3 # 2; 1 # 4]]%Q
              [[0; 3 # 10; 1]]%Q [[0; 3 # 10; 0]]%Q)
    as [H _].
  - reflexivity.
  - eexists. split; [reflexivity | exact H].
Defined.

Lemma warmup_overrides_the_optimizer_lr_witness :
  exists lr,
    LR.lr_during 0.001 2 12 0.5 = Ok lr /\
    LR.lr_during 0.001 2 12 0.001 = Ok lr.
Proof.
  destruct (@warmup_overrides_the_optimizer_lr 0.001%float 2 12) with
    (lr_init := 0.5%float) as (lr & H1 & H2).
  - lia.
  - lia.
  - exists lr. split; [exact H1 | apply H2].
Defined.

Lemma accumulation_group_witness :
  exists t',
    (buffer_steps (B := a_backend) [a_sample (Some [2; 4])] ;;
     train_step (B := a_backend) (Some (a_sample (Some [4; 4]))) true)
      (a_trainer "MILQT" None)
    = (Ok (Some (Some {| item := 3; backward := BackwardOk [Some [4; 4]; None] |},
                 5, 2, Some 1)), t') /\
    _optimizer t' = Some 1%nat /\
    _num_updates t' = 1.
Proof.
  destruct (@accumulation_group Z nat a_backend
              [a_sample (Some [2; 4])] [[Some [2; 4]; None]]
              (a_sample (Some [4; 4]))
              {| item := 3; backward := BackwardOk [Some [4; 4]; None] |} 2 1
              [Some [4; 4]; None] (a_trainer "MILQT" None) [[6; 8]] 0%nat
              5 [3; 4])
    as (t' & Hrun & Hopt & _ & Hnum & _).
  - reflexivity.
  - reflexivity.
  - reflexivity.
  - reflexivity.
  - reflexivity.
  - reflexivity.
  - discriminate.
  - reflexivity.
  - reflexivity.
  - reflexivity.
  - exists t'. repeat split; assumption.
Defined.

Lemma resuming_keeps_the_schedule_witness :
  LR.lr_during 0.001 10 12 0.002 = LR.lr_during 0.001 0 12 0.001.
Proof.
  apply (@resuming_keeps_the_schedule 0.001%float 0 9 12 0.001%float 0.002%float).
  - lia.
  - lia.
  - vm_compute. reflexivity.
Defined.
